(** * The query cache manager of [cache_manager.py]

    A shallow embedding of [QueryCacheManager] and of the integration
    function [process_query_with_cache].  The manager is a thin engine in
    front of a PostgreSQL store: every method is a sequence of statements
    sent over a pooled connection, wrapped in [try ... except Exception].
    The embedding keeps exactly that shape: a state-and-exception monad over
    a world made of the manager object, the store, and the list of
    statements issued so far. *)

From Stdlib Require Import ZArith String Ascii.
From Stdlib Require Import Floats.PrimFloat Floats.SpecFloat Floats.FloatOps.
From stdpp Require Import base option list gmap strings pretty.

(** ** Python values and control flow *)

(** The exception classes that occur; all of them derive from Python's
    [Exception], which is what every handler of the module catches. *)
Inductive Exception : Type :=
  | ValueError
  | TypeError
  | AttributeError
  | KeyError
  | RecursionError
  | TimeoutError
  | ConnectionError
  | PostgresError (sqlstate : string).

(** The result of running a piece of Python: a value, or a raised
    exception. *)
Inductive outcome (A : Type) : Type :=
  | Ok (a : A)
  | Raise (e : Exception).
Arguments Ok {A} a.
Arguments Raise {A} e.

(** Computations over a world [W]: state passing with exceptions.  The
    world that is returned with a [Raise] holds the effects performed
    before the exception. *)
Definition M (W A : Type) : Type := W -> outcome A * W.

Definition ret {W A : Type} (a : A) : M W A := fun w => (Ok a, w).

Definition raise {W A : Type} (e : Exception) : M W A := fun w => (Raise e, w).

Definition bind {W A B : Type} (m : M W A) (k : A -> M W B) : M W B :=
  fun w =>
    match m w with
    | (Ok a, w') => k a w'
    | (Raise e, w') => (Raise e, w')
    end.

Notation "'let*' x ':=' m 'in' k" := (bind m (fun x => k))
  (at level 10, x name, m at level 200, k at level 200).

(** [try: body  except Exception as e: handler e]. *)
Definition try_except {W A : Type} (body : M W A) (handler : Exception -> M W A)
  : M W A :=
  fun w =>
    match body w with
    | (Ok a, w') => (Ok a, w')
    | (Raise e, w') => handler e w'
    end.

(** Leaving an [async with] block: [exit] runs on every path out of
    [body]; an exception raised by [exit] replaces the result of [body]. *)
Definition async_with_exit {W A : Type} (body : M W A) (exit : M W unit) : M W A :=
  fun w =>
    let '(r, w1) := body w in
    match exit w1 with
    | (Ok _, w2) => (r, w2)
    | (Raise e, w2) => (Raise e, w2)
    end.

(** Truth value of a float: [bool(x)] is [x != 0.0], so both zeros are
    false and NaN is true. *)
Definition float_truthy (x : float) : bool := negb (PrimFloat.eqb x 0%float).

(** [x or d] for [x : Optional[float]]: [None] and the zeros are falsy. *)
Definition float_or (x : option float) (d : float) : float :=
  match x with
  | None => d
  | Some f => if float_truthy f then f else d
  end.

(** [n or 0] for [n : Optional[int]]. *)
Definition int_or_0 (n : option Z) : Z :=
  match n with
  | None => 0%Z
  | Some z => if (z =? 0)%Z then 0%Z else z
  end.

(** [str.lower()] on the ASCII letters; bytes of other characters are kept.
    No non-ASCII character lower-cases to one of the letters of [true], so
    the comparison made by [_load_config] is unaffected. *)
Definition ascii_lower (c : ascii) : ascii :=
  let n := nat_of_ascii c in
  if (65 <=? n)%nat && (n <=? 90)%nat then ascii_of_nat (n + 32) else c.

Fixpoint lower (s : string) : string :=
  match s with
  | EmptyString => EmptyString
  | String c s' => String (ascii_lower c) (lower s')
  end.

(** What the module takes from the Python runtime and from pydantic:
    [float(s)] and [int(s)] on a [str] ([None] stands for [ValueError]),
    and [hasattr(CacheConfig, key)]. *)
Class Runtime : Type := {
  py_float : string -> option float;
  py_int : string -> option Z;
  hasattr_CacheConfig : string -> bool;
}.

(** ** Data model *)

Definition uuid : Type := string.
Definition embedding : Type := list float.
(** The [dict] payloads (parts, annotations) are passed through untouched. *)
Definition jsonb : Type := string.

(** [str(cache_id) if cache_id else None] on the answer of the insert: an
    identifier is kept as its text, and an answer that is [None] or empty is
    falsy. *)
Definition str_if_truthy (cache_id : option uuid) : option string :=
  match cache_id with
  | Some (String c id) => Some (String c id)
  | _ => None
  end.

Record CacheHit : Type := {
  cache_id : string;
  user_message_id : string;
  assistant_message_id : string;
  rephrased_query : string;
  similarity_score : float;
  cache_hits : Z;
  user_question : string;
  assistant_answer : string;
  user_parts : jsonb;
  assistant_parts : jsonb;
  user_annotations : jsonb;
  assistant_annotations : jsonb;
}.

Record CacheConfig : Type := {
  similarity_threshold : float;
  cache_enabled : bool;
  max_cache_entries : Z;
}.

(** [CacheConfig()]: 0.85 (the nearest double), [True], 5000. *)
Definition default_threshold : float := 0x1.b333333333333p-1%float.

Definition CacheConfig_default : CacheConfig :=
  {| similarity_threshold := default_threshold;
     cache_enabled := true;
     max_cache_entries := 5000 |}.

(** A row of [find_similar_cached_query]. *)
Record CacheRow : Type := {
  row_cache_id : uuid;
  row_user_message_id : uuid;
  row_assistant_message_id : uuid;
  row_rephrased_query : string;
  row_similarity_score : float;
  row_cache_hits : Z;
}.

(** A row of [get_cached_answer_details]. *)
Record AnswerRow : Type := {
  row_user_question : string;
  row_assistant_answer : string;
  row_user_parts : jsonb;
  row_assistant_parts : jsonb;
  row_user_annotations : jsonb;
  row_assistant_annotations : jsonb;
}.

(** [CachedResponse]. *)
Record CachedResponse : Type := {
  answer : string;
  source : string;
  response_cache_id : option string;
  response_similarity_score : option float;
  processing_time_ms : option float;
  response_cache_hits : option Z;
}.

(** The dict returned by [llm_processor_func], for a result that holds a
    text under each of the two keys that [process_query_with_cache] reads.
    A result without an answer, or with something else than a text under a
    key, is outside this type; on such a result the function fails on its
    own after the insertion. *)
Record LlmResult : Type := {
  llm_answer : string;
  llm_assistant_message_id : uuid;
}.

(** Everything the manager sends to the pool or over a connection. *)
Inductive Stmt : Type :=
  | CreatePool
  | PoolAcquire
  | PoolRelease
  | PoolClose
  | SelectConfig
  | FindSimilarCachedQuery (e : embedding) (threshold : float)
  | GetCachedAnswerDetails (id : uuid)
  | RecordCacheHit (id : uuid)
  | AddCacheEntry (user assistant : uuid) (query : string) (e : embedding)
  | UpsertConfig (key value : string)
  | CleanupCache
  | PopulateCacheFromExisting.

Inductive Pool : Type := PoolHandle.

(** The fields of [QueryCacheManager] that change. *)
Record Manager : Type := {
  _pool : option Pool;
  _config : option CacheConfig;
}.

(** The store behind the manager: every operation may raise and may change
    the store. *)
Class Backend (DB : Type) : Type := {
  create_pool : DB -> outcome Pool * DB;
  pool_acquire : DB -> outcome unit * DB;
  pool_release : DB -> outcome unit * DB;
  pool_close : DB -> outcome unit * DB;
  select_config : DB -> outcome (list (string * string)) * DB;
  find_similar_cached_query : embedding -> float -> DB -> outcome (option CacheRow) * DB;
  get_cached_answer_details : uuid -> DB -> outcome (option AnswerRow) * DB;
  record_cache_hit : uuid -> DB -> outcome unit * DB;
  add_cache_entry : uuid -> uuid -> string -> embedding -> DB -> outcome (option uuid) * DB;
  upsert_config : string -> string -> DB -> outcome unit * DB;
  sql_cleanup_cache : DB -> outcome (option Z) * DB;
  sql_populate_cache_from_existing : DB -> outcome (option Z) * DB;
}.

Record World (DB : Type) : Type := {
  self : Manager;
  store : DB;
  issued : list Stmt;
}.
Arguments self {DB} w.
Arguments store {DB} w.
Arguments issued {DB} w.

(** ** The manager *)

Section Engine.
Context {DB : Type} `{RT : Runtime} `{BE : Backend DB}.

Abbreviation W := (World DB).

(** One round trip: the statement is recorded, then the store runs it. *)
Definition call {A : Type} (q : Stmt) (op : DB -> outcome A * DB) : M W A :=
  fun w =>
    let '(r, d) := op (store w) in
    (r, {| self := self w; store := d; issued := issued w ++ [q] |}).

Definition set_pool (p : option Pool) : M W unit :=
  fun w =>
    (Ok tt, {| self := {| _pool := p; _config := _config (self w) |};
               store := store w; issued := issued w |}).

Definition set_config (c : CacheConfig) : M W unit :=
  fun w =>
    (Ok tt, {| self := {| _pool := _pool (self w); _config := Some c |};
               store := store w; issued := issued w |}).

(** [{row["key"]: row["value"] for row in rows}]: a later row wins. *)
Definition config_dict_of (rows : list (string * string)) : gmap string string :=
  fold_left (fun d row => <[row.1 := row.2]> d) rows ∅.

(** The [CacheConfig(...)] expression of [_load_config]; the arguments are
    evaluated in order and the first failing conversion raises. *)
Definition build_config (config_dict : gmap string string) : outcome CacheConfig :=
  match
    match config_dict !! "similarity_threshold" with
    | None => Some default_threshold
    | Some s => py_float s
    end
  with
  | None => Raise ValueError
  | Some threshold =>
      let enabled :=
        String.eqb (lower (default "true" (config_dict !! "cache_enabled"))) "true" in
      match
        match config_dict !! "max_cache_entries" with
        | None => Some 5000%Z
        | Some s => py_int s
        end
      with
      | None => Raise ValueError
      | Some entries =>
          Ok {| similarity_threshold := threshold;
                cache_enabled := enabled;
                max_cache_entries := entries |}
      end
  end.

(** Entering [get_connection], given what [self.initialize()] does: the
    lazy initialisation, then [self._pool.acquire()]. *)
Definition acquire_connection_with (init : M W unit) : M W unit :=
  let* _ := (fun w => match _pool (self w) with
                      | None => init w
                      | Some _ => (Ok tt, w)
                      end) in
  fun w => match _pool (self w) with
           | None => (Raise AttributeError, w)
           | Some _ => call PoolAcquire pool_acquire w
           end.

(** [async with self.get_connection() as conn: body]. *)
Definition get_connection_with (init : M W unit) {A : Type} (body : M W A) : M W A :=
  let* _ := acquire_connection_with init in
  async_with_exit body (call PoolRelease pool_release).

(** [_load_config], given [self.get_connection]. *)
Definition _load_config_with (get_conn : forall A : Type, M W A -> M W A) : M W unit :=
  try_except
    (get_conn unit
       (let* rows := call SelectConfig select_config in
        match build_config (config_dict_of rows) with
        | Ok c => set_config c
        | Raise e => raise e
        end))
    (fun _ => set_config CacheConfig_default).

(** [initialize] calls [_load_config], which enters [get_connection],
    which may call [initialize]: the recursion is unfolded [fuel] times,
    and a deeper call raises as an exhausted Python stack does.  One
    level is all that is ever used ([initialize_fuel_stable]). *)
Fixpoint initialize_fuel (fuel : nat) : M W unit :=
  match fuel with
  | O => raise RecursionError
  | S n =>
      fun w =>
        match _pool (self w) with
        | Some _ => (Ok tt, w)
        | None =>
            (let* p := call CreatePool create_pool in
             let* _ := set_pool (Some p) in
             _load_config_with (@get_connection_with (initialize_fuel n))) w
        end
  end.

Definition initialize : M W unit := initialize_fuel 1.

Definition acquire_connection : M W unit := acquire_connection_with initialize.

Definition get_connection {A : Type} (body : M W A) : M W A :=
  get_connection_with initialize body.

Definition _load_config : M W unit := _load_config_with (@get_connection).

Definition close : M W unit :=
  fun w =>
    match _pool (self w) with
    | Some _ => (let* _ := call PoolClose pool_close in set_pool None) w
    | None => (Ok tt, w)
    end.

(** The result built on a hit. *)
Definition make_hit (cache_row : CacheRow) (answer_row : AnswerRow) : CacheHit :=
  {| cache_id := row_cache_id cache_row;
     user_message_id := row_user_message_id cache_row;
     assistant_message_id := row_assistant_message_id cache_row;
     rephrased_query := row_rephrased_query cache_row;
     similarity_score := row_similarity_score cache_row;
     cache_hits := row_cache_hits cache_row;
     user_question := row_user_question answer_row;
     assistant_answer := row_assistant_answer answer_row;
     user_parts := row_user_parts answer_row;
     assistant_parts := row_assistant_parts answer_row;
     user_annotations := row_user_annotations answer_row;
     assistant_annotations := row_assistant_annotations answer_row |}.

(** The statements of [check_cache] inside [async with]. *)
Definition check_cache_queries (rephrased_query_embedding : embedding)
    (threshold : float) : M W (option CacheHit) :=
  let* cache_row := call (FindSimilarCachedQuery rephrased_query_embedding threshold)
                    (find_similar_cached_query rephrased_query_embedding threshold) in
  match cache_row with
  | None => ret None
  | Some cache_row =>
      let* answer_row := call (GetCachedAnswerDetails (row_cache_id cache_row))
                         (get_cached_answer_details (row_cache_id cache_row)) in
      match answer_row with
      | None => ret None
      | Some answer_row =>
          let* _ := call (RecordCacheHit (row_cache_id cache_row))
                 (record_cache_hit (row_cache_id cache_row)) in
          ret (Some (make_hit cache_row answer_row))
      end
  end.

(** The [try] block of [check_cache]. *)
Definition check_cache_try (rephrased_query_embedding : embedding)
    (threshold : float) : M W (option CacheHit) :=
  get_connection (check_cache_queries rephrased_query_embedding threshold).

Definition check_cache (rephrased_query_embedding : embedding)
    (similarity_threshold_arg : option float) : M W (option CacheHit) :=
  fun w =>
    match _config (self w) with
    | None => (Ok None, w)
    | Some config =>
        if negb (cache_enabled config) then (Ok None, w)
        else
          let threshold :=
            float_or similarity_threshold_arg (similarity_threshold config) in
          try_except (check_cache_try rephrased_query_embedding threshold)
            (fun _ => ret None) w
    end.

(** The [try] block of [add_to_cache]. *)
Definition add_to_cache_try (user_message_id assistant_message_id : uuid)
    (rephrased_query : string) (rephrased_query_embedding : embedding)
  : M W (option string) :=
  get_connection
    (let* cache_id := call (AddCacheEntry user_message_id assistant_message_id
                            rephrased_query rephrased_query_embedding)
                      (add_cache_entry user_message_id assistant_message_id
                         rephrased_query rephrased_query_embedding) in
     ret (str_if_truthy cache_id)).

Definition add_to_cache (user_message_id assistant_message_id : uuid)
    (rephrased_query : string) (rephrased_query_embedding : embedding)
  : M W (option string) :=
  fun w =>
    match _config (self w) with
    | None => (Ok None, w)
    | Some config =>
        if negb (cache_enabled config) then (Ok None, w)
        else
          try_except
            (add_to_cache_try user_message_id assistant_message_id
               rephrased_query rephrased_query_embedding)
            (fun _ => ret None) w
    end.

(** The [for key, value in kwargs.items()] loop of [update_config]; each
    keyword argument is given by its key and by the text [str(value)]
    that the statement receives. *)
Fixpoint persist_kwargs (kwargs : list (string * string)) : M W unit :=
  match kwargs with
  | [] => ret tt
  | (key, value) :: rest =>
      let* _ := (if hasattr_CacheConfig key
            then call (UpsertConfig key value) (upsert_config key value)
            else ret tt) in
      persist_kwargs rest
  end.

Definition update_config_try (kwargs : list (string * string)) : M W bool :=
  get_connection
    (let* _ := persist_kwargs kwargs in
     let* _ := _load_config in
     ret true).

Definition update_config (kwargs : list (string * string)) : M W bool :=
  try_except (update_config_try kwargs) (fun _ => ret false).

Definition cleanup_cache_try : M W Z :=
  get_connection
    (let* deleted_count := call CleanupCache sql_cleanup_cache in
     match deleted_count with
     | None => raise TypeError          (* [None > 0] *)
     | Some _ => ret (int_or_0 deleted_count)
     end).

Definition cleanup_cache : M W Z :=
  try_except cleanup_cache_try (fun _ => ret 0%Z).

Definition populate_from_existing_try : M W Z :=
  get_connection
    (let* populated_count := call PopulateCacheFromExisting
                             sql_populate_cache_from_existing in
     ret (int_or_0 populated_count)).

Definition populate_from_existing : M W Z :=
  try_except populate_from_existing_try (fun _ => ret 0%Z).

(** [process_query_with_cache]; [start_time] and [end_time] are the two
    readings of [time.time()]. *)
Definition process_query_with_cache (user_question : string)
    (rephrased_query : string) (rephrased_query_embedding : embedding)
    (user_message_id : uuid)
    (llm_processor_func : string -> string -> embedding -> M W LlmResult)
    (start_time end_time : float) : M W CachedResponse :=
  let* cache_hit := check_cache rephrased_query_embedding None in
  match cache_hit with
  | Some cache_hit =>
      ret {| answer := assistant_answer cache_hit;
             source := "cache";
             response_cache_id := Some (cache_id cache_hit);
             response_similarity_score := Some (similarity_score cache_hit);
             processing_time_ms := Some ((end_time - start_time) * 1000)%float;
             response_cache_hits := Some (cache_hits cache_hit + 1)%Z |}
  | None =>
      let* llm_result :=
        llm_processor_func user_question rephrased_query rephrased_query_embedding in
      let* cache_id :=
        add_to_cache user_message_id (llm_assistant_message_id llm_result)
          rephrased_query rephrased_query_embedding in
      ret {| answer := llm_answer llm_result;
             source := "llm";
             response_cache_id := cache_id;
             response_similarity_score := None;
             processing_time_ms := Some ((end_time - start_time) * 1000)%float;
             response_cache_hits := None |}
  end.

(** ** Notions used to state the properties *)

(** [R] relates the world before every run of [m] to the world after. *)
Definition keeps (R : W -> W -> Prop) {A : Type} (m : M W A) : Prop :=
  forall w r w', m w = (r, w') -> R w w'.

(** The statements a run adds to the log, all of them satisfying [P]. *)
Definition adds_only (P : Stmt -> Prop) (w w' : W) : Prop :=
  exists l, issued w' = issued w ++ l /\ Forall P l.

Definition pool_or_config (q : Stmt) : Prop :=
  q ∈ [CreatePool; PoolAcquire; PoolRelease; SelectConfig].

(** A stored value that [float()] or [int()] rejects. *)
Definition malformed (config_dict : gmap string string) : Prop :=
  (exists s, config_dict !! "similarity_threshold" = Some s /\ py_float s = None)
  \/ (exists s, config_dict !! "max_cache_entries" = Some s /\ py_int s = None).

(** The load as the design document words it, for comparison with
    [build_config]: a key that is missing or does not read falls back to
    its own default, the other keys keep what they read. *)
Definition per_key_policy (config_dict : gmap string string) : CacheConfig :=
  {| similarity_threshold :=
       default default_threshold (config_dict !! "similarity_threshold" ≫= py_float);
     cache_enabled :=
       String.eqb (lower (default "true" (config_dict !! "cache_enabled"))) "true";
     max_cache_entries :=
       default 5000%Z (config_dict !! "max_cache_entries" ≫= py_int) |}.

(** The keyword arguments that [update_config] persists. *)
Definition recognised (kv : string * string) : bool := hasattr_CacheConfig kv.1.

End Engine.

(** ** A runtime for concrete runs

    [int(s)] and [float(s)] on ASCII spellings: surrounding blanks, a sign,
    decimal digits with single underscores between them and, for floats, a
    fraction, an exponent, and the words [inf], [infinity] and [nan].  The
    float is the correctly rounded double of the decimal.  Python reads
    more than this: decimal digits and blanks outside ASCII are accepted
    too.  The two readers are Python's on texts of ASCII characters, which
    is all that the runs below give them; the properties of the manager are
    proved for every [Runtime]. *)

Definition is_digit (c : ascii) : bool :=
  let n := nat_of_ascii c in (48 <=? n)%nat && (n <=? 57)%nat.

Definition digit_value (c : ascii) : Z := (Z.of_nat (nat_of_ascii c) - 48)%Z.

(** The ASCII characters that [str.isspace] accepts. *)
Definition is_space (c : ascii) : bool :=
  let n := nat_of_ascii c in
  ((9 <=? n)%nat && (n <=? 13)%nat) || ((28 <=? n)%nat && (n <=? 32)%nat).

Fixpoint lstrip (s : list ascii) : list ascii :=
  match s with
  | c :: s' => if is_space c then lstrip s' else s
  | [] => []
  end.

Definition strip (s : list ascii) : list ascii := rev (lstrip (rev (lstrip s))).

(** A run of digits: its value, the number of digits and what follows; an
    underscore must stand between two digits. *)
Fixpoint read_digits (s : list ascii) (acc : Z) (count : nat) (after_underscore : bool)
  : option (Z * nat * list ascii) :=
  match s with
  | c :: s' =>
      if is_digit c then read_digits s' (10 * acc + digit_value c)%Z (S count) false
      else if Ascii.eqb c "_" then
        if after_underscore || (count =? 0)%nat then None
        else read_digits s' acc count true
      else if after_underscore then None else Some (acc, count, s)
  | [] => if after_underscore then None else Some (acc, count, [])
  end.

Definition read_sign (s : list ascii) : bool * list ascii :=
  match s with
  | c :: s' =>
      if Ascii.eqb c "-" then (true, s')
      else if Ascii.eqb c "+" then (false, s')
      else (false, s)
  | [] => (false, [])
  end.

(** [int(s)] on a text of ASCII characters: blanks around, a sign, then
    digits and nothing else; more than 4300 digits are refused.  A digit or
    a blank outside ASCII, which Python accepts, is not read. *)
Definition dec_int (s : string) : option Z :=
  let '(negative, body) := read_sign (strip (list_ascii_of_string s)) in
  match read_digits body 0 0 false with
  | Some (v, S n, []) =>
      if (4300 <? Z.of_nat (S n))%Z then None
      else Some (if negative then (- v)%Z else v)
  | _ => None
  end.

(** The double nearest to [mantissa * 10 ^ exponent]. *)
Definition round_decimal (mantissa exponent : Z) : float :=
  if (mantissa =? 0)%Z then 0%float
  else if (0 <=? exponent)%Z
  then SF2Prim (binary_normalize prec emax (mantissa * 10 ^ exponent) 0 false)
  else SF2Prim (SFdiv prec emax
                  (S754_finite false (Z.to_pos mantissa) 0)
                  (S754_finite false (Z.to_pos (10 ^ (- exponent))) 0)).

Definition read_exponent (s : list ascii) : option (Z * list ascii) :=
  match s with
  | c :: s' =>
      if Ascii.eqb c "e" || Ascii.eqb c "E" then
        let '(negative, digits) := read_sign s' in
        match read_digits digits 0 0 false with
        | Some (v, S _, rest) => Some (if negative then (- v)%Z else v, rest)
        | _ => None
        end
      else Some (0%Z, s)
  | [] => Some (0%Z, [])
  end.

(** [float(s)] on a text of ASCII characters: blanks around, a sign, then
    one of the three words or a decimal with an optional fraction and
    exponent.  A digit or a blank outside ASCII, which Python accepts, is
    not read. *)
Definition dec_float (s : string) : option float :=
  let '(negative, body) := read_sign (strip (list_ascii_of_string s)) in
  let signed (x : float) : float := if negative then (- x)%float else x in
  let word := lower (string_of_list_ascii body) in
  if String.eqb word "inf" || String.eqb word "infinity" then Some (signed infinity)
  else if String.eqb word "nan" then Some nan
  else
    match read_digits body 0 0 false with
    | None => None
    | Some (int_part, int_count, rest) =>
        let fraction :=
          match rest with
          | c :: rest' =>
              if Ascii.eqb c "." then
                match rest' with
                | d :: _ =>
                    if is_digit d then read_digits rest' 0 0 false
                    else Some (0%Z, 0%nat, rest')
                | [] => Some (0%Z, 0%nat, [])
                end
              else Some (0%Z, 0%nat, rest)
          | [] => Some (0%Z, 0%nat, [])
          end in
        match fraction with
        | None => None
        | Some (frac_part, frac_count, rest') =>
            if (int_count + frac_count =? 0)%nat then None
            else
              match read_exponent rest' with
              | Some (e, []) =>
                  Some (signed (round_decimal
                                  (int_part * 10 ^ Z.of_nat frac_count + frac_part)
                                  (e - Z.of_nat frac_count)))
              | _ => None
              end
        end
    end.

(** The public attributes of the class that pydantic builds for
    [CacheConfig]: [model_config], which the class sets, and those that
    a [BaseModel] of pydantic 2 has.  The three declared fields are not
    among them: pydantic takes their defaults out of the class namespace
    and keeps them in [model_fields], so [hasattr(CacheConfig,
    "cache_enabled")] is false.  The names that begin with an underscore,
    which depend on the release of pydantic, are left out; no run below
    uses one. *)
Definition class_attributes : list string :=
  ["model_config"; "model_fields"; "model_computed_fields"; "model_extra";
   "model_fields_set"; "model_construct"; "model_copy"; "model_dump";
   "model_dump_json"; "model_json_schema"; "model_parametrized_name";
   "model_post_init"; "model_rebuild"; "model_validate"; "model_validate_json";
   "model_validate_strings"; "dict"; "json"; "parse_obj"; "parse_raw";
   "parse_file"; "from_orm"; "construct"; "copy"; "schema"; "schema_json";
   "validate"; "update_forward_refs"]%string.

(** [hasattr(CacheConfig, key)] on a public name. *)
Definition is_class_attribute (key : string) : bool :=
  existsb (String.eqb key) class_attributes.

Definition reference_runtime : Runtime :=
  {| py_float := dec_float; py_int := dec_int;
     hasattr_CacheConfig := is_class_attribute |}.

(** ** The store, in memory

    The stored procedures behind the statements live in the SQL bootstrap
    file of the repository, which the Python module only calls.  They are
    modelled here from the design document of the cache. *)

(** Modelled from the spec: a CacheEntry (section 3); the identifier is the
    key under which the entry is stored, and [pendingEmbedding] is an absent
    embedding. *)
Record Entry : Type := {
  userMessageId : uuid;
  assistantMessageId : uuid;
  rephrasedQuery : string;
  entry_embedding : option embedding;
  hitCount : Z;
  createdAt : Z;
  lastHitAt : option Z;
}.

(** Modelled from the spec: a turn of the surrounding conversation store,
    from which the content of a hit is resolved. *)
Record Message : Type := {
  content : string;
  parts : jsonb;
  annotations : jsonb;
}.

(** Modelled from the spec: the external store (sections 3 and 6): the
    entries table, the config table, the conversation store with its
    historical question/answer pairs, the dimension of the vector column, a
    clock, and whether the store can be reached. *)
Record MemDB : Type := {
  available : bool;
  dimension : nat;
  clock : Z;
  entries : gmap uuid Entry;
  config_table : gmap string string;
  messages : gmap uuid Message;
  qa_pairs : list (uuid * uuid);
}.

Definition with_entries (d : MemDB) (es : gmap uuid Entry) : MemDB :=
  {| available := available d; dimension := dimension d; clock := (clock d + 1)%Z;
     entries := es; config_table := config_table d; messages := messages d;
     qa_pairs := qa_pairs d |}.

Definition with_config_table (d : MemDB) (c : gmap string string) : MemDB :=
  {| available := available d; dimension := dimension d; clock := clock d;
     entries := entries d; config_table := c; messages := messages d;
     qa_pairs := qa_pairs d |}.

(** Modelled from the spec: the [Unavailable] failure (section 7): an
    operation raises when the store cannot be reached. *)
Definition when_available {A : Type} (op : MemDB -> outcome A * MemDB)
  : MemDB -> outcome A * MemDB :=
  fun d => if available d then op d else (Raise ConnectionError, d).

Fixpoint dot (a b : embedding) : float :=
  match a, b with
  | x :: a', y :: b' => (x * y + dot a' b')%float
  | _, _ => 0%float
  end.

(** Modelled from the spec: the similarity score (glossary), as cosine
    similarity. *)
Definition cosine (a b : embedding) : float :=
  (dot a b / (sqrt (dot a a) * sqrt (dot b b)))%float.

(** Modelled from the spec: the ranking of the search (section 4.2, step
    3): [a] is preferred to [b] on a higher score, then on a larger hit
    count, then when created later. *)
Definition better (a b : uuid * Entry * float) : bool :=
  let '(_, ea, sa) := a in
  let '(_, eb, sb) := b in
  if PrimFloat.ltb sb sa then true
  else if PrimFloat.ltb sa sb then false
  else if (hitCount eb <? hitCount ea)%Z then true
  else if (hitCount ea <? hitCount eb)%Z then false
  else (createdAt eb <? createdAt ea)%Z.

(** Modelled from the spec: the entries the search considers, which are
    not pending and score at least [threshold]. *)
Definition candidates (q : embedding) (threshold : float)
    (es : list (uuid * Entry)) : list (uuid * Entry * float) :=
  omap (fun kv : uuid * Entry =>
          match entry_embedding kv.2 with
          | None => None
          | Some v =>
              let s := cosine q v in
              if PrimFloat.leb threshold s then Some (kv, s) else None
          end) es.

Fixpoint best (cs : list (uuid * Entry * float)) : option (uuid * Entry * float) :=
  match cs with
  | [] => None
  | c :: cs' =>
      match best cs' with
      | None => Some c
      | Some b => if better c b then Some c else Some b
      end
  end.

Definition row_of (c : uuid * Entry * float) : CacheRow :=
  let '(id, e, s) := c in
  {| row_cache_id := id;
     row_user_message_id := userMessageId e;
     row_assistant_message_id := assistantMessageId e;
     row_rephrased_query := rephrasedQuery e;
     row_similarity_score := s;
     row_cache_hits := hitCount e |}.

(** Modelled from the spec: [nearestMatch] (sections 4.2 and 6).  The spec
    leaves open what the store does with a vector of another dimension; a
    column of fixed dimension rejects it. *)
Definition mem_find_similar (q : embedding) (threshold : float)
  : MemDB -> outcome (option CacheRow) * MemDB :=
  when_available (fun d =>
    if negb (length q =? dimension d)%nat then (Raise (PostgresError "22000"), d)
    else (Ok (row_of <$> best (candidates q threshold (map_to_list (entries d)))), d)).

(** Modelled from the spec: [resolveQAContent] (section 6), through the
    identifiers the entry refers to. *)
Definition mem_answer_details (id : uuid)
  : MemDB -> outcome (option AnswerRow) * MemDB :=
  when_available (fun d =>
    (Ok (e ← entries d !! id;
         u ← messages d !! userMessageId e;
         a ← messages d !! assistantMessageId e;
         Some {| row_user_question := content u;
                 row_assistant_answer := content a;
                 row_user_parts := parts u;
                 row_assistant_parts := parts a;
                 row_user_annotations := annotations u;
                 row_assistant_annotations := annotations a |}), d)).

(** Modelled from the spec: [atomicIncrementHit] (section 6): the counter
    goes up by one and [lastHitAt] is set; it fails on an entry that is
    gone. *)
Definition mem_record_hit (id : uuid) : MemDB -> outcome unit * MemDB :=
  when_available (fun d =>
    match entries d !! id with
    | None => (Raise (PostgresError "P0002"), d)
    | Some e =>
        (Ok tt,
         with_entries d
           (<[id := {| userMessageId := userMessageId e;
                       assistantMessageId := assistantMessageId e;
                       rephrasedQuery := rephrasedQuery e;
                       entry_embedding := entry_embedding e;
                       hitCount := (hitCount e + 1)%Z;
                       createdAt := createdAt e;
                       lastHitAt := Some (clock d) |}]> (entries d)))
    end).

(** Modelled from the spec: insertion (section 4.3): a fresh identifier, no
    hits, not pending, no deduplication. *)
Definition mem_add_entry (user assistant : uuid) (query : string) (v : embedding)
  : MemDB -> outcome (option uuid) * MemDB :=
  when_available (fun d =>
    if negb (length v =? dimension d)%nat then (Raise (PostgresError "22000"), d)
    else
      let id : uuid := fresh (dom (entries d)) in
      (Ok (Some id),
       with_entries d
         (<[id := {| userMessageId := user;
                     assistantMessageId := assistant;
                     rephrasedQuery := query;
                     entry_embedding := Some v;
                     hitCount := 0;
                     createdAt := clock d;
                     lastHitAt := None |}]> (entries d)))).

(** Modelled from the spec: key-value persistence of the policy, last write
    wins (section 6). *)
Definition mem_upsert_config (key value : string) : MemDB -> outcome unit * MemDB :=
  when_available (fun d => (Ok tt, with_config_table d (<[key := value]> (config_table d)))).

(** Modelled from the spec: the config table read back as key/value rows
    (section 6). *)
Definition mem_select_config : MemDB -> outcome (list (string * string)) * MemDB :=
  when_available (fun d => (Ok (map_to_list (config_table d)), d)).

(** Modelled from the spec: the eviction order (section 4.4), worst first:
    fewer hits, then the older last hit, or the older creation for an entry
    never hit. *)
Definition evicted_before (a b : uuid * Entry) : bool :=
  if (hitCount a.2 <? hitCount b.2)%Z then true
  else if (hitCount b.2 <? hitCount a.2)%Z then false
  else (default (createdAt a.2) (lastHitAt a.2)
        <=? default (createdAt b.2) (lastHitAt b.2))%Z.

Fixpoint insert_worst_first (x : uuid * Entry) (l : list (uuid * Entry))
  : list (uuid * Entry) :=
  match l with
  | [] => [x]
  | y :: l' => if evicted_before x y then x :: l else y :: insert_worst_first x l'
  end.

Definition worst_first (l : list (uuid * Entry)) : list (uuid * Entry) :=
  foldr insert_worst_first [] l.

Definition is_live (kv : uuid * Entry) : bool :=
  match entry_embedding kv.2 with Some _ => true | None => false end.

(** Modelled from the spec: eviction (section 4.4): nothing to do within
    the capacity, else the excess is removed, worst first. *)
Definition mem_cleanup : MemDB -> outcome (option Z) * MemDB :=
  when_available (fun d =>
    let live := List.filter is_live (map_to_list (entries d)) in
    let maxEntries :=
      default 5000%Z (config_table d !! "max_cache_entries" ≫= dec_int) in
    let total := Z.of_nat (length live) in
    if (total <=? maxEntries)%Z then (Ok (Some 0%Z), d)
    else
      let victims := take (Z.to_nat (total - maxEntries)) (worst_first live) in
      (Ok (Some (Z.of_nat (length victims))),
       with_entries d (foldr (fun kv es => delete kv.1 es) (entries d) victims))).

Definition has_assistant (es : gmap uuid Entry) (assistant : uuid) : bool :=
  existsb (fun kv : uuid * Entry => String.eqb (assistantMessageId kv.2) assistant)
    (map_to_list es).

(** Modelled from the spec: the backfill of one historical pair (section
    4.5): a pending entry, unless the assistant turn already has one. *)
Definition backfill_pair (pair : uuid * uuid) (acc : Z * MemDB) : Z * MemDB :=
  let '(n, d) := acc in
  if has_assistant (entries d) pair.2 then (n, d)
  else
    let id : uuid := fresh (dom (entries d)) in
    ((n + 1)%Z,
     with_entries d
       (<[id := {| userMessageId := pair.1;
                   assistantMessageId := pair.2;
                   rephrasedQuery := default "" (content <$> messages d !! pair.1);
                   entry_embedding := None;
                   hitCount := 0;
                   createdAt := clock d;
                   lastHitAt := None |}]> (entries d))).

(** Modelled from the spec: backfill (section 4.5). *)
Definition mem_populate : MemDB -> outcome (option Z) * MemDB :=
  when_available (fun d =>
    let '(n, d') := foldr backfill_pair (0%Z, d) (qa_pairs d) in
    (Ok (Some n), d')).

Definition mem_pool_op {A : Type} (a : A) : MemDB -> outcome A * MemDB :=
  when_available (fun d => (Ok a, d)).

#[export] Instance mem_backend : Backend MemDB :=
  {| create_pool := mem_pool_op PoolHandle;
     pool_acquire := mem_pool_op tt;
     pool_release := mem_pool_op tt;
     pool_close := mem_pool_op tt;
     select_config := mem_select_config;
     find_similar_cached_query := mem_find_similar;
     get_cached_answer_details := mem_answer_details;
     record_cache_hit := mem_record_hit;
     add_cache_entry := mem_add_entry;
     upsert_config := mem_upsert_config;
     sql_cleanup_cache := mem_cleanup;
     sql_populate_cache_from_existing := mem_populate |}.

(** ** Worlds for concrete runs *)

Definition message_u1 : Message :=
  {| content := "What is a bond?"; parts := "{}"; annotations := "{}" |}.

Definition message_a1 : Message :=
  {| content := "A bond is a loan to an issuer."; parts := "{}"; annotations := "{}" |}.

(** The entry E of the end-to-end scenario: three hits so far. *)
Definition entry_E : Entry :=
  {| userMessageId := "u1";
     assistantMessageId := "a1";
     rephrasedQuery := "what is a bond";
     entry_embedding := Some [1%float; 0%float; 0%float];
     hitCount := 3;
     createdAt := 10;
     lastHitAt := Some 20%Z |}.

Definition sample_db : MemDB :=
  {| available := true;
     dimension := 3;
     clock := 100;
     entries := {[ "E" := entry_E ]};
     config_table := ∅;
     messages := <["u1" := message_u1]> {[ "a1" := message_a1 ]};
     qa_pairs := [] |}.

(** The same store, out of reach. *)
Definition down_db : MemDB :=
  {| available := false;
     dimension := 3;
     clock := 100;
     entries := {[ "E" := entry_E ]};
     config_table := ∅;
     messages := <["u1" := message_u1]> {[ "a1" := message_a1 ]};
     qa_pairs := [] |}.

(** The entry is there, the assistant turn it refers to is not. *)
Definition orphan_db : MemDB :=
  {| available := true;
     dimension := 3;
     clock := 100;
     entries := {[ "E" := entry_E ]};
     config_table := ∅;
     messages := {[ "u1" := message_u1 ]};
     qa_pairs := [] |}.

(** A config table whose capacity does not read as an integer. *)
Definition malformed_capacity_db : MemDB :=
  {| available := true;
     dimension := 3;
     clock := 100;
     entries := ∅;
     config_table := <["cache_enabled" := "false"]> {[ "max_cache_entries" := "abc" ]};
     messages := ∅;
     qa_pairs := [] |}.

Definition empty_db : MemDB :=
  {| available := true;
     dimension := 3;
     clock := 0;
     entries := ∅;
     config_table := ∅;
     messages := ∅;
     qa_pairs := [] |}.

(** A manager after [initialize], holding policy [c], in front of [d]. *)
Definition ready (c : CacheConfig) (d : MemDB) : World MemDB :=
  {| self := {| _pool := Some PoolHandle; _config := Some c |};
     store := d;
     issued := [] |}.

(** A manager on which [initialize] was never run. *)
Definition fresh_manager (d : MemDB) : World MemDB :=
  {| self := {| _pool := None; _config := None |};
     store := d;
     issued := [] |}.

Definition disabled_config : CacheConfig :=
  {| similarity_threshold := default_threshold;
     cache_enabled := false;
     max_cache_entries := 5000 |}.

Definition unit_x : embedding := [1%float; 0%float; 0%float].
Definition unit_y : embedding := [0%float; 1%float; 0%float].
(** An embedding of the wrong dimension for the stores above. *)
Definition short_embedding : embedding := [1%float; 0%float].

(** The row that the search returns for [unit_x] against the entry E. *)
Definition row_E : CacheRow :=
  {| row_cache_id := "E";
     row_user_message_id := "u1";
     row_assistant_message_id := "a1";
     row_rephrased_query := "what is a bond";
     row_similarity_score := 1%float;
     row_cache_hits := 3 |}.

(** A ready manager once it holds a connection. *)
Definition entered (c : CacheConfig) (d : MemDB) : World MemDB :=
  {| self := {| _pool := Some PoolHandle; _config := Some c |};
     store := d;
     issued := [PoolAcquire] |}.

(** The rows of the config table of [malformed_capacity_db]. *)
Definition malformed_rows : list (string * string) :=
  [("cache_enabled", "false"); ("max_cache_entries", "abc")].

(** A batch with a key that [CacheConfig] does not have. *)
Definition mixed_batch : list (string * string) :=
  [("bogus", "1"); ("cache_enabled", "False")].

(** A batch of a name that the class [CacheConfig] does not have and of one
    that it has. *)
Definition attribute_batch : list (string * string) :=
  [("bogus", "1"); ("model_config", "{}")].

(** A batch of two names that the class [CacheConfig] has. *)
Definition attribute_pair_batch : list (string * string) :=
  [("model_config", "{}"); ("model_fields", "{}")].

(** The store of E under a capacity of no entry at all. *)
Definition over_capacity_db : MemDB :=
  {| available := true;
     dimension := 3;
     clock := 100;
     entries := {[ "E" := entry_E ]};
     config_table := {[ "max_cache_entries" := "0" ]};
     messages := <["u1" := message_u1]> {[ "a1" := message_a1 ]};
     qa_pairs := [] |}.

(** A conversation store with one question/answer pair and no entry yet. *)
Definition history_db : MemDB :=
  {| available := true;
     dimension := 3;
     clock := 100;
     entries := ∅;
     config_table := ∅;
     messages := <["u1" := message_u1]> {[ "a1" := message_a1 ]};
     qa_pairs := [("u1", "a1")] |}.

(** The hit on E in [sample_db], and the world it leaves. *)
Definition hit_E : CacheHit :=
  {| cache_id := "E";
     user_message_id := "u1";
     assistant_message_id := "a1";
     rephrased_query := "what is a bond";
     similarity_score := 1%float;
     cache_hits := 3;
     user_question := "What is a bond?";
     assistant_answer := "A bond is a loan to an issuer.";
     user_parts := "{}";
     assistant_parts := "{}";
     user_annotations := "{}";
     assistant_annotations := "{}" |}.

Definition after_hit_E : World MemDB :=
  {| self := {| _pool := Some PoolHandle; _config := Some CacheConfig_default |};
     store :=
       {| available := true;
          dimension := 3;
          clock := 101;
          entries :=
            {[ "E" := {| userMessageId := "u1";
                         assistantMessageId := "a1";
                         rephrasedQuery := "what is a bond";
                         entry_embedding := Some [1%float; 0%float; 0%float];
                         hitCount := 4;
                         createdAt := 10;
                         lastHitAt := Some 100%Z |} ]};
          config_table := ∅;
          messages := <["u1" := message_u1]> {[ "a1" := message_a1 ]};
          qa_pairs := [] |};
     issued := [PoolAcquire;
                FindSimilarCachedQuery [1%float; 0%float; 0%float] default_threshold;
                GetCachedAnswerDetails "E";
                RecordCacheHit "E";
                PoolRelease] |}.

(** The statements a lookup sends once it holds a connection. *)
Definition lookup_tail (emb : embedding) (t : float) (tail : list Stmt) : Prop :=
  tail = [FindSimilarCachedQuery emb t; PoolRelease]
  \/ exists id,
       tail = [FindSimilarCachedQuery emb t; GetCachedAnswerDetails id; PoolRelease]
       \/ tail = [FindSimilarCachedQuery emb t; GetCachedAnswerDetails id;
                  RecordCacheHit id; PoolRelease].

(** The answer row that the resolution returns for the entry E. *)
Definition answer_E : AnswerRow :=
  {| row_user_question := "What is a bond?";
     row_assistant_answer := "A bond is a loan to an issuer.";
     row_user_parts := "{}";
     row_assistant_parts := "{}";
     row_user_annotations := "{}";
     row_assistant_annotations := "{}" |}.

(** A processor that fails, as a model call that times out. *)
Definition failing_processor (_ _ : string) (_ : embedding)
  : M (World MemDB) LlmResult :=
  raise TimeoutError.

(** The in-memory store when the server cancels some statements: the write
    of the key [model_fields], the eviction and the backfill. *)
Definition cancelling_backend : Backend MemDB :=
  {| create_pool := mem_pool_op PoolHandle;
     pool_acquire := mem_pool_op tt;
     pool_release := mem_pool_op tt;
     pool_close := mem_pool_op tt;
     select_config := mem_select_config;
     find_similar_cached_query := mem_find_similar;
     get_cached_answer_details := mem_answer_details;
     record_cache_hit := mem_record_hit;
     add_cache_entry := mem_add_entry;
     upsert_config := fun key value d =>
       if String.eqb key "model_fields" then (Raise (PostgresError "57014"), d)
       else mem_upsert_config key value d;
     sql_cleanup_cache := fun d => (Raise (PostgresError "57014"), d);
     sql_populate_cache_from_existing := fun d => (Raise (PostgresError "57014"), d) |}.

(** The in-memory store behind a pool that fails to take a connection
    back. *)
Definition release_fails_backend : Backend MemDB :=
  {| create_pool := mem_pool_op PoolHandle;
     pool_acquire := mem_pool_op tt;
     pool_release := fun d => (Raise ConnectionError, d);
     pool_close := mem_pool_op tt;
     select_config := mem_select_config;
     find_similar_cached_query := mem_find_similar;
     get_cached_answer_details := mem_answer_details;
     record_cache_hit := mem_record_hit;
     add_cache_entry := mem_add_entry;
     upsert_config := mem_upsert_config;
     sql_cleanup_cache := mem_cleanup;
     sql_populate_cache_from_existing := mem_populate |}.

(** A manager after [close]: the policy is still there, the pool is not. *)
Definition closed_manager (c : CacheConfig) (d : MemDB) : World MemDB :=
  {| self := {| _pool := None; _config := Some c |};
     store := d;
     issued := [] |}.

(** ** The process-wide manager and the endpoints that use it *)

(** A [QueryCacheManager] object: the arguments of its constructor and the
    fields that change. *)
Record QueryCacheManager : Type := {
  database_url : string;
  pool_size : Z;
  fields : Manager;
}.

(** [QueryCacheManager(database_url)]. *)
Definition QueryCacheManager_new (database_url : string) : QueryCacheManager :=
  {| database_url := database_url;
     pool_size := 10;
     fields := {| _pool := None; _config := None |} |}.

(** The module: its global [_cache_manager], in front of the store and of
    the log of statements. *)
Record Process (DB : Type) : Type := {
  _cache_manager : option QueryCacheManager;
  process_store : DB;
  process_issued : list Stmt;
}.
Arguments _cache_manager {DB} p.
Arguments process_store {DB} p.
Arguments process_issued {DB} p.

(** What an endpoint gives back: a value, or FastAPI's [HTTPException]. *)
Inductive HttpResult (A : Type) : Type :=
  | Returned (a : A)
  | HTTPException (status_code : Z) (detail : string).
Arguments Returned {A} a.
Arguments HTTPException {A} status_code detail.



Section Singleton.
Context {DB : Type} `{RT : Runtime} `{BE : Backend DB}.

(** A method of the manager that the global refers to: the object is
    shared, so what the method does to its fields shows in the global. *)
Definition on_manager {A : Type} (m : QueryCacheManager) (method : M (World DB) A)
  : M (Process DB) A :=
  fun p =>
    let '(r, w) := method {| self := fields m;
                             store := process_store p;
                             issued := process_issued p |} in
    (r, {| _cache_manager := Some {| database_url := database_url m;
                                     pool_size := pool_size m;
                                     fields := self w |};
           process_store := store w;
           process_issued := issued w |}).

Definition set_cache_manager (m : option QueryCacheManager) : M (Process DB) unit :=
  fun p => (Ok tt, {| _cache_manager := m;
                      process_store := process_store p;
                      process_issued := process_issued p |}).

(** Truth value of an [Optional[str]]: [None] and the empty text are
    false. *)
Definition str_truthy (s : option string) : bool :=
  match s with
  | Some (String _ _) => true
  | _ => false
  end.

Definition get_cache_manager (database_url : option string)
  : M (Process DB) (option QueryCacheManager) :=
  fun p =>
    match _cache_manager p, database_url with
    | None, Some url =>
        if str_truthy database_url
        then (let* _ := set_cache_manager (Some (QueryCacheManager_new url)) in
              fun p' => (Ok (_cache_manager p'), p')) p
        else (Ok (_cache_manager p), p)
    | _, _ => (Ok (_cache_manager p), p)
    end.

Definition initialize_cache (database_url : string)
  : M (Process DB) (option QueryCacheManager) :=
  let* _ := set_cache_manager (Some (QueryCacheManager_new database_url)) in
  let* _ := on_manager (QueryCacheManager_new database_url) initialize in
  fun p => (Ok (_cache_manager p), p).

Definition close_cache : M (Process DB) unit :=
  fun p =>
    match _cache_manager p with
    | Some m => (let* _ := on_manager m close in set_cache_manager None) p
    | None => (Ok tt, p)
    end.

(** [get_cache_dep] of the integration example. *)
Definition get_cache_dep (p : Process DB) : HttpResult QueryCacheManager * Process DB :=
  match get_cache_manager None p with
  | (Ok (Some cache_manager), p') => (Returned cache_manager, p')
  | (_, p') => (HTTPException 500 "Cache manager not initialized", p')
  end.

Section Endpoint.
(** [str(x)] on a float. *)
Variable float_str : float -> string.




End Endpoint.

End Singleton.



Definition dev_url : string := "postgresql://localhost:5432/askwealth-dev".

(** The manager that [initialize_cache] leaves in front of a store whose
    config table is empty. *)
Definition initialised_manager : QueryCacheManager :=
  {| database_url := dev_url;
     pool_size := 10;
     fields := {| _pool := Some PoolHandle; _config := Some CacheConfig_default |} |}.

(** A process in which no manager has been created yet. *)
Definition empty_process (d : MemDB) : Process MemDB :=
  {| _cache_manager := None; process_store := d; process_issued := [] |}.

(** ** The setup script, [setup_cache.py] *)

(** A Python [str], as the list of its code points. *)
Definition pystr : Type := list N.

(** The code points of a text of ASCII characters. *)
Definition code_points (s : string) : pystr :=
  map N_of_ascii (list_ascii_of_string s).

(** [c.isspace()], which decides what [str.strip()] removes: the ASCII
    blanks and separators, and the spaces and line separators of
    Unicode. *)
Definition py_isspace (c : N) : bool :=
  ((9 <=? c) && (c <=? 13) || (28 <=? c) && (c <=? 32)
   || (c =? 133) || (c =? 160) || (c =? 5760)
   || (8192 <=? c) && (c <=? 8202)
   || (c =? 8232) || (c =? 8233) || (c =? 8239) || (c =? 8287) || (c =? 12288))%N.

Fixpoint py_lstrip (s : pystr) : pystr :=
  match s with
  | c :: s' => if py_isspace c then py_lstrip s' else s
  | [] => []
  end.

(** [s.strip()]. *)
Definition py_strip (s : pystr) : pystr := rev (py_lstrip (rev (py_lstrip s))).

Definition semicolon : N := 59.

(** [s.split(";")]: the pieces between the semicolons, one more than there
    are semicolons. *)
Fixpoint split_semicolon (s : pystr) : list pystr :=
  match s with
  | [] => [[]]
  | c :: s' =>
      if (c =? semicolon)%N then [] :: split_semicolon s'
      else match split_semicolon s' with
           | piece :: pieces => (c :: piece) :: pieces
           | [] => [[c]]
           end
  end.

(** [[stmt.strip() for stmt in sql_content.split(";") if stmt.strip()]]. *)
Definition sql_statements (sql_content : pystr) : list pystr :=
  omap (fun stmt : pystr =>
          match py_strip stmt with
          | [] => None
          | stripped => Some stripped
          end)
    (split_semicolon sql_content).

(** Lower case of an ASCII letter. *)
Definition cp_lower (c : N) : N :=
  if ((65 <=? c) && (c <=? 90))%N then (c + 32)%N else c.

(** [s.lower().startswith(keyword)] for a keyword of ASCII letters other
    than [k]: the only characters that [lower()] turns into ASCII letters
    are the ASCII capitals, the Kelvin sign (into [k]) and the dotted
    capital I (into [i] followed by a combining dot, which no keyword has
    after an [i]); so the test reads the first code points of [s]. *)
Fixpoint lower_startswith (keyword s : pystr) : bool :=
  match keyword, s with
  | [], _ => true
  | k :: keyword', c :: s' => (cp_lower c =? k)%N && lower_startswith keyword' s'
  | _ :: _, [] => false
  end.

(** [stmt.lower().startswith(("create", "insert", "alter", "drop"))]. *)
Definition is_schema_statement (stmt : pystr) : bool :=
  existsb (fun keyword => lower_startswith (code_points keyword) stmt)
    ["create"; "insert"; "alter"; "drop"]%string.

(** What the script sends over its own connection. *)
Inductive SetupStmt : Type :=
  | Connect
  | Execute (stmt : pystr)
  | ConnClose
  | SelectPopulate
  | SelectPendingCount.

(** The database as the script uses it; every operation may raise. *)
Class SetupBackend (DB : Type) : Type := {
  connect : DB -> outcome unit * DB;
  execute : pystr -> DB -> outcome unit * DB;
  conn_close : DB -> outcome unit * DB;
  select_populate : DB -> outcome (option Z) * DB;
  select_pending_count : DB -> outcome (option Z) * DB;
}.

Record SetupWorld (DB : Type) : Type := {
  setup_store : DB;
  setup_issued : list SetupStmt;
}.
Arguments setup_store {DB} s.
Arguments setup_issued {DB} s.

(** A file as the script sees it: [exists()] and [read_text()]. *)
Record SqlFile : Type := {
  file_exists : bool;
  read_text : outcome pystr;
}.

(** [Path(__file__).parent / "fastapi-cache-module.sql"], by its name. *)
Definition default_sql_file : string := "fastapi-cache-module.sql".

Section Setup.
Context {DB : Type} `{SB : SetupBackend DB}.

Definition setup_call {A : Type} (q : SetupStmt) (op : DB -> outcome A * DB)
  : M (SetupWorld DB) A :=
  fun s =>
    let '(r, d) := op (setup_store s) in
    (r, {| setup_store := d; setup_issued := setup_issued s ++ [q] |}).

(** The loop of [run_sql_file]. *)
Fixpoint run_statements (statements : list pystr) : M (SetupWorld DB) unit :=
  match statements with
  | [] => ret tt
  | stmt :: rest =>
      let* _ := (if is_schema_statement stmt
                 then try_except (setup_call (Execute stmt) (execute stmt))
                        (fun _ => ret tt)
                 else ret tt) in
      run_statements rest
  end.

Definition run_sql_file (sql_file : SqlFile) : M (SetupWorld DB) unit :=
  match read_text sql_file with
  | Raise e => raise e
  | Ok sql_content => run_statements (sql_statements sql_content)
  end.

(** [setup_database]; [files] gives the file behind a path. *)
Definition setup_database (files : string -> SqlFile) (sql_file_path : option string)
  : M (SetupWorld DB) bool :=
  try_except
    (let* _ := setup_call Connect connect in
     let sql_file :=
       match sql_file_path with
       | Some (String c path) => files (String c path)
       | _ => files default_sql_file
       end in
     if negb (file_exists sql_file) then ret false
     else
       let* _ := run_sql_file sql_file in
       let* _ := setup_call ConnClose conn_close in
       ret true)
    (fun _ => ret false).

(** [CacheSetup.populate_cache]. *)
Definition populate_cache : M (SetupWorld DB) Z :=
  try_except
    (let* _ := setup_call Connect connect in
     let* populated_count := setup_call SelectPopulate select_populate in
     let* pending_count := setup_call SelectPendingCount select_pending_count in
     let* _ := setup_call ConnClose conn_close in
     ret (int_or_0 populated_count))
    (fun _ => ret 0%Z).

End Setup.

(** A statement as the script may send it: not empty, free of semicolons,
    with no blank at either end, and beginning with one of the four
    keywords. *)
Definition clean_statement (stmt : pystr) : Prop :=
  stmt <> []
  /\ (semicolon ∉ stmt)
  /\ (forall c, head stmt = Some c -> py_isspace c = false)
  /\ (forall c, last stmt = Some c -> py_isspace c = false)
  /\ is_schema_statement stmt = true.

(** A database for runs of the script: it can be out of reach, it accepts
    the statements that [accepts] says and keeps them in [applied], and its
    populate function reports [backlog] pairs, or is missing. *)
Record ScriptDB : Type := {
  reachable : bool;
  accepts : pystr -> bool;
  applied : list pystr;
  backlog : option Z;
}.

#[export] Instance script_backend : SetupBackend ScriptDB :=
  {| connect := fun d => if reachable d then (Ok tt, d) else (Raise ConnectionError, d);
     execute := fun stmt d =>
       if accepts d stmt
       then (Ok tt, {| reachable := reachable d; accepts := accepts d;
                       applied := applied d ++ [stmt]; backlog := backlog d |})
       else (Raise (PostgresError "42601"), d);
     conn_close := fun d => (Ok tt, d);
     select_populate := fun d =>
       match backlog d with
       | Some n => (Ok (Some n), d)
       | None => (Raise (PostgresError "42883"), d)
       end;
     select_pending_count := fun d => (Ok (backlog d), d) |}.

(** A database that rejects every statement and so has no populate
    function, one with seven pairs to backfill, and one that cannot be
    reached. *)
Definition rejecting_db : ScriptDB :=
  {| reachable := true; accepts := fun _ => false; applied := []; backlog := None |}.

Definition backlog_db : ScriptDB :=
  {| reachable := true; accepts := fun _ => true; applied := []; backlog := Some 7%Z |}.

Definition unreachable_db : ScriptDB :=
  {| reachable := false; accepts := fun _ => true; applied := []; backlog := None |}.

Definition setup_start (d : ScriptDB) : SetupWorld ScriptDB :=
  {| setup_store := d; setup_issued := [] |}.

(** A script with a comment before a statement, a function whose body
    holds semicolons, and a query. *)
Definition sample_sql : pystr :=
  code_points
    "-- schema
CREATE TABLE t (id int);
create function f() returns int as $$ begin return 1; end; $$ language plpgsql;
 SELECT 1 ; ".

Definition no_files (path : string) : SqlFile :=
  {| file_exists := false; read_text := Raise ValueError |}.

Definition sample_files (path : string) : SqlFile :=
  if String.eqb path default_sql_file
  then {| file_exists := true; read_text := Ok sample_sql |}
  else {| file_exists := false; read_text := Raise ValueError |}.

(** * Properties of the manager *)

(** Membership in a list that is written out. *)
Ltac list_mem H :=
  repeat (apply elem_of_cons in H as [H | H]; [try discriminate H |]);
  try (now apply elem_of_nil in H).

Section EngineFacts.
Context {DB : Type} `{RT : Runtime} `{BE : Backend DB}.

Implicit Types (w : World DB) (emb : embedding) (thr : option float).

(** ** Handlers and the lazy initialisation *)

Lemma try_except_total {A : Type} (body : M (World DB) A) (a : A) w :
  exists r, (try_except body (fun _ => ret a) w).1 = Ok r.
Proof.
  unfold try_except, ret. destruct (body w) as [[r | e] w']; simpl; eauto.
Qed.

Lemma try_except_raise {A : Type} (body : M (World DB) A) (a : A) w e :
  (body w).1 = Raise e -> (try_except body (fun _ => ret a) w).1 = Ok a.
Proof.
  unfold try_except, ret. destruct (body w) as [[r | e'] w']; simpl; congruence.
Qed.

Lemma try_except_ok {A : Type} (body : M (World DB) A) (a r : A) w :
  (body w).1 = Ok r -> try_except body (fun _ => ret a) w = body w.
Proof.
  unfold try_except, ret. destruct (body w) as [[r' | e'] w']; simpl; congruence.
Qed.

(** With a pool at hand, entering a connection is the acquisition alone,
    whatever [initialize] would do. *)
Lemma acquire_connection_with_pool (init : M (World DB) unit) w p :
  _pool (self w) = Some p ->
  acquire_connection_with init w = call PoolAcquire pool_acquire w.
Proof.
  intros Hp. unfold acquire_connection_with, bind. rewrite Hp. simpl.
  now rewrite Hp.
Qed.

Lemma load_config_with_pool (init1 init2 : M (World DB) unit) w p :
  _pool (self w) = Some p ->
  _load_config_with (@get_connection_with _ _ init1) w
  = _load_config_with (@get_connection_with _ _ init2) w.
Proof.
  intros Hp. unfold _load_config_with, try_except, get_connection_with, bind.
  now rewrite !(acquire_connection_with_pool _ w p Hp).
Qed.

(** The recursion through [initialize] never goes deeper than one level:
    any positive fuel gives the same run. *)
Lemma initialize_fuel_stable (n : nat) w :
  initialize_fuel (S n) w = initialize w.
Proof.
  unfold initialize. simpl. destruct (_pool (self w)) eqn:Hp; [reflexivity |].
  unfold bind. destruct (call CreatePool create_pool w) as [[p | e] w1]; [| reflexivity].
  simpl. now apply load_config_with_pool with (p := p).
Qed.

Lemma call_issued {A : Type} (q : Stmt) (op : DB -> outcome A * DB) w :
  issued (call q op w).2 = issued w ++ [q].
Proof. unfold call. now destruct (op (store w)). Qed.

Lemma call_store {A : Type} (q : Stmt) (op : DB -> outcome A * DB) w :
  store (call q op w).2 = (op (store w)).2.
Proof. unfold call. now destruct (op (store w)). Qed.

Lemma call_self {A : Type} (q : Stmt) (op : DB -> outcome A * DB) w :
  self (call q op w).2 = self w.
Proof. unfold call. now destruct (op (store w)). Qed.

Lemma get_connection_entered {A : Type} (body : M (World DB) A) w w1 :
  acquire_connection w = (Ok tt, w1) ->
  get_connection body w = async_with_exit body (call PoolRelease pool_release) w1.
Proof.
  intros H. unfold get_connection, get_connection_with, bind.
  fold acquire_connection. now rewrite H.
Qed.

Lemma get_connection_not_entered {A : Type} (body : M (World DB) A) w w1 e :
  acquire_connection w = (Raise e, w1) ->
  get_connection body w = (Raise e, w1).
Proof.
  intros H. unfold get_connection, get_connection_with, bind.
  fold acquire_connection. now rewrite H.
Qed.

Lemma get_connection_ext {A : Type} (body1 body2 : M (World DB) A) w :
  (forall w', body1 w' = body2 w') ->
  get_connection body1 w = get_connection body2 w.
Proof.
  intros H. unfold get_connection, get_connection_with, bind, async_with_exit.
  destruct (acquire_connection_with initialize w) as [[[] | e] w1]; [| reflexivity].
  now rewrite H.
Qed.

(** ** What a run can do to the world

    A relation between the world before and the world after, closed under
    the control flow of the monad. *)

Section Stepwise.
Variable R : World DB -> World DB -> Prop.
Hypothesis R_refl : forall w, R w w.
Hypothesis R_trans : forall w1 w2 w3, R w1 w2 -> R w2 w3 -> R w1 w3.

Lemma keeps_ret {A : Type} (a : A) : keeps R (ret a).
Proof. intros w r w' [= <- <-]. apply R_refl. Qed.

Lemma keeps_raise {A : Type} (e : Exception) : keeps R (@raise _ A e).
Proof. intros w r w' [= <- <-]. apply R_refl. Qed.

Lemma keeps_bind {A B : Type} (m : M (World DB) A) (k : A -> M (World DB) B) :
  keeps R m -> (forall a, keeps R (k a)) -> keeps R (bind m k).
Proof.
  intros Hm Hk w r w'. unfold bind.
  destruct (m w) as [[a | e] w1] eqn:E; intros H.
  - eapply R_trans; [eapply Hm, E | eapply Hk, H].
  - injection H as <- <-. eapply Hm, E.
Qed.

Lemma keeps_try_except {A : Type} (m : M (World DB) A) (h : Exception -> M (World DB) A) :
  keeps R m -> (forall e, keeps R (h e)) -> keeps R (try_except m h).
Proof.
  intros Hm Hh w r w'. unfold try_except.
  destruct (m w) as [[a | e] w1] eqn:E; intros H.
  - injection H as <- <-. eapply Hm, E.
  - eapply R_trans; [eapply Hm, E | eapply Hh, H].
Qed.

Lemma keeps_async_with_exit {A : Type} (m : M (World DB) A) (x : M (World DB) unit) :
  keeps R m -> keeps R x -> keeps R (async_with_exit m x).
Proof.
  intros Hm Hx w r w'. unfold async_with_exit.
  destruct (m w) as [r1 w1] eqn:E. destruct (x w1) as [[[] | e] w2] eqn:E2;
    intros [= <- <-]; (eapply R_trans; [eapply Hm, E | eapply Hx, E2]).
Qed.

Hypothesis R_self : forall w m, R w {| self := m; store := store w; issued := issued w |}.
Hypothesis R_create_pool : forall w, R w (call CreatePool create_pool w).2.
Hypothesis R_pool_acquire : forall w, R w (call PoolAcquire pool_acquire w).2.
Hypothesis R_pool_release : forall w, R w (call PoolRelease pool_release w).2.
Hypothesis R_select_config : forall w, R w (call SelectConfig select_config w).2.

Lemma keeps_set_pool p : keeps R (set_pool p).
Proof. intros w r w' [= <- <-]. apply R_self. Qed.

Lemma keeps_set_config c : keeps R (set_config c).
Proof. intros w r w' [= <- <-]. apply R_self. Qed.

Lemma keeps_create_pool : keeps R (call CreatePool create_pool).
Proof. intros w r w' H. generalize (R_create_pool w). now rewrite H. Qed.

Lemma keeps_pool_acquire : keeps R (call PoolAcquire pool_acquire).
Proof. intros w r w' H. generalize (R_pool_acquire w). now rewrite H. Qed.

Lemma keeps_pool_release : keeps R (call PoolRelease pool_release).
Proof. intros w r w' H. generalize (R_pool_release w). now rewrite H. Qed.

Lemma keeps_select_config : keeps R (call SelectConfig select_config).
Proof. intros w r w' H. generalize (R_select_config w). now rewrite H. Qed.

Lemma keeps_acquire_connection_with (init : M (World DB) unit) :
  keeps R init -> keeps R (acquire_connection_with init).
Proof.
  intros Hi. unfold acquire_connection_with. apply keeps_bind.
  - intros w r w'. destruct (_pool (self w)); [| apply Hi].
    intros [= <- <-]. apply R_refl.
  - intros _ w r w'. destruct (_pool (self w)); [apply keeps_pool_acquire |].
    intros [= <- <-]. apply R_refl.
Qed.

Lemma keeps_get_connection_with {A : Type} (init : M (World DB) unit)
    (body : M (World DB) A) :
  keeps R init -> keeps R body -> keeps R (get_connection_with init body).
Proof.
  intros Hi Hb. unfold get_connection_with. apply keeps_bind.
  - now apply keeps_acquire_connection_with.
  - intros _. apply keeps_async_with_exit; [assumption | apply keeps_pool_release].
Qed.

Lemma keeps_load_config_with (init : M (World DB) unit) :
  keeps R init -> keeps R (_load_config_with (@get_connection_with _ _ init)).
Proof.
  intros Hi. unfold _load_config_with. apply keeps_try_except.
  - apply keeps_get_connection_with; [assumption |].
    apply keeps_bind; [apply keeps_select_config |].
    intros rows. destruct (build_config _); [apply keeps_set_config | apply keeps_raise].
  - intros _. apply keeps_set_config.
Qed.

Lemma keeps_initialize_fuel (n : nat) : keeps R (initialize_fuel n).
Proof.
  induction n as [| n IH]; simpl; [apply keeps_raise |].
  intros w r w'. destruct (_pool (self w)).
  - intros [= <- <-]. apply R_refl.
  - apply keeps_bind; [apply keeps_create_pool |].
    intros p. apply keeps_bind; [apply keeps_set_pool |].
    intros _. now apply keeps_load_config_with.
Qed.

Lemma keeps_acquire_connection : keeps R acquire_connection.
Proof. apply keeps_acquire_connection_with, keeps_initialize_fuel. Qed.

Lemma keeps_load_config : keeps R _load_config.
Proof. apply keeps_load_config_with, keeps_initialize_fuel. Qed.

End Stepwise.

Lemma adds_only_refl P w : adds_only P w w.
Proof. exists []. split; [now rewrite app_nil_r | constructor]. Qed.

Lemma adds_only_trans P w1 w2 w3 :
  adds_only P w1 w2 -> adds_only P w2 w3 -> adds_only P w1 w3.
Proof.
  intros (l1 & E1 & F1) (l2 & E2 & F2). exists (l1 ++ l2). split.
  - now rewrite E2, E1, app_assoc.
  - now apply Forall_app.
Qed.

Lemma adds_only_call {A : Type} (q : Stmt) (op : DB -> outcome A * DB) w :
  pool_or_config q -> adds_only pool_or_config w (call q op w).2.
Proof.
  intros Hq. exists [q]. split; [apply call_issued |].
  constructor; [exact Hq | constructor].
Qed.

(** Entering a connection sends nothing but pool operations and the read of
    the config table. *)
Lemma acquire_connection_issued w r w1 :
  acquire_connection w = (r, w1) -> adds_only pool_or_config w w1.
Proof.
  apply (keeps_acquire_connection (adds_only pool_or_config)).
  - apply adds_only_refl.
  - apply adds_only_trans.
  - intros w0 m. exists []. split; [simpl; now rewrite app_nil_r | constructor].
  - intros w0. apply adds_only_call. unfold pool_or_config. set_solver.
  - intros w0. apply adds_only_call. unfold pool_or_config. set_solver.
  - intros w0. apply adds_only_call. unfold pool_or_config. set_solver.
  - intros w0. apply adds_only_call. unfold pool_or_config. set_solver.
Qed.

(** ** The policy gate *)

Lemma check_cache_enabled emb thr w config :
  _config (self w) = Some config -> cache_enabled config = true ->
  check_cache emb thr w
  = try_except (check_cache_try emb (float_or thr (similarity_threshold config)))
      (fun _ => ret None) w.
Proof. intros Hc He. unfold check_cache. now rewrite Hc, He. Qed.

Lemma add_to_cache_enabled u a q emb w config :
  _config (self w) = Some config -> cache_enabled config = true ->
  add_to_cache u a q emb w
  = try_except (add_to_cache_try u a q emb) (fun _ => ret None) w.
Proof. intros Hc He. unfold add_to_cache. now rewrite Hc, He. Qed.

(** A failure of the guarded block is answered with [None]. *)
Lemma check_cache_raise emb thr w config e :
  _config (self w) = Some config ->
  (check_cache_try emb (float_or thr (similarity_threshold config)) w).1 = Raise e ->
  (check_cache emb thr w).1 = Ok None.
Proof.
  intros Hc Hr. unfold check_cache. rewrite Hc.
  destruct (negb (cache_enabled config)); [reflexivity |].
  eapply try_except_raise, Hr.
Qed.

Lemma add_to_cache_raise (u a : uuid) (q : string) emb w e :
  (add_to_cache_try u a q emb w).1 = Raise e ->
  (add_to_cache u a q emb w).1 = Ok None.
Proof.
  intros Hr. unfold add_to_cache. destruct (_config (self w)) as [c |]; [| reflexivity].
  destruct (negb (cache_enabled c)); [reflexivity |].
  eapply try_except_raise, Hr.
Qed.

(** C2.  Under a live policy with [cache_enabled = False], [check_cache]
    returns [None] and [add_to_cache] returns [None], whatever the store
    holds, and the world is left as it was: no statement is issued and the
    store is not touched. *)
Theorem disabled_policy_is_noop emb thr (u a : uuid) (q : string) w config :
  _config (self w) = Some config ->
  cache_enabled config = false ->
  check_cache emb thr w = (Ok None, w)
  /\ add_to_cache u a q emb w = (Ok None, w).
Proof.
  intros Hc He. unfold check_cache, add_to_cache. now rewrite Hc, He.
Qed.

(** C10.  Before any configuration was loaded ([_config] is still [None]),
    [check_cache] and [add_to_cache] return [None] and leave the world as
    it was: no pool is created and no statement is issued. *)
Theorem unconfigured_manager_is_noop emb thr (u a : uuid) (q : string) w :
  _config (self w) = None ->
  check_cache emb thr w = (Ok None, w)
  /\ add_to_cache u a q emb w = (Ok None, w).
Proof.
  intros Hc. unfold check_cache, add_to_cache. now rewrite Hc.
Qed.

(** C7.  [check_cache] and [add_to_cache] always return a value, never an
    exception, in every world and for every store; and whenever the guarded
    block of either fails, with whatever exception of the pool, the
    connection or a statement, the value returned is [None]. *)
Theorem hot_path_never_raises emb thr (u a : uuid) (q : string) w :
  (exists r, (check_cache emb thr w).1 = Ok r)
  /\ (exists r, (add_to_cache u a q emb w).1 = Ok r)
  /\ (forall config e,
        _config (self w) = Some config ->
        (check_cache_try emb (float_or thr (similarity_threshold config)) w).1 = Raise e ->
        (check_cache emb thr w).1 = Ok None)
  /\ (forall e,
        (add_to_cache_try u a q emb w).1 = Raise e ->
        (add_to_cache u a q emb w).1 = Ok None).
Proof.
  repeat split.
  - unfold check_cache. destruct (_config (self w)) as [c |]; [| simpl; eauto].
    destruct (negb (cache_enabled c)); [simpl; eauto | apply try_except_total].
  - unfold add_to_cache. destruct (_config (self w)) as [c |]; [| simpl; eauto].
    destruct (negb (cache_enabled c)); [simpl; eauto | apply try_except_total].
  - intros c e. apply check_cache_raise.
  - intros e. apply add_to_cache_raise.
Qed.

(** ** The effective threshold *)

Lemma float_or_none d : float_or None d = d.
Proof. reflexivity. Qed.

Lemma float_or_truthy f d : float_truthy f = true -> float_or (Some f) d = f.
Proof. intros H. unfold float_or. now rewrite H. Qed.

(** C1, at the override 0.0: the threshold handed to the search is the one
    of the policy, and the whole call runs as if no override were given. *)
Theorem zero_override_is_ignored emb w :
  (forall d, float_or (Some 0%float) d = d)
  /\ check_cache emb (Some 0%float) w = check_cache emb None w.
Proof. split; reflexivity. Qed.

(** ** Lookups *)

Lemma check_cache_queries_unresolved emb (t : float) w1 row d2 d3 :
  find_similar_cached_query emb t (store w1) = (Ok (Some row), d2) ->
  get_cached_answer_details (row_cache_id row) d2 = (Ok None, d3) ->
  check_cache_queries emb t w1
  = (Ok None,
     {| self := self w1; store := d3;
        issued := issued w1 ++ [FindSimilarCachedQuery emb t;
                                GetCachedAnswerDetails (row_cache_id row)] |}).
Proof.
  intros Hf Hd. unfold check_cache_queries, bind, call. rewrite Hf. simpl.
  rewrite Hd. simpl. unfold ret. now rewrite <- app_assoc.
Qed.

(** C3.  When the similarity search returns a candidate and the resolution
    of its answer returns nothing, [check_cache] returns [None]; after
    entering the connection it has sent the search, the resolution and the
    release of the connection, and nothing else: no hit is recorded, during
    the whole call, and the store is as the resolution left it, released. *)
Theorem unresolved_answer_is_miss emb thr w w1 config row d2 d3 :
  _config (self w) = Some config ->
  cache_enabled config = true ->
  acquire_connection w = (Ok tt, w1) ->
  find_similar_cached_query emb (float_or thr (similarity_threshold config)) (store w1)
  = (Ok (Some row), d2) ->
  get_cached_answer_details (row_cache_id row) d2 = (Ok None, d3) ->
  (check_cache emb thr w).1 = Ok None
  /\ issued (check_cache emb thr w).2
     = issued w1
       ++ [FindSimilarCachedQuery emb (float_or thr (similarity_threshold config));
           GetCachedAnswerDetails (row_cache_id row);
           PoolRelease]
  /\ store (check_cache emb thr w).2 = (pool_release d3).2
  /\ (forall id, RecordCacheHit id ∈ issued (check_cache emb thr w).2 ->
                 RecordCacheHit id ∈ issued w).
Proof.
  intros Hc He Ha Hf Hd.
  remember (check_cache emb thr w) as run eqn:Hrun.
  rewrite (check_cache_enabled _ _ _ _ Hc He) in Hrun.
  unfold try_except, check_cache_try in Hrun.
  rewrite (get_connection_entered _ _ _ Ha) in Hrun.
  unfold async_with_exit in Hrun.
  rewrite (check_cache_queries_unresolved _ _ _ _ _ _ Hf Hd) in Hrun.
  unfold call in Hrun. simpl in Hrun.
  destruct (acquire_connection_issued _ _ _ Ha) as (l & El & Fl).
  assert (Hlog : forall id,
    RecordCacheHit id ∈ issued w1
      ++ [FindSimilarCachedQuery emb (float_or thr (similarity_threshold config));
          GetCachedAnswerDetails (row_cache_id row); PoolRelease] ->
    RecordCacheHit id ∈ issued w).
  { intros id Hin. rewrite El in Hin.
    apply elem_of_app in Hin as [Hin | Hin].
    - apply elem_of_app in Hin as [Hin | Hin]; [exact Hin |].
      rewrite Forall_forall in Fl. specialize (Fl _ Hin).
      unfold pool_or_config in Fl. list_mem Fl.
    - list_mem Hin. }
  destruct (pool_release d3) as [[[] | e] d4]; subst run; simpl;
    rewrite <- !app_assoc; simpl; repeat split; auto.
Qed.

(** C8, as the code has it.  The manager never looks at the length of the
    embedding: under an enabled policy, once the connection is entered, the
    embedding goes to the store unchanged, whatever its dimension, in the
    search statement of [check_cache] and in the insert statement of
    [add_to_cache]; when the store rejects it, the call returns [None] as
    for any other failure. *)
Theorem embedding_is_forwarded_unchecked emb thr (u a : uuid) (q : string)
    w w1 config :
  _config (self w) = Some config ->
  cache_enabled config = true ->
  acquire_connection w = (Ok tt, w1) ->
  (exists rest,
     issued (check_cache emb thr w).2
     = issued w1
       ++ FindSimilarCachedQuery emb (float_or thr (similarity_threshold config)) :: rest)
  /\ (exists rest,
        issued (add_to_cache u a q emb w).2
        = issued w1 ++ AddCacheEntry u a q emb :: rest)
  /\ (forall e d,
        find_similar_cached_query emb (float_or thr (similarity_threshold config)) (store w1)
        = (Raise e, d) ->
        (check_cache emb thr w).1 = Ok None)
  /\ (forall e d,
        add_cache_entry u a q emb (store w1) = (Raise e, d) ->
        (add_to_cache u a q emb w).1 = Ok None).
Proof.
  intros Hc He Ha.
  repeat split.
  - remember (check_cache emb thr w) as run eqn:Hrun.
    rewrite (check_cache_enabled _ _ _ _ Hc He) in Hrun.
    unfold try_except, check_cache_try in Hrun.
    rewrite (get_connection_entered _ _ _ Ha) in Hrun.
    unfold async_with_exit, check_cache_queries, bind, call, ret in Hrun.
    destruct (find_similar_cached_query _ _ _) as [[[row |] | e] d1];
      [destruct (get_cached_answer_details _ _) as [[[ans |] | e] d2];
       [destruct (record_cache_hit _ _) as [[[] | e] d3] | |] | |];
      simpl in Hrun;
      destruct (pool_release _) as [[[] | e'] d']; subst run; simpl;
      rewrite <- ?app_assoc; simpl; eexists; reflexivity.
  - remember (add_to_cache u a q emb w) as run eqn:Hrun.
    rewrite (add_to_cache_enabled _ _ _ _ _ _ Hc He) in Hrun.
    unfold try_except, add_to_cache_try in Hrun.
    rewrite (get_connection_entered _ _ _ Ha) in Hrun.
    unfold async_with_exit, bind, call, ret in Hrun.
    destruct (add_cache_entry _ _ _ _ _) as [[id | e] d1]; simpl in Hrun;
      destruct (pool_release _) as [[[] | e'] d']; subst run; simpl;
      rewrite <- ?app_assoc; simpl; eexists; reflexivity.
  - intros e d Hf.
    assert (Hr : exists e', (check_cache_try emb (float_or thr (similarity_threshold config)) w).1
                            = Raise e').
    { unfold check_cache_try. rewrite (get_connection_entered _ _ _ Ha).
      unfold async_with_exit, check_cache_queries, bind, call. rewrite Hf. simpl.
      destruct (pool_release d) as [[[] | e'] d']; simpl; eauto. }
    destruct Hr as [e' Hr]. eapply check_cache_raise; eauto.
  - intros e d Hf.
    assert (Hr : exists e', (add_to_cache_try u a q emb w).1 = Raise e').
    { unfold add_to_cache_try. rewrite (get_connection_entered _ _ _ Ha).
      unfold async_with_exit, bind, call. rewrite Hf. simpl.
      destruct (pool_release d) as [[[] | e'] d']; simpl; eauto. }
    destruct Hr as [e' Hr]. eapply add_to_cache_raise; eauto.
Qed.

(** ** Loading the policy *)

Lemma build_config_malformed (config_dict : gmap string string) :
  malformed config_dict -> build_config config_dict = Raise ValueError.
Proof.
  unfold build_config. intros [(s & -> & ->) | (s & -> & ->)]; [reflexivity |].
  now destruct (match config_dict !! "similarity_threshold" with
                | Some s0 => py_float s0 | None => Some default_threshold end).
Qed.

(** A load always ends with some policy in place. *)
Lemma load_config_leaves_a_policy w :
  exists c, _config (self (_load_config w).2) = Some c.
Proof.
  unfold _load_config, _load_config_with, try_except, get_connection,
    get_connection_with, bind, async_with_exit.
  destruct (acquire_connection_with initialize w) as [[[] | e] w1]; [| simpl; eauto].
  destruct (call SelectConfig select_config w1) as [[rows | e] w2].
  - destruct (build_config (config_dict_of rows)) as [c | e]; simpl.
    + pose proof (call_self PoolRelease pool_release
                    {| self := {| _pool := _pool (self w2); _config := Some c |};
                       store := store w2; issued := issued w2 |}) as Hs.
      destruct (call PoolRelease pool_release _) as [[[] | e] w3]; simpl in *;
        [rewrite Hs |]; eauto.
    + destruct (call PoolRelease pool_release w2) as [[[] | e'] w3]; simpl; eauto.
  - destruct (call PoolRelease pool_release w2) as [[[] | e'] w3]; simpl; eauto.
Qed.

(** C5, as the code has it.  When the rows read from the config table hold
    a value for [similarity_threshold] that [float()] rejects, or a value
    for [max_cache_entries] that [int()] rejects, the live policy after
    [_load_config] is the default policy as a whole, whatever the other
    keys hold.  The text of [cache_enabled] is never malformed: when the
    two numbers read, the policy is built, enabled exactly when that text
    is [true] in some casing. *)
Theorem malformed_value_reverts_whole_policy w w1 rows d :
  acquire_connection w = (Ok tt, w1) ->
  select_config (store w1) = (Ok rows, d) ->
  (malformed (config_dict_of rows) ->
   _config (self (_load_config w).2) = Some CacheConfig_default)
  /\ (forall t n,
        match config_dict_of rows !! "similarity_threshold" with
        | Some s => py_float s | None => Some default_threshold end = Some t ->
        match config_dict_of rows !! "max_cache_entries" with
        | Some s => py_int s | None => Some 5000%Z end = Some n ->
        build_config (config_dict_of rows)
        = Ok {| similarity_threshold := t;
                cache_enabled :=
                  String.eqb
                    (lower (default "true" (config_dict_of rows !! "cache_enabled")))
                    "true";
                max_cache_entries := n |}).
Proof.
  intros Ha Hs. split.
  - intros Hm. unfold _load_config, _load_config_with, try_except.
    rewrite (get_connection_entered _ _ _ Ha).
    unfold async_with_exit, bind, call. rewrite Hs. simpl.
    rewrite (build_config_malformed _ Hm). unfold raise. simpl.
    now destruct (pool_release d) as [[[] | e] d'].
  - intros t n Ht Hn. unfold build_config. now rewrite Ht, Hn.
Qed.

(** ** Updating the policy *)

Lemma persist_kwargs_filter kwargs w :
  persist_kwargs kwargs w = persist_kwargs (List.filter recognised kwargs) w.
Proof.
  revert w. induction kwargs as [| [key value] rest IH]; intros w; [reflexivity |].
  cbn [persist_kwargs List.filter]. unfold recognised at 1. cbn [fst].
  destruct (hasattr_CacheConfig key) eqn:Hk; cbn [persist_kwargs];
    rewrite ?Hk; unfold bind.
  - destruct (call _ _ w) as [[[] | e] w1]; [apply IH | reflexivity].
  - unfold ret. apply IH.
Qed.

Lemma persist_kwargs_app k1 k2 w :
  persist_kwargs (k1 ++ k2) w
  = (let* _ := persist_kwargs k1 in persist_kwargs k2) w.
Proof.
  revert w. induction k1 as [| [key value] rest IH]; intros w; [reflexivity |].
  cbn [app persist_kwargs]. unfold bind.
  destruct (hasattr_CacheConfig key).
  - destruct (call _ _ w) as [[[] | e] w1]; [| reflexivity].
    rewrite IH. reflexivity.
  - unfold ret. rewrite IH. reflexivity.
Qed.

Lemma persist_kwargs_issued kwargs w w' :
  persist_kwargs kwargs w = (Ok tt, w') ->
  issued w'
  = issued w ++ map (fun kv => UpsertConfig kv.1 kv.2) (List.filter recognised kwargs).
Proof.
  revert w. induction kwargs as [| [key value] rest IH]; intros w.
  - intros [= <-]. simpl. now rewrite app_nil_r.
  - cbn [persist_kwargs List.filter]. unfold recognised at 1. cbn [fst].
    unfold bind. destruct (hasattr_CacheConfig key).
    + pose proof (call_issued (UpsertConfig key value) (upsert_config key value) w) as Hi.
      destruct (call _ _ w) as [[[] | e] w1]; [| discriminate].
      intros H. rewrite (IH _ H). simpl in Hi. rewrite Hi.
      now rewrite <- app_assoc.
    + unfold ret. apply IH.
Qed.

(** The reload never raises. *)
Lemma load_config_ok w : (_load_config w).1 = Ok tt.
Proof.
  unfold _load_config, _load_config_with, try_except, set_config.
  now destruct (get_connection _ w) as [[[] | e] w1].
Qed.

(** The loop stops at the first statement that fails, with the earlier
    statements sent and nothing taken back. *)
Lemma persist_kwargs_stops k1 key value k2 w w1 e d :
  persist_kwargs k1 w = (Ok tt, w1) ->
  hasattr_CacheConfig key = true ->
  upsert_config key value (store w1) = (Raise e, d) ->
  persist_kwargs (k1 ++ (key, value) :: k2) w
  = (Raise e, {| self := self w1; store := d;
                 issued := issued w1 ++ [UpsertConfig key value] |}).
Proof.
  intros H1 Hk Hu. rewrite persist_kwargs_app. unfold bind. rewrite H1.
  cbn [persist_kwargs]. rewrite Hk. unfold bind, call. now rewrite Hu.
Qed.

(** [update_config] once the loop has gone through: the reload, then the
    release, whose failure is the only thing that can still give [False]. *)
Lemma update_config_persisted kwargs w w0 w1 :
  acquire_connection w = (Ok tt, w0) ->
  persist_kwargs kwargs w0 = (Ok tt, w1) ->
  update_config kwargs w
  = (Ok match (pool_release (store (_load_config w1).2)).1 with
        | Ok _ => true
        | Raise _ => false
        end,
     {| self := self (_load_config w1).2;
        store := (pool_release (store (_load_config w1).2)).2;
        issued := issued (_load_config w1).2 ++ [PoolRelease] |}).
Proof.
  intros Ha Hp. unfold update_config, try_except, update_config_try.
  rewrite (get_connection_entered _ _ _ Ha).
  unfold async_with_exit, bind. rewrite Hp.
  pose proof (load_config_ok w1) as Hl.
  destruct (_load_config w1) as [[[] | e] w2]; [| discriminate]. simpl.
  unfold call, ret. now destruct (pool_release (store w2)) as [[[] | e] d].
Qed.

(** [update_config] when the loop has raised: [False], after the release. *)
Lemma update_config_not_persisted kwargs w w0 w1 e :
  acquire_connection w = (Ok tt, w0) ->
  persist_kwargs kwargs w0 = (Raise e, w1) ->
  update_config kwargs w
  = (Ok false, {| self := self w1;
                  store := (pool_release (store w1)).2;
                  issued := issued w1 ++ [PoolRelease] |}).
Proof.
  intros Ha Hp. unfold update_config, try_except, update_config_try.
  rewrite (get_connection_entered _ _ _ Ha).
  unfold async_with_exit, bind. rewrite Hp.
  unfold call, ret. now destruct (pool_release (store w1)) as [[[] | e'] d].
Qed.

(** C6, as the code has it.  [update_config] has no notion of an invalid
    key: a key that [CacheConfig] does not have is skipped, so the call
    runs exactly as on the batch without such keys, and it always returns
    a boolean.  The other keys are persisted one statement after the other,
    in the order of the batch: persisting a batch is persisting its front
    and then its back, from the world the front has left.  When every
    statement goes through, the call has sent one statement for each key
    that [CacheConfig] has, reloads the policy and returns [True] if the
    connection is released.  When the statement of a key fails, the call
    returns [False] with the statements of the earlier keys sent and not
    taken back: the store is the one they and the failed statement have
    left, handed to the release.  The loop on a single key is the one
    statement when [CacheConfig] has the key, and nothing otherwise. *)
Theorem update_config_skips_unknown_keys kwargs w :
  update_config kwargs w = update_config (List.filter recognised kwargs) w
  /\ (exists b, (update_config kwargs w).1 = Ok b)
  /\ (forall k1 k2 w0,
        persist_kwargs (k1 ++ k2) w0
        = (let* _ := persist_kwargs k1 in persist_kwargs k2) w0)
  /\ (forall w0 w1,
        persist_kwargs kwargs w0 = (Ok tt, w1) ->
        issued w1
        = issued w0
          ++ map (fun kv => UpsertConfig kv.1 kv.2) (List.filter recognised kwargs))
  /\ (forall key value w0,
        hasattr_CacheConfig key = true ->
        persist_kwargs [(key, value)] w0
        = call (UpsertConfig key value) (upsert_config key value) w0)
  /\ (forall key value w0,
        hasattr_CacheConfig key = false ->
        persist_kwargs [(key, value)] w0 = (Ok tt, w0))
  /\ (forall w0 w1,
        acquire_connection w = (Ok tt, w0) ->
        persist_kwargs kwargs w0 = (Ok tt, w1) ->
        update_config kwargs w
        = (Ok match (pool_release (store (_load_config w1).2)).1 with
              | Ok _ => true
              | Raise _ => false
              end,
           {| self := self (_load_config w1).2;
              store := (pool_release (store (_load_config w1).2)).2;
              issued := issued (_load_config w1).2 ++ [PoolRelease] |})
        /\ issued w1
           = issued w0
             ++ map (fun kv => UpsertConfig kv.1 kv.2) (List.filter recognised kwargs))
  /\ (forall k1 key value k2 w0 w1 e d,
        kwargs = k1 ++ (key, value) :: k2 ->
        acquire_connection w = (Ok tt, w0) ->
        persist_kwargs k1 w0 = (Ok tt, w1) ->
        hasattr_CacheConfig key = true ->
        upsert_config key value (store w1) = (Raise e, d) ->
        update_config kwargs w
        = (Ok false,
           {| self := self w1;
              store := (pool_release d).2;
              issued := issued w1 ++ [UpsertConfig key value; PoolRelease] |})
        /\ issued w1
           = issued w0
             ++ map (fun kv => UpsertConfig kv.1 kv.2) (List.filter recognised k1)).
Proof.
  split; [| split; [| split; [| split; [| split; [| split; [| split]]]]]].
  - unfold update_config, try_except, update_config_try.
    rewrite (get_connection_ext _
               (let* _ := persist_kwargs (List.filter recognised kwargs) in
                let* _ := _load_config in ret true)); [reflexivity |].
    intros w'. unfold bind. now rewrite persist_kwargs_filter.
  - apply try_except_total.
  - intros. apply persist_kwargs_app.
  - apply persist_kwargs_issued.
  - intros key value w0 Hk. cbn [persist_kwargs]. rewrite Hk. unfold bind, ret.
    now destruct (call _ _ w0) as [[[] | e] w1].
  - intros key value w0 Hk. cbn [persist_kwargs]. now rewrite Hk.
  - intros w0 w1 Ha Hp. split.
    + exact (update_config_persisted _ _ _ _ Ha Hp).
    + exact (persist_kwargs_issued _ _ _ Hp).
  - intros k1 key value k2 w0 w1 e d -> Ha H1 Hk Hu. split.
    + rewrite (update_config_not_persisted _ _ _ _ _ Ha
                 (persist_kwargs_stops _ _ _ k2 _ _ _ _ H1 Hk Hu)).
      simpl. now rewrite <- app_assoc.
    + exact (persist_kwargs_issued _ _ _ H1).
Qed.

(** ** Maintenance *)

(** A pool that cannot hand out a connection. *)
Lemma acquire_connection_fails w p e d :
  _pool (self w) = Some p ->
  pool_acquire (store w) = (Raise e, d) ->
  acquire_connection w
  = (Raise e, {| self := self w; store := d; issued := issued w ++ [PoolAcquire] |}).
Proof.
  intros Hp Hq. unfold acquire_connection.
  rewrite (acquire_connection_with_pool _ _ _ Hp). unfold call. now rewrite Hq.
Qed.

Lemma cleanup_cache_entered w w1 :
  acquire_connection w = (Ok tt, w1) ->
  (cleanup_cache w).1
  = match sql_cleanup_cache (store w1) with
    | (Ok (Some n), d) =>
        match pool_release d with
        | (Ok _, _) => Ok n
        | (Raise _, _) => Ok 0%Z
        end
    | _ => Ok 0%Z
    end.
Proof.
  intros Ha. unfold cleanup_cache, try_except, cleanup_cache_try.
  rewrite (get_connection_entered _ _ _ Ha).
  unfold async_with_exit, bind, call, raise, ret.
  destruct (sql_cleanup_cache (store w1)) as [[[n |] | e] d]; simpl.
  - destruct (pool_release d) as [[[] | e] d']; simpl; [| reflexivity].
    now destruct (Z.eqb_spec n 0) as [-> |].
  - now destruct (pool_release d) as [[[] | e] d'].
  - now destruct (pool_release d) as [[[] | e'] d'].
Qed.

Lemma populate_from_existing_entered w w1 :
  acquire_connection w = (Ok tt, w1) ->
  (populate_from_existing w).1
  = match sql_populate_cache_from_existing (store w1) with
    | (Ok (Some n), d) =>
        match pool_release d with
        | (Ok _, _) => Ok n
        | (Raise _, _) => Ok 0%Z
        end
    | _ => Ok 0%Z
    end.
Proof.
  intros Ha. unfold populate_from_existing, try_except, populate_from_existing_try.
  rewrite (get_connection_entered _ _ _ Ha).
  unfold async_with_exit, bind, call, raise, ret.
  destruct (sql_populate_cache_from_existing (store w1)) as [[[n |] | e] d]; simpl.
  - destruct (pool_release d) as [[[] | e] d']; simpl; [| reflexivity].
    now destruct (Z.eqb_spec n 0) as [-> |].
  - now destruct (pool_release d) as [[[] | e] d'].
  - now destruct (pool_release d) as [[[] | e'] d'].
Qed.

(** C9, as the code has it.  When no connection to the store is obtained,
    [update_config] returns [False] and [cleanup_cache] and
    [populate_from_existing] return 0, with nothing more sent; a pool that
    cannot hand out a connection is such a case.  When the statement of
    the call fails, or the release of the connection after it, the results
    are again [False], 0 and 0.  [update_config] returns [True] when its
    statements and the release go through, so its [False] tells a failure.
    [cleanup_cache] and [populate_from_existing] return the count of the
    store when the statement and the release go through, and that count is
    0 when there was nothing to do: their 0 does not tell a failure from
    such a run. *)
Theorem maintenance_failure_values kwargs w :
  (forall e w1,
     acquire_connection w = (Raise e, w1) ->
     update_config kwargs w = (Ok false, w1)
     /\ cleanup_cache w = (Ok 0%Z, w1)
     /\ populate_from_existing w = (Ok 0%Z, w1))
  /\ (forall p e d,
        _pool (self w) = Some p ->
        pool_acquire (store w) = (Raise e, d) ->
        acquire_connection w
        = (Raise e, {| self := self w; store := d;
                       issued := issued w ++ [PoolAcquire] |}))
  /\ (forall w1,
        acquire_connection w = (Ok tt, w1) ->
        (forall e w2, persist_kwargs kwargs w1 = (Raise e, w2) ->
                      (update_config kwargs w).1 = Ok false)
        /\ (forall e d, sql_cleanup_cache (store w1) = (Raise e, d) ->
                        (cleanup_cache w).1 = Ok 0%Z)
        /\ (forall e d, sql_populate_cache_from_existing (store w1) = (Raise e, d) ->
                        (populate_from_existing w).1 = Ok 0%Z))
  /\ (forall w1,
        acquire_connection w = (Ok tt, w1) ->
        (forall w2 e d,
           persist_kwargs kwargs w1 = (Ok tt, w2) ->
           pool_release (store (_load_config w2).2) = (Raise e, d) ->
           (update_config kwargs w).1 = Ok false)
        /\ (forall r d e d',
              sql_cleanup_cache (store w1) = (r, d) ->
              pool_release d = (Raise e, d') ->
              (cleanup_cache w).1 = Ok 0%Z)
        /\ (forall r d e d',
              sql_populate_cache_from_existing (store w1) = (r, d) ->
              pool_release d = (Raise e, d') ->
              (populate_from_existing w).1 = Ok 0%Z))
  /\ (forall w1,
        acquire_connection w = (Ok tt, w1) ->
        (forall w2 d,
           persist_kwargs kwargs w1 = (Ok tt, w2) ->
           pool_release (store (_load_config w2).2) = (Ok tt, d) ->
           (update_config kwargs w).1 = Ok true)
        /\ (forall n d d',
              sql_cleanup_cache (store w1) = (Ok (Some n), d) ->
              pool_release d = (Ok tt, d') ->
              (cleanup_cache w).1 = Ok n)
        /\ (forall n d d',
              sql_populate_cache_from_existing (store w1) = (Ok (Some n), d) ->
              pool_release d = (Ok tt, d') ->
              (populate_from_existing w).1 = Ok n)).
Proof.
  split; [| split; [| split; [| split]]].
  - intros e w1 Ha.
    unfold update_config, cleanup_cache, populate_from_existing, try_except,
      update_config_try, cleanup_cache_try, populate_from_existing_try.
    now rewrite !(get_connection_not_entered _ _ _ _ Ha).
  - intros p e d. apply acquire_connection_fails.
  - intros w1 Ha. split; [| split].
    + intros e w2 Hp. now rewrite (update_config_not_persisted _ _ _ _ _ Ha Hp).
    + intros e d H. rewrite (cleanup_cache_entered _ _ Ha). now rewrite H.
    + intros e d H. rewrite (populate_from_existing_entered _ _ Ha). now rewrite H.
  - intros w1 Ha. split; [| split].
    + intros w2 e d Hp Hr. rewrite (update_config_persisted _ _ _ _ Ha Hp).
      now rewrite Hr.
    + intros r d e d' H Hr. rewrite (cleanup_cache_entered _ _ Ha), H.
      destruct r as [[n |] | e0]; [now rewrite Hr | reflexivity | reflexivity].
    + intros r d e d' H Hr. rewrite (populate_from_existing_entered _ _ Ha), H.
      destruct r as [[n |] | e0]; [now rewrite Hr | reflexivity | reflexivity].
  - intros w1 Ha. split; [| split].
    + intros w2 d Hp Hr. rewrite (update_config_persisted _ _ _ _ Ha Hp).
      now rewrite Hr.
    + intros n d d' H Hr. rewrite (cleanup_cache_entered _ _ Ha), H. now rewrite Hr.
    + intros n d d' H Hr. rewrite (populate_from_existing_entered _ _ Ha), H.
      now rewrite Hr.
Qed.

(** ** The integration function *)

Lemma process_query_with_cache_hit (user_question rephrased_query : string) emb
    (user_message_id : uuid)
    (llm_processor_func : string -> string -> embedding -> M (World DB) LlmResult)
    (start_time end_time : float) w w' hit :
  check_cache emb None w = (Ok (Some hit), w') ->
  exists response,
    process_query_with_cache user_question rephrased_query emb user_message_id
      llm_processor_func start_time end_time w = (Ok response, w')
    /\ source response = "cache"
    /\ answer response = assistant_answer hit
    /\ response_cache_hits response = Some (cache_hits hit + 1)%Z.
Proof.
  intros H. unfold process_query_with_cache, bind. rewrite H.
  eexists. split; [reflexivity |]. now repeat split.
Qed.

(** A hit, taken apart: the connection was entered, the three statements
    and the release succeeded, and the result is built from the two rows. *)
Lemma check_cache_hit_inv emb thr w w' hit :
  check_cache emb thr w = (Ok (Some hit), w') ->
  exists config w1 row d1 answer_row d2 d3 d4,
    _config (self w) = Some config
    /\ acquire_connection w = (Ok tt, w1)
    /\ find_similar_cached_query emb (float_or thr (similarity_threshold config)) (store w1)
       = (Ok (Some row), d1)
    /\ get_cached_answer_details (row_cache_id row) d1 = (Ok (Some answer_row), d2)
    /\ record_cache_hit (row_cache_id row) d2 = (Ok tt, d3)
    /\ pool_release d3 = (Ok tt, d4)
    /\ hit = make_hit row answer_row
    /\ store w' = d4.
Proof.
  unfold check_cache. destruct (_config (self w)) as [config |] eqn:Hc; [| discriminate].
  destruct (negb (cache_enabled config)); [discriminate |].
  unfold try_except, check_cache_try, get_connection, get_connection_with, bind.
  fold acquire_connection.
  destruct (acquire_connection w) as [[[] | e] w1] eqn:Ha; [| discriminate].
  unfold async_with_exit, check_cache_queries, bind, call, ret.
  destruct (find_similar_cached_query _ _ _) as [[[row |] | e] d1] eqn:Hf; simpl;
    [| destruct (pool_release _) as [[[] | e'] d']; discriminate
     | destruct (pool_release _) as [[[] | e'] d']; discriminate].
  destruct (get_cached_answer_details _ _) as [[[ans |] | e] d2] eqn:Hd; simpl;
    [| destruct (pool_release _) as [[[] | e'] d']; discriminate
     | destruct (pool_release _) as [[[] | e'] d']; discriminate].
  destruct (record_cache_hit _ _) as [[[] | e] d3] eqn:Hh; simpl;
    [| destruct (pool_release _) as [[[] | e'] d']; discriminate].
  destruct (pool_release d3) as [[[] | e'] d4] eqn:Hr; simpl; [| discriminate].
  intros [= <- <-]. exists config, w1, row, d1, ans, d2, d3, d4. now repeat split.
Qed.

End EngineFacts.

(** * The manager in front of the in-memory store *)

Section MemStoreFacts.
Context `{RT : Runtime}.

Implicit Types (d : MemDB) (w : World MemDB).

Lemma when_available_ok {A : Type} (op : MemDB -> outcome A * MemDB) d (a : A) d' :
  when_available op d = (Ok a, d') -> op d = (Ok a, d').
Proof. unfold when_available. now destruct (available d). Qed.

Lemma when_available_keeps {A : Type} (op : MemDB -> outcome A * MemDB) d :
  (forall d0, entries (op d0).2 = entries d0) ->
  entries (when_available op d).2 = entries d.
Proof. intros H. unfold when_available. destruct (available d); [apply H | reflexivity]. Qed.

Lemma best_elem (cs : list (uuid * Entry * float)) c :
  best cs = Some c -> c ∈ cs.
Proof.
  revert c. induction cs as [| c0 cs IH]; intros c; simpl; [discriminate |].
  destruct (best cs) as [b |].
  - destruct (better c0 b); intros [= <-]; [left | right; now apply IH].
  - intros [= <-]. left.
Qed.

Lemma candidates_elem (q : embedding) (t : float) (es : list (uuid * Entry)) kv s :
  (kv, s) ∈ candidates q t es -> kv ∈ es.
Proof.
  unfold candidates. rewrite list_elem_of_omap. intros (kv' & Hin & H).
  destruct (entry_embedding kv'.2); [| discriminate].
  destruct (PrimFloat.leb t _); [| discriminate].
  now injection H as -> _.
Qed.

(** The row of a search is the stored entry, with its counter as stored. *)
Lemma mem_find_similar_row (q : embedding) (t : float) d row d' :
  mem_find_similar q t d = (Ok (Some row), d') ->
  d' = d
  /\ exists e, entries d !! row_cache_id row = Some e /\ row_cache_hits row = hitCount e.
Proof.
  intros H. apply when_available_ok in H.
  destruct (negb (length q =? dimension d)%nat); [discriminate |].
  injection H as H <-. split; [reflexivity |].
  destruct (best _) as [[[id e] s] |] eqn:Hb; [| discriminate].
  injection H as <-. apply best_elem, candidates_elem in Hb.
  apply elem_of_map_to_list in Hb. exists e. now split.
Qed.

Lemma mem_answer_details_store (id : uuid) d r d' :
  mem_answer_details id d = (r, d') -> d' = d.
Proof.
  unfold mem_answer_details, when_available. destruct (available d); now intros [= _ <-].
Qed.

Lemma mem_record_hit_counter (id : uuid) d d' e :
  entries d !! id = Some e ->
  mem_record_hit id d = (Ok tt, d') ->
  hitCount <$> entries d' !! id = Some (hitCount e + 1)%Z.
Proof.
  intros He H. apply when_available_ok in H. rewrite He in H.
  injection H as <-. simpl. now rewrite lookup_insert_eq.
Qed.

Lemma mem_pool_op_store {A : Type} (a : A) d r d' :
  mem_pool_op a d = (r, d') -> d' = d.
Proof.
  unfold mem_pool_op, when_available. destruct (available d); now intros [= _ <-].
Qed.

(** Entering a connection leaves the entries as they are. *)
Lemma acquire_connection_entries w r w1 :
  acquire_connection w = (r, w1) -> entries (store w1) = entries (store w).
Proof.
  intros H. symmetry. revert H.
  apply (keeps_acquire_connection (fun w w' => entries (store w) = entries (store w')));
    try (intros w0; rewrite call_store; simpl; symmetry;
         apply when_available_keeps; reflexivity).
  - reflexivity.
  - intros ??? -> ->. reflexivity.
  - reflexivity.
Qed.

(** C4.  On a hit, the [CacheHit] carries the hit count that the entry had
    in the store before the lookup, the counter stored for that entry after
    the lookup is that value plus one, and the response built by
    [process_query_with_cache] reports that value plus one, the counter as
    stored after the lookup. *)
Theorem hit_count_is_reported_before_increment emb thr w w' hit :
  check_cache emb thr w = (Ok (Some hit), w') ->
  (exists e,
     entries (store w) !! cache_id hit = Some e
     /\ cache_hits hit = hitCount e
     /\ hitCount <$> entries (store w') !! cache_id hit = Some (hitCount e + 1)%Z)
  /\ (thr = None ->
      forall (user_question rephrased_query : string) (user_message_id : uuid)
             (llm_processor_func : string -> string -> embedding -> M (World MemDB) LlmResult)
             (start_time end_time : float),
      exists response,
        process_query_with_cache user_question rephrased_query emb user_message_id
          llm_processor_func start_time end_time w = (Ok response, w')
        /\ response_cache_hits response = Some (cache_hits hit + 1)%Z
        /\ response_cache_hits response
           = hitCount <$> entries (store w') !! cache_id hit).
Proof.
  intros H.
  destruct (check_cache_hit_inv _ _ _ _ _ H)
    as (config & w1 & row & d1 & ans & d2 & d3 & d4
        & Hc & Ha & Hf & Hd & Hh & Hr & -> & Hs).
  simpl in Hf, Hd, Hh, Hr.
  apply mem_find_similar_row in Hf as (-> & e & He & Hn).
  apply mem_answer_details_store in Hd as ->.
  apply mem_pool_op_store in Hr as ->.
  rewrite (acquire_connection_entries _ _ _ Ha) in He.
  assert (Hafter : hitCount <$> entries (store w') !! row_cache_id row
                   = Some (hitCount e + 1)%Z).
  { rewrite Hs. eapply mem_record_hit_counter; [| exact Hh].
    now rewrite (acquire_connection_entries _ _ _ Ha). }
  split.
  - exists e. simpl. now repeat split.
  - intros -> user_question rephrased_query user_message_id llm start_time end_time.
    destruct (process_query_with_cache_hit user_question rephrased_query emb
                user_message_id llm start_time end_time _ _ _ H)
      as (response & Hp & _ & _ & Hhits).
    exists response. split; [exact Hp |]. split; [exact Hhits |].
    rewrite Hhits. transitivity (Some (hitCount e + 1)%Z).
    + simpl. now rewrite Hn.
    + symmetry. exact Hafter.
Qed.

End MemStoreFacts.

(** * Concrete runs *)

Section Runs.
#[local] Existing Instance reference_runtime.

Lemma disabled_policy_is_noop_witness :
  _config (self (ready disabled_config sample_db)) = Some disabled_config
  /\ cache_enabled disabled_config = false
  /\ check_cache unit_x None (ready disabled_config sample_db)
     = (Ok None, ready disabled_config sample_db)
  /\ add_to_cache "u2" "a2" "what is a share" unit_x (ready disabled_config sample_db)
     = (Ok None, ready disabled_config sample_db).
Proof.
  split; [reflexivity |]. split; [reflexivity |].
  apply (disabled_policy_is_noop unit_x None "u2" "a2" "what is a share"
           (ready disabled_config sample_db) disabled_config); reflexivity.
Defined.

Lemma unconfigured_manager_is_noop_witness :
  _config (self (fresh_manager sample_db)) = None
  /\ check_cache unit_x None (fresh_manager sample_db)
     = (Ok None, fresh_manager sample_db)
  /\ add_to_cache "u2" "a2" "what is a share" unit_x (fresh_manager sample_db)
     = (Ok None, fresh_manager sample_db).
Proof.
  split; [reflexivity |].
  apply (unconfigured_manager_is_noop unit_x None "u2" "a2" "what is a share"
           (fresh_manager sample_db)); reflexivity.
Defined.

Lemma hot_path_never_raises_witness :
  (check_cache_try unit_x default_threshold (ready CacheConfig_default down_db)).1
  = Raise ConnectionError
  /\ (check_cache unit_x None (ready CacheConfig_default down_db)).1 = Ok None
  /\ (add_to_cache_try "u2" "a2" "what is a share" unit_x
        (ready CacheConfig_default down_db)).1
     = Raise ConnectionError
  /\ (add_to_cache "u2" "a2" "what is a share" unit_x
        (ready CacheConfig_default down_db)).1 = Ok None.
Proof.
  pose proof (hot_path_never_raises unit_x None "u2" "a2" "what is a share"
                (ready CacheConfig_default down_db)) as (_ & _ & Hcheck & Hadd).
  split; [vm_compute; reflexivity |].
  split; [apply (Hcheck CacheConfig_default ConnectionError);
          [reflexivity | vm_compute; reflexivity] |].
  split; [vm_compute; reflexivity |].
  apply (Hadd ConnectionError). vm_compute. reflexivity.
Defined.

(** The override 0.0 should let the entry E through, whose score against
    [unit_y] is 0; the search is run with 0.85 instead and misses it. *)
Example zero_override_misses_entry :
  (mem_find_similar unit_y 0%float sample_db).1
  = Ok (Some {| row_cache_id := "E";
                row_user_message_id := "u1";
                row_assistant_message_id := "a1";
                row_rephrased_query := "what is a bond";
                row_similarity_score := 0%float;
                row_cache_hits := 3 |})
  /\ check_cache unit_y (Some 0%float) (ready CacheConfig_default sample_db)
     = (Ok None,
        {| self := self (ready CacheConfig_default sample_db);
           store := sample_db;
           issued := [PoolAcquire;
                      FindSimilarCachedQuery unit_y default_threshold;
                      PoolRelease] |}).
Proof. split; vm_compute; reflexivity. Qed.

Lemma unresolved_answer_is_miss_witness :
  acquire_connection (ready CacheConfig_default orphan_db)
  = (Ok tt, entered CacheConfig_default orphan_db)
  /\ find_similar_cached_query unit_x default_threshold orphan_db
     = (Ok (Some row_E), orphan_db)
  /\ get_cached_answer_details "E" orphan_db = (Ok None, orphan_db)
  /\ (check_cache unit_x None (ready CacheConfig_default orphan_db)).1 = Ok None
  /\ issued (check_cache unit_x None (ready CacheConfig_default orphan_db)).2
     = [PoolAcquire; FindSimilarCachedQuery unit_x default_threshold;
        GetCachedAnswerDetails "E"; PoolRelease]
  /\ forall id,
       RecordCacheHit id
       ∈ issued (check_cache unit_x None (ready CacheConfig_default orphan_db)).2 ->
       RecordCacheHit id ∈ issued (ready CacheConfig_default orphan_db).
Proof.
  assert (Ha : acquire_connection (ready CacheConfig_default orphan_db)
               = (Ok tt, entered CacheConfig_default orphan_db))
    by (vm_compute; reflexivity).
  assert (Hf : find_similar_cached_query unit_x
                 (float_or None (similarity_threshold CacheConfig_default))
                 (store (entered CacheConfig_default orphan_db))
               = (Ok (Some row_E), orphan_db)) by (vm_compute; reflexivity).
  assert (Hd : get_cached_answer_details (row_cache_id row_E) orphan_db
               = (Ok None, orphan_db)) by (vm_compute; reflexivity).
  destruct (unresolved_answer_is_miss unit_x None
              (ready CacheConfig_default orphan_db)
              (entered CacheConfig_default orphan_db) CacheConfig_default row_E
              orphan_db orphan_db eq_refl eq_refl Ha Hf Hd) as (H1 & H2 & _ & H4).
  repeat split; assumption.
Defined.

Lemma hit_count_is_reported_before_increment_witness :
  check_cache unit_x None (ready CacheConfig_default sample_db)
  = (Ok (Some hit_E), after_hit_E)
  /\ exists e,
       entries (store (ready CacheConfig_default sample_db)) !! cache_id hit_E = Some e
       /\ cache_hits hit_E = hitCount e
       /\ hitCount <$> entries (store after_hit_E) !! cache_id hit_E
          = Some (hitCount e + 1)%Z.
Proof.
  assert (H : check_cache unit_x None (ready CacheConfig_default sample_db)
              = (Ok (Some hit_E), after_hit_E)) by (vm_compute; reflexivity).
  split; [exact H |].
  exact (proj1 (hit_count_is_reported_before_increment unit_x None _ _ _ H)).
Defined.

Lemma malformed_value_reverts_whole_policy_witness :
  acquire_connection (ready CacheConfig_default malformed_capacity_db)
  = (Ok tt, entered CacheConfig_default malformed_capacity_db)
  /\ select_config malformed_capacity_db = (Ok malformed_rows, malformed_capacity_db)
  /\ malformed (config_dict_of malformed_rows)
  /\ _config (self (_load_config (ready CacheConfig_default malformed_capacity_db)).2)
     = Some CacheConfig_default.
Proof.
  assert (Ha : acquire_connection (ready CacheConfig_default malformed_capacity_db)
               = (Ok tt, entered CacheConfig_default malformed_capacity_db))
    by (vm_compute; reflexivity).
  assert (Hs : select_config (store (entered CacheConfig_default malformed_capacity_db))
               = (Ok malformed_rows, malformed_capacity_db))
    by (vm_compute; reflexivity).
  assert (Hm : malformed (config_dict_of malformed_rows)).
  { right. exists "abc". split; vm_compute; reflexivity. }
  split; [exact Ha |]. split; [exact Hs |]. split; [exact Hm |].
  exact (proj1 (malformed_value_reverts_whole_policy _ _ _ _ Ha Hs) Hm).
Defined.

(** C5 fails on the code: the capacity is the one malformed value, the
    enable flag reads as [false], and the load ends with the default policy,
    enabled, where the per-key reading keeps the flag off. *)
Lemma load_config_per_key_counterexample :
  select_config malformed_capacity_db = (Ok malformed_rows, malformed_capacity_db)
  /\ py_int "abc" = None
  /\ per_key_policy (config_dict_of malformed_rows) = disabled_config
  /\ _config (self (_load_config (ready CacheConfig_default malformed_capacity_db)).2)
     = Some CacheConfig_default
  /\ _config (self (_load_config (ready CacheConfig_default malformed_capacity_db)).2)
     <> Some (per_key_policy (config_dict_of malformed_rows)).
Proof.
  assert (Hp : per_key_policy (config_dict_of malformed_rows) = disabled_config)
    by (vm_compute; reflexivity).
  assert (Hl : _config (self (_load_config
                                (ready CacheConfig_default malformed_capacity_db)).2)
               = Some CacheConfig_default) by (vm_compute; reflexivity).
  split; [vm_compute; reflexivity |]. split; [vm_compute; reflexivity |].
  split; [exact Hp |]. split; [exact Hl |].
  rewrite Hl, Hp. intros H. injection H as H. discriminate H.
Qed.

(** C6 fails on the code.  A batch with an unknown key is reported as a
    success, and the other key of the batch is persisted.  A batch of two
    keys that the class has, with the second statement cancelled, leaves
    the first key persisted and the second not. *)
Lemma update_config_unknown_key_counterexample :
  hasattr_CacheConfig "bogus" = false
  /\ hasattr_CacheConfig "model_config" = true
  /\ hasattr_CacheConfig "model_fields" = true
  /\ (update_config attribute_batch (ready CacheConfig_default sample_db)).1 = Ok true
  /\ issued (update_config attribute_batch (ready CacheConfig_default sample_db)).2
     = [PoolAcquire; UpsertConfig "model_config" "{}";
        PoolAcquire; SelectConfig; PoolRelease; PoolRelease]
  /\ config_table (store (update_config attribute_batch
                            (ready CacheConfig_default sample_db)).2)
       !! "model_config" = Some "{}"
  /\ (update_config (BE := cancelling_backend) attribute_pair_batch
        (ready CacheConfig_default sample_db)).1 = Ok false
  /\ issued (update_config (BE := cancelling_backend) attribute_pair_batch
               (ready CacheConfig_default sample_db)).2
     = [PoolAcquire; UpsertConfig "model_config" "{}";
        UpsertConfig "model_fields" "{}"; PoolRelease]
  /\ config_table (store (update_config (BE := cancelling_backend) attribute_pair_batch
                            (ready CacheConfig_default sample_db)).2)
       !! "model_config" = Some "{}"
  /\ config_table (store (update_config (BE := cancelling_backend) attribute_pair_batch
                            (ready CacheConfig_default sample_db)).2)
       !! "model_fields" = None.
Proof. repeat split; vm_compute; reflexivity. Qed.

Lemma update_config_skips_unknown_keys_witness :
  acquire_connection (ready CacheConfig_default sample_db)
  = (Ok tt, entered CacheConfig_default sample_db)
  /\ persist_kwargs attribute_batch (entered CacheConfig_default sample_db)
     = (Ok tt, (persist_kwargs attribute_batch (entered CacheConfig_default sample_db)).2)
  /\ update_config attribute_batch (ready CacheConfig_default sample_db)
     = update_config [("model_config", "{}")] (ready CacheConfig_default sample_db)
  /\ update_config mixed_batch (ready CacheConfig_default sample_db)
     = update_config [] (ready CacheConfig_default sample_db)
  /\ issued (persist_kwargs attribute_batch (entered CacheConfig_default sample_db)).2
     = [PoolAcquire] ++ [UpsertConfig "model_config" "{}"]
  /\ persist_kwargs [("model_config", "{}")] (entered CacheConfig_default sample_db)
     = (Ok tt,
        {| self := self (entered CacheConfig_default sample_db);
           store := with_config_table sample_db {[ "model_config" := "{}" ]};
           issued := [PoolAcquire; UpsertConfig "model_config" "{}"] |})
  /\ persist_kwargs [("cache_enabled", "False")] (entered CacheConfig_default sample_db)
     = (Ok tt, entered CacheConfig_default sample_db)
  /\ (update_config attribute_batch (ready CacheConfig_default sample_db)).1 = Ok true
  /\ acquire_connection (BE := cancelling_backend) (ready CacheConfig_default sample_db)
     = (Ok tt, entered CacheConfig_default sample_db)
  /\ upsert_config (Backend := cancelling_backend) "model_fields" "{}"
       (store (persist_kwargs (BE := cancelling_backend) [("model_config", "{}")]
                 (entered CacheConfig_default sample_db)).2)
     = (Raise (PostgresError "57014"),
        store (persist_kwargs (BE := cancelling_backend) [("model_config", "{}")]
                 (entered CacheConfig_default sample_db)).2)
  /\ update_config (BE := cancelling_backend) attribute_pair_batch
       (ready CacheConfig_default sample_db)
     = (Ok false,
        {| self := self (ready CacheConfig_default sample_db);
           store := with_config_table sample_db {[ "model_config" := "{}" ]};
           issued := [PoolAcquire; UpsertConfig "model_config" "{}";
                      UpsertConfig "model_fields" "{}"; PoolRelease] |}).
Proof.
  destruct (update_config_skips_unknown_keys attribute_batch
              (ready CacheConfig_default sample_db))
    as (Hf & _ & _ & _ & Hone & Hskip & Hrun & _).
  destruct (update_config_skips_unknown_keys mixed_batch
              (ready CacheConfig_default sample_db)) as (Hm & _).
  destruct (update_config_skips_unknown_keys (BE := cancelling_backend)
              attribute_pair_batch (ready CacheConfig_default sample_db))
    as (_ & _ & _ & _ & _ & _ & _ & Hstop).
  assert (Ha : acquire_connection (ready CacheConfig_default sample_db)
               = (Ok tt, entered CacheConfig_default sample_db))
    by (vm_compute; reflexivity).
  assert (Hp : persist_kwargs attribute_batch (entered CacheConfig_default sample_db)
               = (Ok tt,
                  (persist_kwargs attribute_batch
                     (entered CacheConfig_default sample_db)).2))
    by (vm_compute; reflexivity).
  assert (Hc : acquire_connection (BE := cancelling_backend)
                 (ready CacheConfig_default sample_db)
               = (Ok tt, entered CacheConfig_default sample_db))
    by (vm_compute; reflexivity).
  assert (H1 : persist_kwargs (BE := cancelling_backend) [("model_config", "{}")]
                 (entered CacheConfig_default sample_db)
               = (Ok tt,
                  (persist_kwargs (BE := cancelling_backend) [("model_config", "{}")]
                     (entered CacheConfig_default sample_db)).2))
    by (vm_compute; reflexivity).
  assert (Hu : upsert_config (Backend := cancelling_backend) "model_fields" "{}"
                 (store (persist_kwargs (BE := cancelling_backend)
                           [("model_config", "{}")]
                           (entered CacheConfig_default sample_db)).2)
               = (Raise (PostgresError "57014"),
                  store (persist_kwargs (BE := cancelling_backend)
                           [("model_config", "{}")]
                           (entered CacheConfig_default sample_db)).2))
    by (vm_compute; reflexivity).
  destruct (Hrun _ _ Ha Hp) as (Hrun1 & Hrun2).
  destruct (Hstop [("model_config", "{}")] "model_fields" "{}" [] _ _ _ _
              eq_refl Hc H1 eq_refl Hu) as (Hstop1 & _).
  split; [exact Ha |]. split; [exact Hp |]. split; [exact Hf |].
  split; [exact Hm |]. split; [exact Hrun2 |].
  split; [rewrite (Hone "model_config" "{}" _ eq_refl); vm_compute; reflexivity |].
  split; [exact (Hskip "cache_enabled" "False" _ eq_refl) |].
  split; [rewrite Hrun1; vm_compute; reflexivity |].
  split; [exact Hc |]. split; [exact Hu |].
  rewrite Hstop1. vm_compute. reflexivity.
Defined.

Lemma embedding_is_forwarded_unchecked_witness :
  acquire_connection (ready CacheConfig_default sample_db)
  = (Ok tt, entered CacheConfig_default sample_db)
  /\ (exists rest,
        issued (check_cache short_embedding None (ready CacheConfig_default sample_db)).2
        = [PoolAcquire] ++ FindSimilarCachedQuery short_embedding default_threshold :: rest)
  /\ (exists rest,
        issued (add_to_cache "u2" "a2" "what is a share" short_embedding
                  (ready CacheConfig_default sample_db)).2
        = [PoolAcquire]
          ++ AddCacheEntry "u2" "a2" "what is a share" short_embedding :: rest)
  /\ (check_cache short_embedding None (ready CacheConfig_default sample_db)).1 = Ok None
  /\ (add_to_cache "u2" "a2" "what is a share" short_embedding
        (ready CacheConfig_default sample_db)).1 = Ok None.
Proof.
  assert (Ha : acquire_connection (ready CacheConfig_default sample_db)
               = (Ok tt, entered CacheConfig_default sample_db))
    by (vm_compute; reflexivity).
  destruct (embedding_is_forwarded_unchecked short_embedding None "u2" "a2"
              "what is a share" (ready CacheConfig_default sample_db)
              (entered CacheConfig_default sample_db) CacheConfig_default
              eq_refl eq_refl Ha)
    as (H1 & H2 & H3 & H4).
  split; [exact Ha |]. split; [exact H1 |]. split; [exact H2 |]. split.
  - apply (H3 (PostgresError "22000") sample_db). vm_compute. reflexivity.
  - apply (H4 (PostgresError "22000") sample_db). vm_compute. reflexivity.
Defined.

(** C8 fails on the code: the embedding has two components, the store
    three; both calls reach the store with it, and what comes back is the
    plain [None]. *)
Lemma dimension_mismatch_counterexample :
  length short_embedding <> dimension sample_db
  /\ check_cache short_embedding None (ready CacheConfig_default sample_db)
     = (Ok None,
        {| self := self (ready CacheConfig_default sample_db);
           store := sample_db;
           issued := [PoolAcquire;
                      FindSimilarCachedQuery short_embedding default_threshold;
                      PoolRelease] |})
  /\ add_to_cache "u2" "a2" "what is a share" short_embedding
       (ready CacheConfig_default sample_db)
     = (Ok None,
        {| self := self (ready CacheConfig_default sample_db);
           store := sample_db;
           issued := [PoolAcquire;
                      AddCacheEntry "u2" "a2" "what is a share" short_embedding;
                      PoolRelease] |})
  /\ issued (check_cache short_embedding None (ready CacheConfig_default sample_db)).2
     <> issued (ready CacheConfig_default sample_db).
Proof.
  split; [vm_compute; discriminate |].
  split; [vm_compute; reflexivity |].
  split; [vm_compute; reflexivity |].
  vm_compute. discriminate.
Qed.

Lemma maintenance_failure_values_witness :
  acquire_connection (ready CacheConfig_default down_db)
  = (Raise ConnectionError,
     {| self := self (ready CacheConfig_default down_db);
        store := down_db;
        issued := [] ++ [PoolAcquire] |})
  /\ (update_config attribute_batch (ready CacheConfig_default down_db)).1 = Ok false
  /\ (cleanup_cache (ready CacheConfig_default down_db)).1 = Ok 0%Z
  /\ (populate_from_existing (ready CacheConfig_default down_db)).1 = Ok 0%Z
  /\ (update_config (BE := cancelling_backend) attribute_pair_batch
        (ready CacheConfig_default sample_db)).1 = Ok false
  /\ (cleanup_cache (BE := cancelling_backend)
        (ready CacheConfig_default over_capacity_db)).1 = Ok 0%Z
  /\ (populate_from_existing (BE := cancelling_backend)
        (ready CacheConfig_default history_db)).1 = Ok 0%Z
  /\ (update_config (BE := release_fails_backend) attribute_batch
        (ready CacheConfig_default sample_db)).1 = Ok false
  /\ (cleanup_cache (BE := release_fails_backend)
        (ready CacheConfig_default over_capacity_db)).1 = Ok 0%Z
  /\ (populate_from_existing (BE := release_fails_backend)
        (ready CacheConfig_default history_db)).1 = Ok 0%Z
  /\ (update_config attribute_batch (ready CacheConfig_default empty_db)).1 = Ok true
  /\ (cleanup_cache (ready CacheConfig_default empty_db)).1 = Ok 0%Z
  /\ (populate_from_existing (ready CacheConfig_default empty_db)).1 = Ok 0%Z.
Proof.
  (* the store out of reach *)
  destruct (maintenance_failure_values attribute_batch
              (ready CacheConfig_default down_db)) as (Hdown & Hacq & _).
  pose proof (Hacq PoolHandle ConnectionError down_db eq_refl eq_refl) as Ha.
  destruct (Hdown _ _ Ha) as (D1 & D2 & D3).
  split; [exact Ha |].
  split; [now rewrite D1 |]. split; [now rewrite D2 |]. split; [now rewrite D3 |].
  (* a statement cancelled *)
  split.
  { destruct (maintenance_failure_values (BE := cancelling_backend)
                attribute_pair_batch (ready CacheConfig_default sample_db))
      as (_ & _ & H & _).
    destruct (H (entered CacheConfig_default sample_db)) as (Hu & _);
      [vm_compute; reflexivity |].
    apply (Hu (PostgresError "57014")
             (persist_kwargs (BE := cancelling_backend) attribute_pair_batch
                (entered CacheConfig_default sample_db)).2).
    vm_compute. reflexivity. }
  split.
  { destruct (maintenance_failure_values (BE := cancelling_backend)
                attribute_batch (ready CacheConfig_default over_capacity_db))
      as (_ & _ & H & _).
    destruct (H (entered CacheConfig_default over_capacity_db)) as (_ & Hc & _);
      [vm_compute; reflexivity |].
    apply (Hc (PostgresError "57014") over_capacity_db). reflexivity. }
  split.
  { destruct (maintenance_failure_values (BE := cancelling_backend)
                attribute_batch (ready CacheConfig_default history_db))
      as (_ & _ & H & _).
    destruct (H (entered CacheConfig_default history_db)) as (_ & _ & Hp);
      [vm_compute; reflexivity |].
    apply (Hp (PostgresError "57014") history_db). reflexivity. }
  (* the release failing *)
  split.
  { destruct (maintenance_failure_values (BE := release_fails_backend)
                attribute_batch (ready CacheConfig_default sample_db))
      as (_ & _ & _ & H & _).
    destruct (H (entered CacheConfig_default sample_db)) as (Hu & _);
      [vm_compute; reflexivity |].
    apply (Hu (persist_kwargs (BE := release_fails_backend) attribute_batch
                 (entered CacheConfig_default sample_db)).2
             ConnectionError
             (store (_load_config (BE := release_fails_backend)
                       (persist_kwargs (BE := release_fails_backend) attribute_batch
                          (entered CacheConfig_default sample_db)).2).2));
      [vm_compute; reflexivity | reflexivity]. }
  split.
  { destruct (maintenance_failure_values (BE := release_fails_backend)
                attribute_batch (ready CacheConfig_default over_capacity_db))
      as (_ & _ & _ & H & _).
    destruct (H (entered CacheConfig_default over_capacity_db)) as (_ & Hc & _);
      [vm_compute; reflexivity |].
    apply (Hc (sql_cleanup_cache (Backend := release_fails_backend) over_capacity_db).1
             (sql_cleanup_cache (Backend := release_fails_backend) over_capacity_db).2
             ConnectionError
             (sql_cleanup_cache (Backend := release_fails_backend) over_capacity_db).2);
      [vm_compute; reflexivity | reflexivity]. }
  split.
  { destruct (maintenance_failure_values (BE := release_fails_backend)
                attribute_batch (ready CacheConfig_default history_db))
      as (_ & _ & _ & H & _).
    destruct (H (entered CacheConfig_default history_db)) as (_ & _ & Hp);
      [vm_compute; reflexivity |].
    apply (Hp (sql_populate_cache_from_existing (Backend := release_fails_backend)
                 history_db).1
             (sql_populate_cache_from_existing (Backend := release_fails_backend)
                history_db).2
             ConnectionError
             (sql_populate_cache_from_existing (Backend := release_fails_backend)
                history_db).2);
      [vm_compute; reflexivity | reflexivity]. }
  (* everything going through *)
  destruct (maintenance_failure_values attribute_batch
              (ready CacheConfig_default empty_db)) as (_ & _ & _ & _ & H).
  destruct (H (entered CacheConfig_default empty_db)) as (Hu & Hc & Hp);
    [vm_compute; reflexivity |].
  split.
  { apply (Hu (persist_kwargs attribute_batch (entered CacheConfig_default empty_db)).2
             (store (_load_config
                       (persist_kwargs attribute_batch
                          (entered CacheConfig_default empty_db)).2).2));
      vm_compute; reflexivity. }
  split.
  - apply (Hc 0%Z empty_db empty_db); vm_compute; reflexivity.
  - apply (Hp 0%Z empty_db empty_db); vm_compute; reflexivity.
Defined.

(** C9 fails on the code: with the store out of reach, [cleanup_cache] and
    [populate_from_existing] return what they return on a store that is up
    and has nothing to remove or to insert. *)
Lemma maintenance_failure_counterexample :
  (cleanup_cache_try (ready CacheConfig_default down_db)).1 = Raise ConnectionError
  /\ (cleanup_cache_try (ready CacheConfig_default empty_db)).1 = Ok 0%Z
  /\ (cleanup_cache (ready CacheConfig_default down_db)).1
     = (cleanup_cache (ready CacheConfig_default empty_db)).1
  /\ (populate_from_existing_try (ready CacheConfig_default down_db)).1
     = Raise ConnectionError
  /\ (populate_from_existing_try (ready CacheConfig_default empty_db)).1 = Ok 0%Z
  /\ (populate_from_existing (ready CacheConfig_default down_db)).1
     = (populate_from_existing (ready CacheConfig_default empty_db)).1.
Proof. repeat split; vm_compute; reflexivity. Qed.

End Runs.

(** * Further properties of the manager *)

Section LifecycleFacts.
Context {DB : Type} `{RT : Runtime} `{BE : Backend DB}.

Implicit Types (w : World DB) (emb : embedding) (thr : option float).

Lemma load_config_with_pool_eq (init : M (World DB) unit) w p :
  _pool (self w) = Some p ->
  _load_config_with (@get_connection_with _ _ init) w = _load_config w.
Proof. intros Hp. now apply load_config_with_pool with (p := p). Qed.

(** Loading the policy touches neither the pool nor the outcome: it always
    returns, and the pool of the manager is the one it had. *)
Lemma load_config_run w p :
  _pool (self w) = Some p ->
  (_load_config w).1 = Ok tt
  /\ _pool (self (_load_config w).2) = Some p
  /\ exists c, _config (self (_load_config w).2) = Some c.
Proof.
  intros Hp.
  unfold _load_config, _load_config_with, try_except, get_connection,
    get_connection_with, bind, async_with_exit.
  rewrite (acquire_connection_with_pool _ _ _ Hp).
  pose proof (call_self PoolAcquire pool_acquire w) as Hs0.
  destruct (call PoolAcquire pool_acquire w) as [[[] | e] w1]; simpl in Hs0;
    [| simpl; rewrite Hs0, Hp; eauto].
  pose proof (call_self SelectConfig select_config w1) as Hs1.
  destruct (call SelectConfig select_config w1) as [[rows | e] w2]; simpl in Hs1.
  - destruct (build_config (config_dict_of rows)) as [c | e]; simpl.
    + pose proof (call_self PoolRelease pool_release
                    {| self := {| _pool := _pool (self w2); _config := Some c |};
                       store := store w2; issued := issued w2 |}) as Hs.
      destruct (call PoolRelease pool_release _) as [[[] | e] w3]; simpl in *;
        rewrite ?Hs; simpl; rewrite ?Hs1, ?Hs0, ?Hp; eauto.
    + pose proof (call_self PoolRelease pool_release w2) as Hs.
      destruct (call PoolRelease pool_release w2) as [[[] | e'] w3]; simpl in *;
        rewrite ?Hs, ?Hs1, ?Hs0, ?Hp; eauto.
  - pose proof (call_self PoolRelease pool_release w2) as Hs.
    destruct (call PoolRelease pool_release w2) as [[[] | e'] w3]; simpl in *;
      rewrite ?Hs, ?Hs1, ?Hs0, ?Hp; eauto.
Qed.

Lemma initialize_ok w w' :
  initialize w = (Ok tt, w') ->
  (exists p, _pool (self w') = Some p)
  /\ (_pool (self w) = None -> exists c, _config (self w') = Some c)
  /\ initialize w' = (Ok tt, w').
Proof.
  unfold initialize. simpl. destruct (_pool (self w)) as [p |] eqn:Hp.
  - intros [= <-]. rewrite Hp. repeat split; [eauto | discriminate].
  - unfold bind.
    pose proof (call_self CreatePool create_pool w) as Hs0.
    destruct (call CreatePool create_pool w) as [[p | e] w1]; [| discriminate].
    simpl in Hs0. simpl.
    set (w2 := {| self := {| _pool := Some p; _config := _config (self w1) |};
                  store := store w1; issued := issued w1 |}).
    rewrite (load_config_with_pool_eq _ w2 p eq_refl).
    destruct (load_config_run w2 p eq_refl) as (Hr & Hpool & c & Hc).
    destruct (_load_config w2) as [r w3]. simpl in *. intros [= -> ->].
    rewrite Hpool. repeat split; eauto.
Qed.

(** [initialize] fails only when the pool cannot be created, and then it
    has done nothing else. *)
Lemma initialize_raise w e w' :
  initialize w = (Raise e, w') ->
  _pool (self w) = None
  /\ (create_pool (store w)).1 = Raise e
  /\ w' = {| self := self w; store := (create_pool (store w)).2;
             issued := issued w ++ [CreatePool] |}.
Proof.
  unfold initialize. simpl. destruct (_pool (self w)) as [p |] eqn:Hp; [discriminate |].
  unfold bind, call. destruct (create_pool (store w)) as [[p | e'] d]; simpl.
  - set (w2 := {| self := {| _pool := Some p; _config := _config (self w) |};
                  store := d; issued := issued w ++ [CreatePool] |}).
    rewrite (load_config_with_pool_eq _ w2 p eq_refl).
    destruct (load_config_run w2 p eq_refl) as (Hr & _).
    destruct (_load_config w2) as [r w3]. simpl in Hr. subst r. discriminate.
  - intros [= -> <-]. now repeat split.
Qed.

(** X1.  [initialize] on a manager without a pool, when it returns, has
    installed a pool and a policy; on a manager that has a pool it does
    nothing at all, so a second [initialize] after a successful one changes
    nothing. *)
Theorem initialize_installs_pool_and_policy w w' :
  initialize w = (Ok tt, w') ->
  (exists p, _pool (self w') = Some p)
  /\ (_pool (self w) = None -> exists c, _config (self w') = Some c)
  /\ initialize w' = (Ok tt, w').
Proof. apply initialize_ok. Qed.

(** X2.  When the pool cannot be created, a lookup under an enabled policy
    is a miss and an insertion returns [None]; the only thing sent is the
    creation of the pool, and the manager is left exactly as it was, so the
    next call tries to create the pool again. *)
Theorem pool_creation_failure_is_retried emb thr (u a : uuid) (q : string)
    w config e d :
  _config (self w) = Some config ->
  cache_enabled config = true ->
  _pool (self w) = None ->
  create_pool (store w) = (Raise e, d) ->
  check_cache emb thr w
  = (Ok None, {| self := self w; store := d; issued := issued w ++ [CreatePool] |})
  /\ add_to_cache u a q emb w
     = (Ok None, {| self := self w; store := d; issued := issued w ++ [CreatePool] |}).
Proof.
  intros Hc He Hp Hf.
  assert (Ha : acquire_connection w
               = (Raise e, {| self := self w; store := d;
                              issued := issued w ++ [CreatePool] |})).
  { unfold acquire_connection, acquire_connection_with, bind. rewrite Hp.
    unfold initialize. simpl. rewrite Hp. unfold bind, call. now rewrite Hf. }
  split.
  - rewrite (check_cache_enabled _ _ _ _ Hc He). unfold try_except, check_cache_try.
    now rewrite (get_connection_not_entered _ _ _ _ Ha).
  - rewrite (add_to_cache_enabled _ _ _ _ _ _ Hc He). unfold try_except, add_to_cache_try.
    now rewrite (get_connection_not_entered _ _ _ _ Ha).
Qed.

(** X3.  [_load_config] never raises, whatever the store does, and always
    ends with a policy in place. *)
Theorem load_config_always_returns_with_a_policy w :
  (_load_config w).1 = Ok tt
  /\ exists c, _config (self (_load_config w).2) = Some c.
Proof.
  split; [| apply load_config_leaves_a_policy].
  unfold _load_config, _load_config_with, try_except, set_config.
  now destruct (get_connection _ w) as [[[] | e] w1].
Qed.

End LifecycleFacts.

Section PolicyFacts.
Context `{RT : Runtime}.

(** X4.  The policy is read key by key: unless one of the two numbers is
    malformed, each key takes the value stored for it and a missing key
    takes its own default, so an empty config table gives the default
    policy; a malformed number makes the construction raise. *)
Theorem build_config_reads_each_key (config_dict : gmap string string) :
  (malformed config_dict -> build_config config_dict = Raise ValueError)
  /\ (~ malformed config_dict ->
      build_config config_dict = Ok (per_key_policy config_dict))
  /\ (config_dict !! "similarity_threshold" = None ->
      config_dict !! "cache_enabled" = None ->
      config_dict !! "max_cache_entries" = None ->
      build_config config_dict = Ok CacheConfig_default).
Proof.
  split; [apply build_config_malformed |]. split.
  - intros Hm. unfold build_config, per_key_policy, malformed in *.
    destruct (config_dict !! "similarity_threshold") as [s |] eqn:Es; simpl.
    + destruct (py_float s) as [t |] eqn:Et; [| exfalso; apply Hm; left; eauto].
      destruct (config_dict !! "max_cache_entries") as [s' |] eqn:Em; simpl;
        [| reflexivity].
      destruct (py_int s') as [n |] eqn:En; [reflexivity |].
      exfalso. apply Hm. right. eauto.
    + destruct (config_dict !! "max_cache_entries") as [s' |] eqn:Em; simpl;
        [| reflexivity].
      destruct (py_int s') as [n |] eqn:En; [reflexivity |].
      exfalso. apply Hm. right. eauto.
  - intros H1 H2 H3. unfold build_config. now rewrite H1, H2, H3.
Qed.

End PolicyFacts.

Section StatementFacts.
Context {DB : Type} `{RT : Runtime} `{BE : Backend DB}.

Implicit Types (w : World DB) (emb : embedding) (thr : option float).

Lemma adds_only_call_any {A : Type} (P : Stmt -> Prop) (q : Stmt)
    (op : DB -> outcome A * DB) w :
  P q -> adds_only P w (call q op w).2.
Proof.
  intros Hq. exists [q]. split; [apply call_issued |].
  constructor; [exact Hq | constructor].
Qed.

Lemma adds_only_self (P : Stmt -> Prop) w m :
  adds_only P w {| self := m; store := store w; issued := issued w |}.
Proof. exists []. split; [simpl; now rewrite app_nil_r | constructor]. Qed.

(** Whatever [P] holds of the pool operations and of the read of the config
    table: entering a connection adds only statements that satisfy [P]. *)
Lemma acquire_connection_adds_only (P : Stmt -> Prop) :
  (forall q, pool_or_config q -> P q) ->
  keeps (adds_only P) acquire_connection.
Proof.
  intros HP.
  apply (keeps_acquire_connection (adds_only P)).
  - apply adds_only_refl.
  - apply adds_only_trans.
  - apply adds_only_self.
  - intros w0. apply adds_only_call_any, HP. unfold pool_or_config. set_solver.
  - intros w0. apply adds_only_call_any, HP. unfold pool_or_config. set_solver.
  - intros w0. apply adds_only_call_any, HP. unfold pool_or_config. set_solver.
  - intros w0. apply adds_only_call_any, HP. unfold pool_or_config. set_solver.
Qed.

(** A connection that was entered belongs to a manager with a pool. *)
Lemma acquire_connection_has_pool w w1 :
  acquire_connection w = (Ok tt, w1) -> exists p, _pool (self w1) = Some p.
Proof.
  unfold acquire_connection, acquire_connection_with, bind.
  destruct (match _pool (self w) with None => initialize w | Some _ => (Ok tt, w) end)
    as [[[] | e] w0]; [| discriminate].
  destruct (_pool (self w0)) as [p |] eqn:Hp; [| discriminate].
  intros H. pose proof (call_self PoolAcquire pool_acquire w0) as Hs.
  rewrite H in Hs. simpl in Hs. rewrite Hs, Hp. eauto.
Qed.

(** X5.  What a lookup sends under an enabled policy.  Entering the
    connection sends only pool operations and, on a lazy initialisation,
    the read of the config table.  If the connection is not entered,
    nothing more is sent.  Otherwise the lookup sends the search once, with
    the threshold fixed when the call began, then at most one resolution
    and at most one hit record, both for the same entry, in this order, and
    last the release of the connection; no other statement is ever sent. *)
Theorem lookup_statements emb thr w config :
  _config (self w) = Some config ->
  cache_enabled config = true ->
  adds_only pool_or_config w (acquire_connection w).2
  /\ ((acquire_connection w).1 <> Ok tt ->
      (check_cache emb thr w).2 = (acquire_connection w).2)
  /\ ((acquire_connection w).1 = Ok tt ->
      exists tail,
        issued (check_cache emb thr w).2 = issued (acquire_connection w).2 ++ tail
        /\ lookup_tail emb (float_or thr (similarity_threshold config)) tail).
Proof.
  intros Hc He.
  destruct (acquire_connection w) as [r w1] eqn:Ha. simpl.
  split; [eapply acquire_connection_issued; exact Ha |].
  remember (check_cache emb thr w) as run eqn:Hrun.
  rewrite (check_cache_enabled _ _ _ _ Hc He) in Hrun.
  unfold try_except, check_cache_try in Hrun.
  destruct r as [[] | e].
  - split; [congruence |]. intros _.
    rewrite (get_connection_entered _ _ _ Ha) in Hrun.
    unfold async_with_exit, check_cache_queries, bind, call, ret in Hrun.
    unfold lookup_tail.
    destruct (find_similar_cached_query _ _ _) as [[[row |] | e] d1];
      [destruct (get_cached_answer_details _ _) as [[[ans |] | e] d2];
       [destruct (record_cache_hit _ _) as [[[] | e] d3] | |] | |];
      simpl in Hrun;
      destruct (pool_release _) as [[[] | e'] d']; subst run; simpl;
      rewrite <- ?app_assoc; simpl; eexists; (split; [reflexivity |]); eauto.
  - split; [| congruence]. intros _.
    rewrite (get_connection_not_entered _ _ _ _ Ha) in Hrun. now subst run.
Qed.

(** X6.  A hit that cannot be handed back is lost to the caller but not to
    the store: when the search, the resolution and the hit record succeed
    and the release of the connection then fails, [check_cache] returns
    [None] although the hit has been recorded. *)
Theorem recorded_hit_is_a_miss_when_release_fails emb thr w w1 config
    row d1 answer_row d2 d3 e d4 :
  _config (self w) = Some config ->
  cache_enabled config = true ->
  acquire_connection w = (Ok tt, w1) ->
  find_similar_cached_query emb (float_or thr (similarity_threshold config)) (store w1)
  = (Ok (Some row), d1) ->
  get_cached_answer_details (row_cache_id row) d1 = (Ok (Some answer_row), d2) ->
  record_cache_hit (row_cache_id row) d2 = (Ok tt, d3) ->
  pool_release d3 = (Raise e, d4) ->
  check_cache emb thr w
  = (Ok None,
     {| self := self w1;
        store := d4;
        issued := issued w1
                  ++ [FindSimilarCachedQuery emb (float_or thr (similarity_threshold config));
                      GetCachedAnswerDetails (row_cache_id row);
                      RecordCacheHit (row_cache_id row);
                      PoolRelease] |}).
Proof.
  intros Hc He Ha Hf Hd Hh Hr.
  rewrite (check_cache_enabled _ _ _ _ Hc He).
  unfold try_except, check_cache_try. rewrite (get_connection_entered _ _ _ Ha).
  unfold async_with_exit, check_cache_queries, bind, call, ret.
  rewrite Hf. simpl. rewrite Hd. simpl. rewrite Hh. simpl. rewrite Hr. simpl.
  now rewrite <- !app_assoc.
Qed.

(** X7.  [add_to_cache] under an enabled policy hands back the identifier
    that the store answers to the insert, provided the connection is
    released.  An answer that is [None] or empty gives [None], any other
    identifier is handed back as it is.  When the release fails after a
    successful insert, the call returns [None] although the entry has been
    inserted. *)
Theorem add_to_cache_returns_the_store_id (u a : uuid) (q : string) emb
    w w1 config r d1 :
  _config (self w) = Some config ->
  cache_enabled config = true ->
  acquire_connection w = (Ok tt, w1) ->
  add_cache_entry u a q emb (store w1) = (Ok r, d1) ->
  (forall d2, pool_release d1 = (Ok tt, d2) ->
     add_to_cache u a q emb w
     = (Ok (str_if_truthy r),
        {| self := self w1; store := d2;
           issued := issued w1 ++ [AddCacheEntry u a q emb; PoolRelease] |}))
  /\ (forall e d2, pool_release d1 = (Raise e, d2) ->
        add_to_cache u a q emb w
        = (Ok None, {| self := self w1; store := d2;
                       issued := issued w1 ++ [AddCacheEntry u a q emb; PoolRelease] |}))
  /\ (r = None \/ r = Some EmptyString -> str_if_truthy r = None)
  /\ (forall id, r = Some id -> id <> EmptyString -> str_if_truthy r = Some id).
Proof.
  intros Hc He Ha Hadd.
  rewrite (add_to_cache_enabled _ _ _ _ _ _ Hc He).
  unfold try_except, add_to_cache_try. rewrite (get_connection_entered _ _ _ Ha).
  unfold async_with_exit, bind, call, ret. rewrite Hadd. simpl.
  split; [| split; [| split]].
  - intros d2 H. rewrite H. simpl. now rewrite <- !app_assoc.
  - intros e d2 H. rewrite H. simpl. now rewrite <- !app_assoc.
  - now intros [-> | ->].
  - intros id -> Hid. now destruct id.
Qed.

End StatementFacts.

Section MaintenanceFacts.
Context {DB : Type} `{RT : Runtime} `{BE : Backend DB}.

Implicit Types (w : World DB) (emb : embedding).

(** X8.  [close] on a manager with a pool closes it and forgets it, and
    keeps the policy; on a manager without a pool it does nothing, so a
    second [close] changes nothing.  A lookup after [close] still passes
    the gate of the kept policy and begins by creating a pool again. *)
Theorem close_keeps_the_policy emb (thr : option float) w w' config :
  close w = (Ok tt, w') ->
  _config (self w) = Some config ->
  cache_enabled config = true ->
  _pool (self w') = None
  /\ _config (self w') = Some config
  /\ close w' = (Ok tt, w')
  /\ exists rest, issued (check_cache emb thr w').2 = issued w' ++ CreatePool :: rest.
Proof.
  intros Hclose Hc He.
  assert (Hw' : _pool (self w') = None /\ _config (self w') = Some config).
  { revert Hclose. unfold close. destruct (_pool (self w)) as [p |] eqn:Hp.
    - unfold bind, set_pool.
      pose proof (call_self PoolClose pool_close w) as Hs.
      destruct (call PoolClose pool_close w) as [[[] | e] w0]; [| discriminate].
      simpl in Hs. intros [= <-]. simpl. now rewrite Hs.
    - intros [= <-]. now split. }
  destruct Hw' as [Hp' Hc']. split; [exact Hp' |]. split; [exact Hc' |].
  split; [unfold close; now rewrite Hp' |].
  pose proof (lookup_statements emb thr w' config Hc' He) as (_ & Hno & Hyes).
  assert (Hstart : exists l, issued (acquire_connection w').2 = issued w' ++ CreatePool :: l).
  { unfold acquire_connection, acquire_connection_with, bind. rewrite Hp'.
    unfold initialize. simpl. rewrite Hp'. unfold bind.
    pose proof (call_issued CreatePool create_pool w') as Hi.
    destruct (call CreatePool create_pool w') as [[p | e] w0]; simpl in Hi;
      [| simpl; exists []; exact Hi].
    simpl.
    set (w2 := {| self := {| _pool := Some p; _config := _config (self w0) |};
                  store := store w0; issued := issued w0 |}).
    assert (Hgrow : adds_only (fun _ => True) w2
                      (_load_config_with (@get_connection_with _ _ (initialize_fuel 0)) w2).2).
    { destruct (_load_config_with _ w2) as [r w3] eqn:E. simpl.
      revert E. apply (keeps_load_config_with (adds_only (fun _ => True)));
        try (intros; apply adds_only_call_any; exact I).
      - apply adds_only_refl.
      - apply adds_only_trans.
      - apply adds_only_self.
      - apply keeps_initialize_fuel;
          try (intros; apply adds_only_call_any; exact I).
        + apply adds_only_refl.
        + apply adds_only_trans.
        + apply adds_only_self. }
    destruct Hgrow as (l & El & _).
    destruct (_load_config_with _ w2) as [[[] | e] w3]; simpl in *.
    - destruct (_pool (self w3)).
      + rewrite call_issued, El, Hi, <- !app_assoc. simpl. eauto.
      + simpl. rewrite El, Hi, <- !app_assoc. simpl. eauto.
    - rewrite El, Hi, <- !app_assoc. simpl. eauto. }
  destruct Hstart as (l & El).
  destruct (acquire_connection w') as [[[] | e] w1] eqn:Ha; simpl in *.
  - destruct (Hyes eq_refl) as (tail & Et & _).
    rewrite Et, El, <- app_assoc. simpl. eauto.
  - rewrite Hno by congruence. simpl. rewrite El. eauto.
Qed.

(** X9.  [cleanup_cache] and [populate_from_existing] always return a
    number, never an exception.  A number other than 0 is the count that
    the store reported, over a connection that was entered and released;
    and whenever the call goes through in this way, the count of the store
    is what is returned. *)
Theorem maintenance_counts_come_from_the_store w :
  (exists n, (cleanup_cache w).1 = Ok n
     /\ (n <> 0%Z ->
         exists w1 d d',
           acquire_connection w = (Ok tt, w1)
           /\ sql_cleanup_cache (store w1) = (Ok (Some n), d)
           /\ pool_release d = (Ok tt, d')))
  /\ (exists n, (populate_from_existing w).1 = Ok n
        /\ (n <> 0%Z ->
            exists w1 d d',
              acquire_connection w = (Ok tt, w1)
              /\ sql_populate_cache_from_existing (store w1) = (Ok (Some n), d)
              /\ pool_release d = (Ok tt, d')))
  /\ (forall w1 n d d',
        acquire_connection w = (Ok tt, w1) ->
        pool_release d = (Ok tt, d') ->
        (sql_cleanup_cache (store w1) = (Ok (Some n), d) ->
         (cleanup_cache w).1 = Ok n)
        /\ (sql_populate_cache_from_existing (store w1) = (Ok (Some n), d) ->
            (populate_from_existing w).1 = Ok n)).
Proof.
  assert (Hint : forall n, int_or_0 (Some n) = n).
  { intros n. unfold int_or_0. destruct (Z.eqb_spec n 0); congruence. }
  assert (Hint' : forall n : Z, (if (n =? 0)%Z then 0%Z else n) = n).
  { intros n. destruct (Z.eqb_spec n 0); congruence. }
  split; [| split].
  - unfold cleanup_cache, try_except, cleanup_cache_try, get_connection,
      get_connection_with, bind. fold acquire_connection.
    destruct (acquire_connection w) as [[[] | e] w1] eqn:Ha;
      [| exists 0%Z; split; [reflexivity | congruence]].
    unfold async_with_exit, bind, call, raise, ret.
    destruct (sql_cleanup_cache (store w1)) as [[[n |] | e] d] eqn:Hs; simpl;
      destruct (pool_release d) as [[[] | e'] d'] eqn:Hr; simpl;
      try (exists 0%Z; split; [reflexivity | congruence]).
    exists n. split; [now rewrite ?Hint, ?Hint' |]. intros _.
    exists w1, d, d'. repeat split; assumption.
  - unfold populate_from_existing, try_except, populate_from_existing_try,
      get_connection, get_connection_with, bind. fold acquire_connection.
    destruct (acquire_connection w) as [[[] | e] w1] eqn:Ha;
      [| exists 0%Z; split; [reflexivity | congruence]].
    unfold async_with_exit, bind, call, raise, ret.
    destruct (sql_populate_cache_from_existing (store w1)) as [[[n |] | e] d] eqn:Hs;
      simpl;
      destruct (pool_release d) as [[[] | e'] d'] eqn:Hr; simpl;
      try (exists 0%Z; split; [reflexivity | congruence]).
    exists n. split; [now rewrite ?Hint, ?Hint' |]. intros _.
    exists w1, d, d'. repeat split; assumption.
  - intros w1 n d d' Ha Hr. split; intros Hs.
    + unfold cleanup_cache, try_except, cleanup_cache_try.
      rewrite (get_connection_entered _ _ _ Ha).
      unfold async_with_exit, bind, call, raise, ret. rewrite Hs. simpl.
      rewrite Hr. simpl. now rewrite ?Hint, ?Hint'.
    + unfold populate_from_existing, try_except, populate_from_existing_try.
      rewrite (get_connection_entered _ _ _ Ha).
      unfold async_with_exit, bind, call, raise, ret. rewrite Hs. simpl.
      rewrite Hr. simpl. now rewrite ?Hint, ?Hint'.
Qed.

End MaintenanceFacts.

Section PipelineFacts.
Context {DB : Type} `{RT : Runtime} `{BE : Backend DB}.

Implicit Types (w : World DB) (emb : embedding).

(** X10.  [process_query_with_cache] calls [llm_processor_func] only after
    a miss.  On a hit the answer comes from the cache and the world is the
    one the lookup has left, whatever the processor would do.  On a miss,
    when the processor raises, its exception is passed on to the caller and
    nothing is inserted: the world is the one the processor has left. *)
Theorem processor_failure_is_passed_on (user_question rephrased_query : string)
    emb (user_message_id : uuid)
    (llm_processor_func : string -> string -> embedding -> M (World DB) LlmResult)
    (start_time end_time : float) w :
  (forall hit w1,
     check_cache emb None w = (Ok (Some hit), w1) ->
     exists response,
       process_query_with_cache user_question rephrased_query emb user_message_id
         llm_processor_func start_time end_time w = (Ok response, w1)
       /\ source response = "cache"
       /\ answer response = assistant_answer hit)
  /\ (forall w1 e w2,
        check_cache emb None w = (Ok None, w1) ->
        llm_processor_func user_question rephrased_query emb w1 = (Raise e, w2) ->
        process_query_with_cache user_question rephrased_query emb user_message_id
          llm_processor_func start_time end_time w = (Raise e, w2)).
Proof.
  unfold process_query_with_cache, bind. split.
  - intros hit w1 ->. eexists. split; [reflexivity |]. now split.
  - intros w1 e w2 -> Hl. now rewrite Hl.
Qed.

Lemma persist_kwargs_self kwargs w :
  self (persist_kwargs kwargs w).2 = self w.
Proof.
  revert w. induction kwargs as [| [key value] rest IH]; intros w; [reflexivity |].
  cbn [persist_kwargs]. unfold bind.
  destruct (hasattr_CacheConfig key).
  - pose proof (call_self (UpsertConfig key value) (upsert_config key value) w) as Hs.
    destruct (call _ _ w) as [[[] | e] w1]; simpl in Hs; [| exact Hs].
    now rewrite IH.
  - unfold ret. apply IH.
Qed.

(** X11.  When [update_config] returns [True], the manager holds a pool and
    a policy afterwards, also when it was never initialised before: the
    call connects lazily and always reloads. *)
Theorem update_config_configures_the_manager kwargs w :
  (update_config kwargs w).1 = Ok true ->
  (exists p, _pool (self (update_config kwargs w).2) = Some p)
  /\ (exists c, _config (self (update_config kwargs w).2) = Some c).
Proof.
  unfold update_config, try_except, update_config_try, get_connection,
    get_connection_with, bind. fold acquire_connection.
  destruct (acquire_connection w) as [[[] | e] w1] eqn:Ha; [| discriminate].
  destruct (acquire_connection_has_pool _ _ Ha) as [p Hp].
  unfold async_with_exit, bind.
  pose proof (persist_kwargs_self kwargs w1) as Hs.
  destruct (persist_kwargs kwargs w1) as [[[] | e] w2]; simpl in Hs.
  - assert (Hp2 : _pool (self w2) = Some p) by now rewrite Hs.
    destruct (load_config_run w2 p Hp2) as (Hr & Hpool & c & Hc).
    destruct (_load_config w2) as [r w3]. simpl in *. subst r. unfold ret.
    pose proof (call_self PoolRelease pool_release w3) as Hs3.
    destruct (call PoolRelease pool_release w3) as [[[] | e] w4]; simpl in *;
      [| discriminate].
    intros _. rewrite Hs3. eauto.
  - destruct (call PoolRelease pool_release w2) as [[[] | e'] w4]; discriminate.
Qed.

End PipelineFacts.

(** * Further concrete runs *)

Section MoreRuns.
#[local] Existing Instance reference_runtime.

Lemma initialize_installs_pool_and_policy_witness :
  initialize (fresh_manager sample_db)
  = (Ok tt, (initialize (fresh_manager sample_db)).2)
  /\ _pool (self (initialize (fresh_manager sample_db)).2) = Some PoolHandle
  /\ _config (self (initialize (fresh_manager sample_db)).2) = Some CacheConfig_default
  /\ initialize (initialize (fresh_manager sample_db)).2
     = (Ok tt, (initialize (fresh_manager sample_db)).2).
Proof.
  assert (H : initialize (fresh_manager sample_db)
              = (Ok tt, (initialize (fresh_manager sample_db)).2))
    by (vm_compute; reflexivity).
  destruct (initialize_installs_pool_and_policy _ _ H) as (_ & _ & Hi).
  split; [exact H |]. split; [vm_compute; reflexivity |].
  split; [vm_compute; reflexivity | exact Hi].
Defined.

Lemma pool_creation_failure_is_retried_witness :
  create_pool down_db = (Raise ConnectionError, down_db)
  /\ check_cache unit_x None (closed_manager CacheConfig_default down_db)
     = (Ok None,
        {| self := self (closed_manager CacheConfig_default down_db);
           store := down_db;
           issued := [CreatePool] |})
  /\ add_to_cache "u2" "a2" "what is a share" unit_x
       (closed_manager CacheConfig_default down_db)
     = (Ok None,
        {| self := self (closed_manager CacheConfig_default down_db);
           store := down_db;
           issued := [CreatePool] |}).
Proof.
  assert (H : create_pool (store (closed_manager CacheConfig_default down_db))
              = (Raise ConnectionError, down_db)) by reflexivity.
  split; [exact H |].
  exact (pool_creation_failure_is_retried unit_x None "u2" "a2" "what is a share"
           (closed_manager CacheConfig_default down_db) CacheConfig_default
           ConnectionError down_db eq_refl eq_refl eq_refl H).
Defined.

Lemma build_config_reads_each_key_witness :
  malformed (config_dict_of malformed_rows)
  /\ build_config (config_dict_of malformed_rows) = Raise ValueError
  /\ ~ malformed (config_dict_of [("cache_enabled", "FALSE")])
  /\ build_config (config_dict_of [("cache_enabled", "FALSE")]) = Ok disabled_config.
Proof.
  assert (Hm : malformed (config_dict_of malformed_rows)).
  { right. exists "abc". split; vm_compute; reflexivity. }
  assert (Hn : ~ malformed (config_dict_of [("cache_enabled", "FALSE")])).
  { intros [(s & H & _) | (s & H & _)]; vm_compute in H; discriminate H. }
  destruct (build_config_reads_each_key (config_dict_of malformed_rows)) as (H1 & _).
  destruct (build_config_reads_each_key (config_dict_of [("cache_enabled", "FALSE")]))
    as (_ & H2 & _).
  split; [exact Hm |]. split; [exact (H1 Hm) |]. split; [exact Hn |].
  rewrite (H2 Hn). vm_compute. reflexivity.
Defined.

Lemma lookup_statements_witness :
  (acquire_connection (closed_manager CacheConfig_default sample_db)).1 = Ok tt
  /\ issued (acquire_connection (closed_manager CacheConfig_default sample_db)).2
     = [CreatePool; PoolAcquire; SelectConfig; PoolRelease; PoolAcquire]
  /\ exists tail,
       issued (check_cache unit_x None (closed_manager CacheConfig_default sample_db)).2
       = issued (acquire_connection (closed_manager CacheConfig_default sample_db)).2
         ++ tail
       /\ lookup_tail unit_x default_threshold tail.
Proof.
  destruct (lookup_statements unit_x None (closed_manager CacheConfig_default sample_db)
              CacheConfig_default eq_refl eq_refl) as (_ & _ & H).
  assert (Ha : (acquire_connection (closed_manager CacheConfig_default sample_db)).1
               = Ok tt) by (vm_compute; reflexivity).
  split; [exact Ha |]. split; [vm_compute; reflexivity |]. exact (H Ha).
Defined.

Lemma recorded_hit_is_a_miss_when_release_fails_witness :
  acquire_connection (BE := release_fails_backend) (ready CacheConfig_default sample_db)
  = (Ok tt, entered CacheConfig_default sample_db)
  /\ pool_release (Backend := release_fails_backend) (store after_hit_E)
     = (Raise ConnectionError, store after_hit_E)
  /\ check_cache (BE := release_fails_backend) unit_x None
       (ready CacheConfig_default sample_db)
     = (Ok None,
        {| self := self (entered CacheConfig_default sample_db);
           store := store after_hit_E;
           issued := [PoolAcquire] ++ [FindSimilarCachedQuery unit_x default_threshold;
                                       GetCachedAnswerDetails "E";
                                       RecordCacheHit "E";
                                       PoolRelease] |}).
Proof.
  assert (Ha : acquire_connection (BE := release_fails_backend)
                 (ready CacheConfig_default sample_db)
               = (Ok tt, entered CacheConfig_default sample_db))
    by (vm_compute; reflexivity).
  assert (Hr : pool_release (Backend := release_fails_backend) (store after_hit_E)
               = (Raise ConnectionError, store after_hit_E)) by reflexivity.
  split; [exact Ha |]. split; [exact Hr |].
  apply (recorded_hit_is_a_miss_when_release_fails (BE := release_fails_backend)
           unit_x None (ready CacheConfig_default sample_db)
           (entered CacheConfig_default sample_db) CacheConfig_default
           row_E sample_db answer_E sample_db (store after_hit_E)
           ConnectionError (store after_hit_E) eq_refl eq_refl Ha);
    try exact Hr; vm_compute; reflexivity.
Defined.

Lemma add_to_cache_returns_the_store_id_witness :
  acquire_connection (ready CacheConfig_default sample_db)
  = (Ok tt, entered CacheConfig_default sample_db)
  /\ add_cache_entry "u2" "a2" "what is a share" unit_x sample_db
     = (Ok (Some "0"),
        (add_cache_entry "u2" "a2" "what is a share" unit_x sample_db).2)
  /\ (add_to_cache "u2" "a2" "what is a share" unit_x
        (ready CacheConfig_default sample_db)).1 = Ok (Some "0")
  /\ (add_to_cache (BE := release_fails_backend) "u2" "a2" "what is a share" unit_x
        (ready CacheConfig_default sample_db)).1 = Ok None
  /\ entries (store (add_to_cache (BE := release_fails_backend) "u2" "a2"
                       "what is a share" unit_x
                       (ready CacheConfig_default sample_db)).2) !! "0"
     = entries (add_cache_entry "u2" "a2" "what is a share" unit_x sample_db).2 !! "0"
  /\ str_if_truthy (Some "0") = Some "0".
Proof.
  assert (Ha : acquire_connection (ready CacheConfig_default sample_db)
               = (Ok tt, entered CacheConfig_default sample_db))
    by (vm_compute; reflexivity).
  assert (Hadd : add_cache_entry "u2" "a2" "what is a share" unit_x
                   (store (entered CacheConfig_default sample_db))
                 = (Ok (Some "0"),
                    (add_cache_entry "u2" "a2" "what is a share" unit_x sample_db).2))
    by (vm_compute; reflexivity).
  assert (Ha' : acquire_connection (BE := release_fails_backend)
                  (ready CacheConfig_default sample_db)
                = (Ok tt, entered CacheConfig_default sample_db))
    by (vm_compute; reflexivity).
  destruct (add_to_cache_returns_the_store_id "u2" "a2" "what is a share" unit_x
              (ready CacheConfig_default sample_db)
              (entered CacheConfig_default sample_db) CacheConfig_default _ _
              eq_refl eq_refl Ha Hadd) as (Hok & _ & _ & Hid).
  destruct (add_to_cache_returns_the_store_id (BE := release_fails_backend)
              "u2" "a2" "what is a share" unit_x
              (ready CacheConfig_default sample_db)
              (entered CacheConfig_default sample_db) CacheConfig_default _ _
              eq_refl eq_refl Ha' Hadd) as (_ & Hfail & _).
  pose proof (Hfail ConnectionError _ eq_refl) as Hf.
  split; [exact Ha |]. split; [exact Hadd |].
  split.
  { rewrite (Hok (add_cache_entry "u2" "a2" "what is a share" unit_x sample_db).2);
      [reflexivity | vm_compute; reflexivity]. }
  split; [now rewrite Hf |].
  split; [now rewrite Hf |].
  apply Hid; [reflexivity | discriminate].
Defined.

Lemma close_keeps_the_policy_witness :
  close (ready CacheConfig_default sample_db)
  = (Ok tt, (close (ready CacheConfig_default sample_db)).2)
  /\ _pool (self (close (ready CacheConfig_default sample_db)).2) = None
  /\ _config (self (close (ready CacheConfig_default sample_db)).2)
     = Some CacheConfig_default
  /\ exists rest,
       issued (check_cache unit_x None (close (ready CacheConfig_default sample_db)).2).2
       = issued (close (ready CacheConfig_default sample_db)).2 ++ CreatePool :: rest.
Proof.
  assert (H : close (ready CacheConfig_default sample_db)
              = (Ok tt, (close (ready CacheConfig_default sample_db)).2))
    by (vm_compute; reflexivity).
  destruct (close_keeps_the_policy unit_x None _ _ CacheConfig_default H eq_refl eq_refl)
    as (H1 & H2 & _ & H4).
  repeat split; assumption.
Defined.

Lemma maintenance_counts_come_from_the_store_witness :
  acquire_connection (ready CacheConfig_default over_capacity_db)
  = (Ok tt, entered CacheConfig_default over_capacity_db)
  /\ (sql_cleanup_cache over_capacity_db).1 = Ok (Some 1%Z)
  /\ (cleanup_cache (ready CacheConfig_default over_capacity_db)).1 = Ok 1%Z
  /\ entries (store (cleanup_cache (ready CacheConfig_default over_capacity_db)).2) = ∅
  /\ (exists w1 d d',
        acquire_connection (ready CacheConfig_default over_capacity_db) = (Ok tt, w1)
        /\ sql_cleanup_cache (store w1) = (Ok (Some 1%Z), d)
        /\ pool_release d = (Ok tt, d'))
  /\ acquire_connection (ready CacheConfig_default history_db)
     = (Ok tt, entered CacheConfig_default history_db)
  /\ (sql_populate_cache_from_existing history_db).1 = Ok (Some 1%Z)
  /\ (populate_from_existing (ready CacheConfig_default history_db)).1 = Ok 1%Z
  /\ (exists w1 d d',
        acquire_connection (ready CacheConfig_default history_db) = (Ok tt, w1)
        /\ sql_populate_cache_from_existing (store w1) = (Ok (Some 1%Z), d)
        /\ pool_release d = (Ok tt, d'))
  /\ (cleanup_cache (ready CacheConfig_default empty_db)).1 = Ok 0%Z
  /\ (populate_from_existing (ready CacheConfig_default empty_db)).1 = Ok 0%Z.
Proof.
  destruct (maintenance_counts_come_from_the_store
              (ready CacheConfig_default over_capacity_db))
    as ((n & Hn & Hfrom) & _ & Hc).
  destruct (maintenance_counts_come_from_the_store
              (ready CacheConfig_default history_db))
    as (_ & (m & Hm & Hfrom') & Hp).
  destruct (maintenance_counts_come_from_the_store
              (ready CacheConfig_default empty_db)) as (_ & _ & He).
  assert (Ha : acquire_connection (ready CacheConfig_default over_capacity_db)
               = (Ok tt, entered CacheConfig_default over_capacity_db))
    by (vm_compute; reflexivity).
  assert (Ha' : acquire_connection (ready CacheConfig_default history_db)
                = (Ok tt, entered CacheConfig_default history_db))
    by (vm_compute; reflexivity).
  assert (Ha0 : acquire_connection (ready CacheConfig_default empty_db)
                = (Ok tt, entered CacheConfig_default empty_db))
    by (vm_compute; reflexivity).
  assert (Hs : sql_cleanup_cache (store (entered CacheConfig_default over_capacity_db))
               = (Ok (Some 1%Z), (sql_cleanup_cache over_capacity_db).2))
    by (vm_compute; reflexivity).
  assert (Hs' : sql_populate_cache_from_existing
                  (store (entered CacheConfig_default history_db))
                = (Ok (Some 1%Z), (sql_populate_cache_from_existing history_db).2))
    by (vm_compute; reflexivity).
  assert (Hr : pool_release (sql_cleanup_cache over_capacity_db).2
               = (Ok tt, (sql_cleanup_cache over_capacity_db).2))
    by (vm_compute; reflexivity).
  assert (Hr' : pool_release (sql_populate_cache_from_existing history_db).2
                = (Ok tt, (sql_populate_cache_from_existing history_db).2))
    by (vm_compute; reflexivity).
  pose proof (proj1 (Hc _ 1%Z _ _ Ha Hr) Hs) as C1.
  pose proof (proj2 (Hp _ 1%Z _ _ Ha' Hr') Hs') as P1.
  assert (En : n = 1%Z) by (rewrite C1 in Hn; now injection Hn).
  assert (Em : m = 1%Z) by (rewrite P1 in Hm; now injection Hm).
  subst n m.
  split; [exact Ha |]. split; [vm_compute; reflexivity |]. split; [exact C1 |].
  split; [vm_compute; reflexivity |].
  split; [apply Hfrom; discriminate |].
  split; [exact Ha' |]. split; [vm_compute; reflexivity |]. split; [exact P1 |].
  split; [apply Hfrom'; discriminate |].
  split.
  - apply (proj1 (He _ 0%Z empty_db empty_db Ha0 eq_refl)). vm_compute. reflexivity.
  - apply (proj2 (He _ 0%Z empty_db empty_db Ha0 eq_refl)). vm_compute. reflexivity.
Defined.

Lemma processor_failure_is_passed_on_witness :
  check_cache unit_y None (ready CacheConfig_default sample_db)
  = (Ok None, (check_cache unit_y None (ready CacheConfig_default sample_db)).2)
  /\ process_query_with_cache "What is a share?" "what is a share" unit_y "u2"
       failing_processor 0%float 1%float (ready CacheConfig_default sample_db)
     = (Raise TimeoutError,
        (check_cache unit_y None (ready CacheConfig_default sample_db)).2)
  /\ check_cache unit_x None (ready CacheConfig_default sample_db)
     = (Ok (Some hit_E), after_hit_E)
  /\ exists response,
       process_query_with_cache "What is a bond?" "what is a bond" unit_x "u3"
         failing_processor 0%float 1%float (ready CacheConfig_default sample_db)
       = (Ok response, after_hit_E)
       /\ source response = "cache"
       /\ answer response = "A bond is a loan to an issuer.".
Proof.
  assert (Hm : check_cache unit_y None (ready CacheConfig_default sample_db)
               = (Ok None, (check_cache unit_y None (ready CacheConfig_default sample_db)).2))
    by (vm_compute; reflexivity).
  assert (Hh : check_cache unit_x None (ready CacheConfig_default sample_db)
               = (Ok (Some hit_E), after_hit_E))
    by (vm_compute; reflexivity).
  split; [exact Hm |]. split.
  - destruct (processor_failure_is_passed_on "What is a share?" "what is a share"
                unit_y "u2" failing_processor 0%float 1%float
                (ready CacheConfig_default sample_db)) as (_ & H).
    exact (H _ TimeoutError _ Hm eq_refl).
  - split; [exact Hh |].
    destruct (processor_failure_is_passed_on "What is a bond?" "what is a bond"
                unit_x "u3" failing_processor 0%float 1%float
                (ready CacheConfig_default sample_db)) as (H & _).
    destruct (H _ _ Hh) as (response & Hp & Hs & Hans).
    exists response. split; [exact Hp |]. split; [exact Hs |]. exact Hans.
Defined.

Lemma update_config_configures_the_manager_witness :
  (update_config mixed_batch (fresh_manager sample_db)).1 = Ok true
  /\ (exists p, _pool (self (update_config mixed_batch (fresh_manager sample_db)).2)
                = Some p)
  /\ (exists c, _config (self (update_config mixed_batch (fresh_manager sample_db)).2)
                = Some c).
Proof.
  assert (H : (update_config mixed_batch (fresh_manager sample_db)).1 = Ok true)
    by (vm_compute; reflexivity).
  split; [exact H |].
  exact (update_config_configures_the_manager mixed_batch (fresh_manager sample_db) H).
Defined.

End MoreRuns.

(** * The process-wide manager *)

Section SingletonFacts.
Context {DB : Type} `{RT : Runtime} `{BE : Backend DB}.

Implicit Types (p : Process DB) (emb : embedding).

Lemma process_eta p :
  {| _cache_manager := _cache_manager p;
     process_store := process_store p;
     process_issued := process_issued p |} = p.
Proof. now destruct p. Qed.

Lemma manager_eta (m : QueryCacheManager) :
  {| database_url := database_url m; pool_size := pool_size m; fields := fields m |} = m.
Proof. now destruct m. Qed.

(** X12.  [get_cache_manager] never replaces a manager that exists and
    never talks to the store.  With no manager and no usable URL it returns
    [None].  With a URL it creates a manager but does not initialise it:
    the manager has neither pool nor policy, so lookups and insertions on it
    return [None] and leave everything as it is. *)
Theorem get_cache_manager_does_not_initialise (url : option string) p :
  (forall m, _cache_manager p = Some m -> get_cache_manager url p = (Ok (Some m), p))
  /\ (_cache_manager p = None -> str_truthy url = false ->
      get_cache_manager url p = (Ok None, p))
  /\ (forall u,
        _cache_manager p = None -> url = Some u -> str_truthy url = true ->
        exists p',
          get_cache_manager url p = (Ok (Some (QueryCacheManager_new u)), p')
          /\ _cache_manager p' = Some (QueryCacheManager_new u)
          /\ process_store p' = process_store p
          /\ process_issued p' = process_issued p
          /\ (forall emb thr,
                on_manager (QueryCacheManager_new u) (check_cache emb thr) p'
                = (Ok None, p'))
          /\ (forall user assistant q emb,
                on_manager (QueryCacheManager_new u)
                  (add_to_cache user assistant q emb) p'
                = (Ok None, p'))).
Proof.
  split; [| split].
  - intros m Hm. unfold get_cache_manager. now rewrite Hm.
  - intros Hn Hu. unfold get_cache_manager. rewrite Hn.
    destruct url as [u |]; [| reflexivity]. now rewrite Hu.
  - intros u Hn -> Hu. unfold get_cache_manager. rewrite Hn, Hu.
    unfold bind, set_cache_manager. simpl.
    eexists. split; [reflexivity |]. simpl. repeat split; reflexivity.
Qed.

(** X13.  [initialize_cache] installs a new manager whatever was there
    before, and never closes a pool.  When it returns, the manager it
    returns is the global one, made for the given URL, with a pool and a
    policy.  It fails only when the pool cannot be created, and then the
    global holds the new manager without pool and policy. *)
Theorem initialize_cache_replaces_the_manager (url : string) p :
  (exists l,
     process_issued (initialize_cache url p).2 = process_issued p ++ l
     /\ Forall pool_or_config l)
  /\ (forall r p',
        initialize_cache url p = (Ok r, p') ->
        r = _cache_manager p'
        /\ exists m pool c,
             r = Some m /\ database_url m = url
             /\ _pool (fields m) = Some pool /\ _config (fields m) = Some c)
  /\ (forall e p',
        initialize_cache url p = (Raise e, p') ->
        (create_pool (process_store p)).1 = Raise e
        /\ _cache_manager p' = Some (QueryCacheManager_new url)
        /\ process_issued p' = process_issued p ++ [CreatePool]).
Proof.
  unfold initialize_cache, bind, set_cache_manager, on_manager. simpl.
  set (w0 := {| self := {| _pool := None; _config := None |};
                store := process_store p; issued := process_issued p |}).
  assert (Hgrow : adds_only pool_or_config w0 (initialize w0).2).
  { destruct (initialize w0) as [r w1] eqn:E. simpl. revert E.
    apply (keeps_initialize_fuel (adds_only pool_or_config));
      try (intros; apply adds_only_call; unfold pool_or_config; set_solver).
    - apply adds_only_refl.
    - apply adds_only_trans.
    - intros w m. exists []. split; [simpl; now rewrite app_nil_r | constructor]. }
  destruct (initialize w0) as [[[] | e] w1] eqn:Hi; simpl in *.
  - split; [exact Hgrow |]. split; [| discriminate].
    intros r p' [= <- <-]. split; [reflexivity |].
    destruct (initialize_ok _ _ Hi) as ((pool & Hp) & Hc & _).
    destruct (Hc eq_refl) as (c & Hc').
    eexists _, pool, c. repeat split; simpl; assumption.
  - split; [exact Hgrow |]. split; [discriminate |].
    intros e' p' [= <- <-].
    destruct (initialize_raise _ _ _ Hi) as (_ & Hcreate & ->). simpl.
    repeat split; assumption.
Qed.

(** X14.  [close_cache] does nothing when there is no manager.  When it
    returns, the global is empty, a second [close_cache] does nothing, and
    the dependency of the endpoints answers with the 500 error.  When
    closing the pool fails, the exception is passed on and the global keeps
    the manager as it was. *)
Theorem close_cache_forgets_the_manager p :
  (_cache_manager p = None -> close_cache p = (Ok tt, p))
  /\ (forall p',
        close_cache p = (Ok tt, p') ->
        _cache_manager p' = None
        /\ close_cache p' = (Ok tt, p')
        /\ get_cache_dep p' = (HTTPException 500 "Cache manager not initialized", p'))
  /\ (forall e p',
        close_cache p = (Raise e, p') ->
        _cache_manager p' = _cache_manager p
        /\ process_issued p' = process_issued p ++ [PoolClose]).
Proof.
  assert (Hnone : forall p0, _cache_manager p0 = None ->
            close_cache p0 = (Ok tt, p0)
            /\ get_cache_dep p0 = (HTTPException 500 "Cache manager not initialized", p0)).
  { intros p0 H0. unfold close_cache, get_cache_dep, get_cache_manager.
    now rewrite H0. }
  split; [apply Hnone |]. split.
  - intros p' H.
    assert (Hp' : _cache_manager p' = None).
    { revert H. unfold close_cache.
      destruct (_cache_manager p) as [m |] eqn:Hm; [| now intros [= <-]].
      unfold bind, set_cache_manager, on_manager.
      destruct (close _) as [[[] | e] w1]; [| discriminate].
      now intros [= <-]. }
    split; [exact Hp' |]. apply Hnone, Hp'.
  - intros e p'. unfold close_cache.
    destruct (_cache_manager p) as [m |] eqn:Hm; [| discriminate].
    unfold bind, on_manager, close. simpl.
    destruct (_pool (fields m)) as [pool |] eqn:Hpool; [| discriminate].
    unfold bind, call, set_pool. simpl.
    destruct (pool_close (process_store p)) as [[[] | e'] d]; [discriminate |].
    intros [= <- <-]. simpl. now rewrite manager_eta.
Qed.


End SingletonFacts.

Section SingletonRuns.
#[local] Existing Instance reference_runtime.

Lemma get_cache_manager_does_not_initialise_witness :
  get_cache_manager None (empty_process sample_db) = (Ok None, empty_process sample_db)
  /\ exists p',
       get_cache_manager (Some dev_url) (empty_process sample_db)
       = (Ok (Some (QueryCacheManager_new dev_url)), p')
       /\ on_manager (QueryCacheManager_new dev_url) (check_cache unit_x None) p'
          = (Ok None, p')
       /\ get_cache_manager (Some "postgresql://elsewhere/db") p'
          = (Ok (Some (QueryCacheManager_new dev_url)), p').
Proof.
  destruct (get_cache_manager_does_not_initialise None (empty_process sample_db))
    as (_ & Hnone & _).
  destruct (get_cache_manager_does_not_initialise (Some dev_url)
              (empty_process sample_db)) as (_ & _ & Hnew).
  split; [apply Hnone; reflexivity |].
  destruct (Hnew dev_url eq_refl eq_refl eq_refl)
    as (p' & Hget & Hglobal & _ & _ & Hcheck & _).
  exists p'. split; [exact Hget |]. split; [apply Hcheck |].
  destruct (get_cache_manager_does_not_initialise
              (Some "postgresql://elsewhere/db") p') as (Hkeep & _).
  apply Hkeep, Hglobal.
Defined.

Lemma initialize_cache_replaces_the_manager_witness :
  initialize_cache dev_url (empty_process sample_db)
  = (Ok (Some initialised_manager), (initialize_cache dev_url (empty_process sample_db)).2)
  /\ _cache_manager (initialize_cache dev_url (empty_process sample_db)).2
     = Some initialised_manager
  /\ initialize_cache dev_url (empty_process down_db)
     = (Raise ConnectionError, (initialize_cache dev_url (empty_process down_db)).2)
  /\ _cache_manager (initialize_cache dev_url (empty_process down_db)).2
     = Some (QueryCacheManager_new dev_url)
  /\ process_issued (initialize_cache dev_url (empty_process down_db)).2 = [CreatePool].
Proof.
  assert (Hok : initialize_cache dev_url (empty_process sample_db)
                = (Ok (Some initialised_manager),
                   (initialize_cache dev_url (empty_process sample_db)).2))
    by (vm_compute; reflexivity).
  assert (Hfail : initialize_cache dev_url (empty_process down_db)
                  = (Raise ConnectionError,
                     (initialize_cache dev_url (empty_process down_db)).2))
    by (vm_compute; reflexivity).
  destruct (initialize_cache_replaces_the_manager dev_url (empty_process sample_db))
    as (_ & H1 & _).
  destruct (initialize_cache_replaces_the_manager dev_url (empty_process down_db))
    as (_ & _ & H2).
  destruct (H1 _ _ Hok) as (Hr & _).
  destruct (H2 _ _ Hfail) as (_ & Hg & Hi).
  split; [exact Hok |]. split; [symmetry; exact Hr |].
  split; [exact Hfail |]. split; [exact Hg | exact Hi].
Defined.

Lemma close_cache_forgets_the_manager_witness :
  close_cache (initialize_cache dev_url (empty_process sample_db)).2
  = (Ok tt, (close_cache (initialize_cache dev_url (empty_process sample_db)).2).2)
  /\ _cache_manager
       (close_cache (initialize_cache dev_url (empty_process sample_db)).2).2 = None
  /\ get_cache_dep (close_cache (initialize_cache dev_url (empty_process sample_db)).2).2
     = (HTTPException 500 "Cache manager not initialized",
        (close_cache (initialize_cache dev_url (empty_process sample_db)).2).2)
  /\ process_issued
       (close_cache (initialize_cache dev_url (empty_process sample_db)).2).2
     = [CreatePool; PoolAcquire; SelectConfig; PoolRelease; PoolClose].
Proof.
  assert (H : close_cache (initialize_cache dev_url (empty_process sample_db)).2
              = (Ok tt,
                 (close_cache (initialize_cache dev_url (empty_process sample_db)).2).2))
    by (vm_compute; reflexivity).
  destruct (close_cache_forgets_the_manager
              (initialize_cache dev_url (empty_process sample_db)).2) as (_ & Hc & _).
  destruct (Hc _ H) as (H1 & _ & H3).
  split; [exact H |]. split; [exact H1 |]. split; [exact H3 |].
  vm_compute. reflexivity.
Defined.


End SingletonRuns.

(** * The setup script *)

Section SetupFacts.
Context {DB : Type} `{SB : SetupBackend DB}.

Implicit Types (s : SetupWorld DB) (stmt : pystr).

Lemma try_except_returns {A : Type} (body : M (SetupWorld DB) A) (a : A) s :
  exists r, (try_except body (fun _ => ret a) s).1 = Ok r.
Proof.
  unfold try_except, ret. destruct (body s) as [[r | e] s']; simpl; eauto.
Qed.

Lemma py_lstrip_suffix (t : pystr) : exists blanks, t = blanks ++ py_lstrip t.
Proof.
  induction t as [| c t IH]; [now exists [] |]. simpl.
  destruct (py_isspace c); [| now exists []].
  destruct IH as [blanks E]. exists (c :: blanks). simpl. now rewrite <- E.
Qed.

Lemma py_lstrip_head (t : pystr) c :
  head (py_lstrip t) = Some c -> py_isspace c = false.
Proof.
  induction t as [| c0 t IH]; [discriminate |]. simpl.
  destruct (py_isspace c0) eqn:E; [exact IH |]. now intros [= <-].
Qed.

Lemma last_rev (t : pystr) : last (rev t) = head t.
Proof. destruct t as [| c t]; [reflexivity |]. simpl. apply last_snoc. Qed.

(** What [strip()] returns is a stretch of the text, with no blank at
    either end. *)
Lemma py_strip_stretch (t : pystr) :
  (exists before after, t = before ++ py_strip t ++ after)
  /\ (forall c, head (py_strip t) = Some c -> py_isspace c = false)
  /\ (forall c, last (py_strip t) = Some c -> py_isspace c = false).
Proof.
  unfold py_strip.
  destruct (py_lstrip_suffix t) as [before E1].
  destruct (py_lstrip_suffix (rev (py_lstrip t))) as [blanks E2].
  set (a := py_lstrip t) in *. set (b := py_lstrip (rev a)) in *.
  assert (Ea : a = rev b ++ rev blanks).
  { rewrite <- (rev_involutive a), E2, rev_app_distr. reflexivity. }
  split; [| split].
  - exists before, (rev blanks). now rewrite <- Ea.
  - intros c Hc. apply (py_lstrip_head t). fold a. rewrite Ea.
    destruct (rev b); [discriminate | exact Hc].
  - intros c Hc. apply (py_lstrip_head (rev a)). fold b.
    now rewrite <- last_rev.
Qed.

Lemma split_semicolon_nonempty (t : pystr) : split_semicolon t <> [].
Proof.
  destruct t as [| c t]; simpl; [discriminate |].
  destruct (c =? semicolon)%N; [discriminate |].
  destruct (split_semicolon t); discriminate.
Qed.

Lemma split_semicolon_free (t : pystr) piece :
  piece ∈ split_semicolon t -> semicolon ∉ piece.
Proof.
  revert piece. induction t as [| c t IH]; intros piece; simpl.
  - intros H. apply list_elem_of_singleton in H as ->. apply not_elem_of_nil.
  - destruct (N.eqb_spec c semicolon) as [-> | Hc].
    + intros H. apply elem_of_cons in H as [-> | H];
        [apply not_elem_of_nil | now apply IH].
    + destruct (split_semicolon t) as [| first pieces] eqn:E.
      * now destruct (split_semicolon_nonempty t).
      * intros H. apply elem_of_cons in H as [-> | H].
        -- intros Hin. apply elem_of_cons in Hin as [Hin | Hin]; [congruence |].
           apply (IH first); [left | exact Hin].
        -- apply IH. now right.
Qed.

Lemma sql_statements_clean (sql_content : pystr) stmt :
  stmt ∈ sql_statements sql_content ->
  is_schema_statement stmt = true ->
  clean_statement stmt.
Proof.
  unfold sql_statements. rewrite list_elem_of_omap.
  intros (piece & Hin & Hs) Hk.
  destruct (py_strip piece) as [| c0 rest] eqn:E; [discriminate |].
  injection Hs as <-.
  destruct (py_strip_stretch piece) as ((before & after & Ep) & Hh & Hl).
  rewrite E in *.
  split; [discriminate |]. split; [| split; [exact Hh | split; [exact Hl | exact Hk]]].
  intros Hsemi. apply (split_semicolon_free _ _ Hin). rewrite Ep.
  apply elem_of_app. right. apply elem_of_app. now left.
Qed.

(** The loop sends the statements that begin with a keyword, one after the
    other, whatever the database answers, and returns. *)
Lemma run_statements_log (statements : list pystr) s :
  (run_statements statements s).1 = Ok tt
  /\ setup_issued (run_statements statements s).2
     = setup_issued s ++ map Execute (List.filter is_schema_statement statements).
Proof.
  revert s. induction statements as [| stmt rest IH]; intros s.
  - simpl. split; [reflexivity | now rewrite app_nil_r].
  - cbn [run_statements List.filter]. unfold bind.
    destruct (is_schema_statement stmt).
    + unfold try_except, setup_call, ret.
      destruct (execute stmt (setup_store s)) as [[[] | e] d]; simpl;
        (destruct (IH {| setup_store := d;
                         setup_issued := setup_issued s ++ [Execute stmt] |})
           as [H1 H2]; split; [exact H1 |]; rewrite H2; simpl;
         now rewrite <- app_assoc).
    + unfold ret. apply IH.
Qed.

(** X16.  [run_sql_file] on a file that can be read never raises, whatever
    the database answers to the statements, and what it sends does not
    depend on those answers: one [execute] for each piece between
    semicolons that, once stripped, begins with create, insert, alter or
    drop in any casing, in the order of the file.  So every statement sent
    is free of semicolons, not empty, and has no blank at either end; a
    statement with a semicolon inside, or with anything before its keyword,
    is never sent whole. *)
Theorem run_sql_file_sends_clean_statements (sql_file : SqlFile)
    (sql_content : pystr) s :
  read_text sql_file = Ok sql_content ->
  (run_sql_file sql_file s).1 = Ok tt
  /\ setup_issued (run_sql_file sql_file s).2
     = setup_issued s
       ++ map Execute (List.filter is_schema_statement (sql_statements sql_content))
  /\ Forall clean_statement
       (List.filter is_schema_statement (sql_statements sql_content)).
Proof.
  intros Hr. unfold run_sql_file. rewrite Hr.
  destruct (run_statements_log (sql_statements sql_content) s) as [H1 H2].
  split; [exact H1 |]. split; [exact H2 |].
  apply Forall_forall. intros stmt Hin.
  apply list_elem_of_In, filter_In in Hin as [Hin Hk].
  apply sql_statements_clean with (sql_content := sql_content); [| exact Hk].
  now apply list_elem_of_In.
Qed.

(** The file that [setup_database] runs. *)
Lemma setup_database_run (files : string -> SqlFile) (sql_file_path : option string) s :
  exists sql_file,
    sql_file = match sql_file_path with
               | Some (String c path) => files (String c path)
               | _ => files default_sql_file
               end
    /\ setup_database files sql_file_path s
       = try_except
           (let* _ := setup_call Connect connect in
            if negb (file_exists sql_file) then ret false
            else let* _ := run_sql_file sql_file in
                 let* _ := setup_call ConnClose conn_close in
                 ret true)
           (fun _ => ret false) s.
Proof. eexists. split; reflexivity. Qed.

(** X17.  [setup_database] always returns a boolean.  When the connection
    is made and the file is missing, it returns [False] and the connection
    is never closed.  When the connection is made, the file is there and
    can be read, and the connection closes, it returns [True], whatever the
    database answered to the statements: also when every one was
    rejected.  And [True] is returned in no other case. *)
Theorem setup_database_reports_the_connection_not_the_schema
    (files : string -> SqlFile) (sql_file_path : option string) s :
  let sql_file := match sql_file_path with
                  | Some (String c path) => files (String c path)
                  | _ => files default_sql_file
                  end in
  (exists b, (setup_database files sql_file_path s).1 = Ok b)
  /\ (forall d,
        connect (setup_store s) = (Ok tt, d) ->
        file_exists sql_file = false ->
        setup_database files sql_file_path s
        = (Ok false, {| setup_store := d; setup_issued := setup_issued s ++ [Connect] |}))
  /\ (forall d sql_content,
        connect (setup_store s) = (Ok tt, d) ->
        file_exists sql_file = true ->
        read_text sql_file = Ok sql_content ->
        (conn_close
           (setup_store
              (run_statements (sql_statements sql_content)
                 {| setup_store := d; setup_issued := setup_issued s ++ [Connect] |}).2)).1
        = Ok tt ->
        (setup_database files sql_file_path s).1 = Ok true)
  /\ ((setup_database files sql_file_path s).1 = Ok true ->
      (connect (setup_store s)).1 = Ok tt
      /\ file_exists sql_file = true
      /\ (exists sql_content, read_text sql_file = Ok sql_content)
      /\ last (setup_issued (setup_database files sql_file_path s).2) = Some ConnClose).
Proof.
  intros sql_file.
  destruct (setup_database_run files sql_file_path s) as (f & Hf & Hrun).
  fold sql_file in Hf. subst f. rewrite Hrun. clear Hrun.
  split; [apply try_except_returns |].
  unfold try_except, bind, setup_call.
  split; [| split].
  - intros d Hc He. rewrite Hc, He. reflexivity.
  - intros d sql_content Hc He Hr Hclose. rewrite Hc, He. simpl.
    unfold run_sql_file. rewrite Hr.
    destruct (run_statements_log (sql_statements sql_content)
                {| setup_store := d; setup_issued := setup_issued s ++ [Connect] |})
      as [H1 _].
    destruct (run_statements _ _) as [r s2]. simpl in *. subst r.
    destruct (conn_close (setup_store s2)) as [[[] | e] d3]; [reflexivity | discriminate].
  - destruct (connect (setup_store s)) as [[[] | e] d]; [| discriminate].
    destruct (file_exists sql_file); [| discriminate]. simpl.
    unfold run_sql_file. destruct (read_text sql_file) as [sql_content | e];
      [| discriminate].
    destruct (run_statements _ _) as [[[] | e] s2]; [| discriminate].
    destruct (conn_close (setup_store s2)) as [[[] | e] d3]; [| discriminate].
    simpl. intros _. repeat split; eauto. now rewrite last_snoc.
Qed.

(** X18.  [populate_cache] of the setup script always returns a number.  A
    number other than 0 is the count that the populate statement reported,
    on a run in which the connection was made and closed.  When the
    populate statement fails after the connection was made, the result is
    0 and the connection is never closed. *)
Theorem script_populate_cache_counts s :
  (exists n, (populate_cache s).1 = Ok n
     /\ (n <> 0%Z ->
         exists d1 d2,
           connect (setup_store s) = (Ok tt, d1)
           /\ select_populate d1 = (Ok (Some n), d2)
           /\ last (setup_issued (populate_cache s).2) = Some ConnClose))
  /\ (forall d1 e d2,
        connect (setup_store s) = (Ok tt, d1) ->
        select_populate d1 = (Raise e, d2) ->
        populate_cache s
        = (Ok 0%Z, {| setup_store := d2;
                      setup_issued := setup_issued s ++ [Connect; SelectPopulate] |})).
Proof.
  assert (Hint : forall n : Z, (if (n =? 0)%Z then 0%Z else n) = n).
  { intros n. destruct (Z.eqb_spec n 0); congruence. }
  unfold populate_cache, try_except, bind, setup_call, ret. split.
  - destruct (connect (setup_store s)) as [[[] | e] d1] eqn:Hc; simpl;
      [| exists 0%Z; split; [reflexivity | congruence]].
    destruct (select_populate d1) as [[count | e] d2] eqn:Hp; simpl;
      [| exists 0%Z; split; [reflexivity | congruence]].
    destruct (select_pending_count d2) as [[pending | e] d3]; simpl;
      [| exists 0%Z; split; [reflexivity | congruence]].
    destruct (conn_close d3) as [[[] | e] d4]; simpl;
      [| exists 0%Z; split; [reflexivity | congruence]].
    destruct count as [n |]; simpl;
      [| exists 0%Z; split; [reflexivity | congruence]].
    exists n. rewrite Hint. split; [reflexivity |]. intros _.
    exists d1, d2. split; [reflexivity |]. split; [exact Hp |]. apply last_snoc.
  - intros d1 e d2 Hc Hp. rewrite Hc. simpl. rewrite Hp. simpl.
    now rewrite <- app_assoc.
Qed.

End SetupFacts.

Section SetupRuns.

Lemma run_sql_file_sends_clean_statements_witness :
  read_text (sample_files default_sql_file) = Ok sample_sql
  /\ run_sql_file (sample_files default_sql_file) (setup_start rejecting_db)
     = (Ok tt,
        {| setup_store := rejecting_db;
           setup_issued :=
             [Execute (code_points
                "create function f() returns int as $$ begin return 1")] |})
  /\ Forall clean_statement
       (List.filter is_schema_statement (sql_statements sample_sql)).
Proof.
  destruct (run_sql_file_sends_clean_statements (sample_files default_sql_file)
              sample_sql (setup_start rejecting_db) eq_refl) as (_ & _ & H).
  split; [reflexivity |]. split; [vm_compute; reflexivity | exact H].
Defined.

Lemma setup_database_reports_the_connection_not_the_schema_witness :
  connect rejecting_db = (Ok tt, rejecting_db)
  /\ setup_database no_files None (setup_start rejecting_db)
     = (Ok false, {| setup_store := rejecting_db; setup_issued := [Connect] |})
  /\ (setup_database sample_files None (setup_start rejecting_db)).1 = Ok true
  /\ applied (setup_store (setup_database sample_files None
                             (setup_start rejecting_db)).2) = [].
Proof.
  destruct (setup_database_reports_the_connection_not_the_schema no_files None
              (setup_start rejecting_db)) as (_ & Hmissing & _).
  destruct (setup_database_reports_the_connection_not_the_schema sample_files None
              (setup_start rejecting_db)) as (_ & _ & Htrue & _).
  split; [reflexivity |].
  split; [exact (Hmissing rejecting_db eq_refl eq_refl) |].
  split; [exact (Htrue rejecting_db sample_sql eq_refl eq_refl eq_refl eq_refl) |].
  vm_compute. reflexivity.
Defined.

Lemma script_populate_cache_counts_witness :
  connect rejecting_db = (Ok tt, rejecting_db)
  /\ select_populate rejecting_db = (Raise (PostgresError "42883"), rejecting_db)
  /\ populate_cache (setup_start rejecting_db)
     = (Ok 0%Z, {| setup_store := rejecting_db;
                   setup_issued := [Connect; SelectPopulate] |})
  /\ (populate_cache (setup_start backlog_db)).1 = Ok 7%Z
  /\ last (setup_issued (populate_cache (setup_start backlog_db)).2) = Some ConnClose.
Proof.
  destruct (script_populate_cache_counts (setup_start rejecting_db)) as (_ & Hfail).
  destruct (script_populate_cache_counts (setup_start backlog_db))
    as ((n & Hn & Hclose) & _).
  assert (E : n = 7%Z) by (vm_compute in Hn; congruence). subst n.
  split; [reflexivity |]. split; [reflexivity |].
  split; [exact (Hfail rejecting_db (PostgresError "42883") rejecting_db
                   eq_refl eq_refl) |].
  split; [exact Hn |].
  destruct Hclose as (_ & _ & _ & _ & H); [discriminate | exact H].
Defined.

End SetupRuns.
